(** * Stop-loss engines of the freqtrade user strategies

    A shallow embedding of the [custom_stoploss] callbacks (and of the
    per-pair reference lookups they rely on) found under
    [ft_userdata/user_data/strategies], together with the indicator passes
    that fill the per-pair stores and the entry and exit signal rules.

    Numbers.  A Python float is modelled as an exact rational or the
    not-a-number value: rounding is idealised away, the behaviour of
    comparisons, [max] and [min] on NaN is kept because indicator columns
    hold NaN during their warm-up.  Prices, fees and the profit ratio handed
    over by the trading engine are finite, hence rationals.

    Errors.  Python exceptions are values of a small error monad, so that
    "never raises" is a statement about the embedded function.

    Libraries.  pandas is taken as released since 2.0; TA-Lib and qtpylib
    indicators are arbitrary columns. *)

From Stdlib Require Import QArith Lqa ZArith List Sorted Bool String.
From stdpp Require Import gmap strings.
Import ListNotations.

Local Open Scope Q_scope.

(* ===================================================================== *)
(** ** Python values: floats with NaN, exceptions, builtins             *)
(* ===================================================================== *)

Module Py.

Inductive float : Type :=
| Num (q : Q)
| NaN.

Inductive exn : Type :=
| ZeroDivisionError
| IndexError
| KeyError
| ValueError
| AttributeError
| TypeError.

Inductive res (A : Type) : Type :=
| Ok (a : A)
| Raise (e : exn).
Arguments Ok {A} a.
Arguments Raise {A} e.

Definition bind {A B : Type} (r : res A) (k : A -> res B) : res B :=
  match r with
  | Ok a => k a
  | Raise e => Raise e
  end.

(** [try: body except Exception: handler] *)
Definition try_except {A : Type} (body handler : res A) : res A :=
  match body with
  | Ok a => Ok a
  | Raise _ => handler
  end.

Definition Qltb (x y : Q) : bool := negb (Qle_bool y x).

(** Comparisons: every comparison with NaN is [False]. *)
Definition le (a b : float) : bool :=
  match a, b with
  | Num x, Num y => Qle_bool x y
  | _, _ => false
  end.

Definition lt (a b : float) : bool :=
  match a, b with
  | Num x, Num y => Qltb x y
  | _, _ => false
  end.

Definition ge (a b : float) : bool := le b a.
Definition gt (a b : float) : bool := lt b a.

Definition isnan (a : float) : bool :=
  match a with
  | NaN => true
  | Num _ => false
  end.

(** Arithmetic: NaN is absorbing. *)
Definition lift2 (op : Q -> Q -> Q) (a b : float) : float :=
  match a, b with
  | Num x, Num y => Num (op x y)
  | _, _ => NaN
  end.

Definition add : float -> float -> float := lift2 Qplus.
Definition sub : float -> float -> float := lift2 Qminus.
Definition mul : float -> float -> float := lift2 Qmult.

Definition neg (a : float) : float :=
  match a with
  | Num x => Num (- x)
  | NaN => NaN
  end.

(** [a / b] on Python floats: a zero divisor raises, whatever [a] is. *)
Definition div (a b : float) : res float :=
  match b with
  | Num y =>
      if Qeq_bool y 0 then Raise ZeroDivisionError
      else match a with
           | Num x => Ok (Num (x / y))
           | NaN => Ok NaN
           end
  | NaN => Ok NaN
  end.

(** The builtins [max(a, b)] and [min(a, b)]: the first argument is kept
    unless the second one compares strictly better. *)
Definition max (a b : float) : float := if gt b a then b else a.
Definition min (a b : float) : float := if lt b a then b else a.

(** [max(xs)] on a list: [ValueError] on the empty one. *)
Definition max_list (xs : list float) : res float :=
  match xs with
  | [] => Raise ValueError
  | x :: rest => Ok (fold_left max rest x)
  end.

End Py.

Notation "'let*' x ':=' e 'in' k" := (Py.bind e (fun x => k))
  (at level 10, x name, e at level 100, k at level 200).

Import Py (float, Num, NaN, res, Ok, Raise).

Coercion Num : Q >-> float.

(* ===================================================================== *)
(** ** pandas frames indexed by candle date                              *)
(* ===================================================================== *)

(** A frame after [set_index("date")]: rows in ascending date order,
    each with its index label (epoch seconds) and its payload. *)
Abbreviation Frame A := (list (Z * A)).

Module Pandas.

Definition empty {A : Type} (df : Frame A) : bool :=
  match df with
  | [] => true
  | _ :: _ => false
  end.

(** [df.loc[:t]] on a monotonic index: the leading rows labelled [<= t]. *)
Fixpoint loc_upto {A : Type} (t : Z) (df : Frame A) : Frame A :=
  match df with
  | [] => []
  | r :: rest => if (fst r <=? t)%Z then r :: loc_upto t rest else []
  end.

(** [df.tail(1)] *)
Fixpoint tail1 {A : Type} (df : Frame A) : Frame A :=
  match df with
  | [] => []
  | [r] => [r]
  | _ :: rest => tail1 rest
  end.

(** [df.iloc[i]] for a non-negative position. *)
Definition iloc {A : Type} (i : nat) (df : list A) : res A :=
  match nth_error df i with
  | Some r => Ok r
  | None => Raise Py.IndexError
  end.

(** [df.iloc[-1]] *)
Definition iloc_last {A : Type} (df : list A) : res A :=
  match rev df with
  | r :: _ => Ok r
  | [] => Raise Py.IndexError
  end.

(** [df.index.get_loc(t, method="ffill")].  Since pandas 2.0
    [Index.get_loc] takes the key alone: called with [method=...] it raises
    [TypeError] for every key and every index, before any label is looked
    at. *)
Definition get_loc_ffill {A : Type} (t : Z) (df : Frame A) : res nat :=
  Raise Py.TypeError.

End Pandas.

(** A row of an analyzed dataframe: column name to value. *)
Abbreviation Row := (gmap string float).

(** [self.dp]: the analyzed dataframe cached for each pair;
    [get_analyzed_dataframe] hands out an empty frame for an unknown pair. *)
Abbreviation DataProvider := (gmap string (list Row)).

Definition get_analyzed_dataframe (dp : DataProvider) (pair : string) : list Row :=
  match dp !! pair with
  | Some df => df
  | None => []
  end.

(** The trade handed over by the engine: immutable entry facts. *)
Record Trade : Type := {
  open_rate : Q;
  open_date_utc : Z;
  fee_open : Q;
  fee_close : Q
}.

(* ===================================================================== *)
(** ** FixedRiskRewardLossImproved                                       *)
(* ===================================================================== *)

Module FixedRiskRewardLossImproved.

Record Self : Type := {
  stoploss : Q;
  rr_ratio : Q;
  break_even_R : Q;
  custom_info : gmap string (Frame float)
}.

(** The class attributes. *)
Definition new (info : gmap string (Frame float)) : Self :=
  {| stoploss := -0.18; rr_ratio := 2.0; break_even_R := 0.8;
     custom_info := info |}.

Definition _lookup_open_sl_abs (self : Self) (pair : string) (open_time : Z)
  : option float :=
  match custom_info self !! pair with
  | None => None
  | Some hist =>
      if Pandas.empty hist then None
      else
        let row := Pandas.tail1 (Pandas.loc_upto open_time hist) in
        match row with
        | [] => None
        | r :: _ => Some (snd r)
        end
  end.

Definition custom_stoploss (self : Self) (pair : string) (trade : Trade)
  (current_time : Z) (current_rate : Q) (current_profit : option Q)
  : res float :=
  match _lookup_open_sl_abs self pair (open_date_utc trade) with
  | None => Ok (Num (stoploss self))
  | Some init_sl_abs =>
      if Qle_bool current_rate 0 then Ok (Num (stoploss self))
      else
        let risk_abs := Py.max 0.0 (Py.sub (open_rate trade) init_sl_abs) in
        if Py.le risk_abs 0 then Ok (Num (stoploss self))
        else
          let tp_abs := Py.add (open_rate trade) (Py.mul (rr_ratio self) risk_abs) in
          let be_abs : float :=
            open_rate trade * (1 + fee_open trade + fee_close trade) in
          let be_trigger_abs :=
            Py.add (open_rate trade) (Py.mul (break_even_R self) risk_abs) in
          let* q0 := Py.div init_sl_abs current_rate in
          let result := Py.sub q0 1.0 in
          let* result :=
            if Py.ge current_rate be_trigger_abs then
              let* q1 := Py.div be_abs current_rate in
              Ok (Py.max result (Py.sub q1 1.0))
            else Ok result in
          let* result :=
            if Py.ge current_rate tp_abs then
              let* q2 := Py.div tp_abs current_rate in
              Ok (Py.max result (Py.sub q2 1.0))
            else Ok result in
          Ok (Py.max result (stoploss self))
  end.

End FixedRiskRewardLossImproved.

(* ===================================================================== *)
(** ** FixedRR_MultiMode                                                 *)
(* ===================================================================== *)

Module FixedRR_MultiMode.

Record Self : Type := {
  stoploss : Q;
  rr_ratio : Q;
  break_even_R : Q;
  atr_mult : Q;
  _mode : string;
  custom_info : gmap string (Frame float)
}.

(** The class attributes ("overridden in bot_start based on mode"). *)
Definition new (info : gmap string (Frame float)) : Self :=
  {| stoploss := -0.18; rr_ratio := 1.2; break_even_R := 0.6;
     atr_mult := 1.8; _mode := "mr"; custom_info := info |}.

(** [bot_start]: [mode_raw] is the value of [config["custom"]["mode"]]
    once stripped and lower-cased, [None] when the key is missing. *)
Definition bot_start (self : Self) (mode_raw : option string) : Self :=
  let mode := match mode_raw with Some m => m | None => "mr"%string end in
  let mode :=
    if (String.eqb mode "mr" || String.eqb mode "trend")%bool
    then mode else "mr"%string in
  if String.eqb mode "mr" then
    {| stoploss := -0.08; rr_ratio := 1.2; break_even_R := 0.6;
       atr_mult := 1.8; _mode := mode; custom_info := custom_info self |}
  else
    {| stoploss := -0.18; rr_ratio := 2.0; break_even_R := 0.8;
       atr_mult := 2.2; _mode := mode; custom_info := custom_info self |}.

Definition _lookup_open_sl_abs (self : Self) (pair : string) (open_time : Z)
  : option float :=
  match custom_info self !! pair with
  | None => None
  | Some hist =>
      if Pandas.empty hist then None
      else
        let row := Pandas.tail1 (Pandas.loc_upto open_time hist) in
        match row with
        | [] => None
        | r :: _ => let val := snd r in Some val
        end
  end.

Definition custom_stoploss (self : Self) (pair : string) (trade : Trade)
  (current_time : Z) (current_rate : Q) (current_profit : option Q)
  : res float :=
  match _lookup_open_sl_abs self pair (open_date_utc trade) with
  | None => Ok (Num (stoploss self))
  | Some init_sl_abs =>
      if Qle_bool current_rate 0 then Ok (Num (stoploss self))
      else
        let risk_abs := Py.max 0.0 (Py.sub (open_rate trade) init_sl_abs) in
        if Py.le risk_abs 0 then Ok (Num (stoploss self))
        else
          let tp_abs := Py.add (open_rate trade) (Py.mul (rr_ratio self) risk_abs) in
          let be_abs : float :=
            open_rate trade * (1 + fee_open trade + fee_close trade) in
          let be_trigger_abs :=
            Py.add (open_rate trade) (Py.mul (break_even_R self) risk_abs) in
          let* q0 := Py.div init_sl_abs current_rate in
          let result := Py.sub q0 1.0 in
          let* result :=
            if Py.ge current_rate be_trigger_abs then
              let* q1 := Py.div be_abs current_rate in
              Ok (Py.max result (Py.sub q1 1.0))
            else Ok result in
          let* result :=
            if Py.ge current_rate tp_abs then
              let* q2 := Py.div tp_abs current_rate in
              Ok (Py.max result (Py.sub q2 1.0))
            else Ok result in
          Ok (Py.max result (stoploss self))
  end.

End FixedRR_MultiMode.

(* ===================================================================== *)
(** ** SwingEMA_RSI_ATR                                                  *)
(* ===================================================================== *)

Module SwingEMA_RSI_ATR.

Record Self : Type := {
  stoploss : Q;
  rr_ratio : Q;          (* [self.rr_ratio.value] *)
  custom_info : gmap string (Frame float)
}.

Definition new (info : gmap string (Frame float)) : Self :=
  {| stoploss := -0.20; rr_ratio := 2.0; custom_info := info |}.

Definition _lookup_init_sl (self : Self) (pair : string) (open_time : Z)
  : option float :=
  match custom_info self !! pair with
  | None => None
  | Some hist =>
      if Pandas.empty hist then None
      else
        let row := Pandas.tail1 (Pandas.loc_upto open_time hist) in
        match row with
        | [] => None
        | r :: _ => Some (snd r)
        end
  end.

Definition custom_stoploss (self : Self) (pair : string) (trade : Trade)
  (current_time : Z) (current_rate : Q) (current_profit : option Q)
  : res float :=
  match _lookup_init_sl self pair (open_date_utc trade) with
  | None => Ok (Num (stoploss self))
  | Some init_sl_abs =>
      if Qle_bool current_rate 0 then Ok (Num (stoploss self))
      else
        let risk_abs := Py.max 0.0 (Py.sub (open_rate trade) init_sl_abs) in
        if Py.le risk_abs 0 then Ok (Num (stoploss self))
        else
          let rr : float := rr_ratio self in
          let tp_abs := Py.add (open_rate trade) (Py.mul rr risk_abs) in
          let be_trigger := Py.add (open_rate trade) (Py.mul 0.7 risk_abs) in
          let lock_trigger := Py.add (open_rate trade) (Py.mul 1.5 risk_abs) in
          let* q0 := Py.div init_sl_abs current_rate in
          let result := Py.sub q0 1.0 in
          let* result :=
            if Py.ge current_rate be_trigger then
              let be_abs : float :=
                open_rate trade * (1 + fee_open trade + fee_close trade) in
              let* q1 := Py.div be_abs current_rate in
              Ok (Py.max result (Py.sub q1 1.0))
            else Ok result in
          let* result :=
            if Py.ge current_rate lock_trigger then
              let lock_abs := Py.add (open_rate trade) (Py.mul 0.5 risk_abs) in
              let* q2 := Py.div lock_abs current_rate in
              Ok (Py.max result (Py.sub q2 1.0))
            else Ok result in
          let* result :=
            if Py.ge current_rate tp_abs then
              let* q3 := Py.div tp_abs current_rate in
              let tp_ratio := Py.sub q3 1.0 in
              Ok (Py.max result tp_ratio)
            else Ok result in
          Ok (Py.max result (stoploss self))
  end.

End SwingEMA_RSI_ATR.

(* ===================================================================== *)
(** ** EdgeBreakRetestV1                                                 *)
(* ===================================================================== *)

Module EdgeBreakRetestV1.

Record Self : Type := {
  stoploss : Q;
  rr_ratio : Q;          (* [self.rr_ratio.value] *)
  custom_info : gmap string (Frame float)
}.

Definition new (info : gmap string (Frame float)) : Self :=
  {| stoploss := -0.20; rr_ratio := 2.2; custom_info := info |}.

Definition _lookup_init_sl (self : Self) (pair : string) (open_time : Z)
  : option float :=
  match custom_info self !! pair with
  | None => None
  | Some hist =>
      if Pandas.empty hist then None
      else
        let row := Pandas.tail1 (Pandas.loc_upto open_time hist) in
        match row with
        | [] => None
        | r :: _ => Some (snd r)
        end
  end.

Definition custom_stoploss (self : Self) (pair : string) (trade : Trade)
  (current_time : Z) (current_rate : Q) (current_profit : option Q)
  : res float :=
  match _lookup_init_sl self pair (open_date_utc trade) with
  | None => Ok (Num (stoploss self))
  | Some init_sl_abs =>
      if Qle_bool current_rate 0 then Ok (Num (stoploss self))
      else
        let risk_abs := Py.max 0.0 (Py.sub (open_rate trade) init_sl_abs) in
        if Py.le risk_abs 0 then Ok (Num (stoploss self))
        else
          let rr : float := rr_ratio self in
          let tp_abs := Py.add (open_rate trade) (Py.mul rr risk_abs) in
          let be_trigger := Py.add (open_rate trade) (Py.mul 0.7 risk_abs) in
          let lock_trigger := Py.add (open_rate trade) (Py.mul 1.5 risk_abs) in
          let* q0 := Py.div init_sl_abs current_rate in
          let result := Py.sub q0 1.0 in
          let* result :=
            if Py.ge current_rate be_trigger then
              let be_abs : float :=
                open_rate trade * (1 + fee_open trade + fee_close trade) in
              let* q1 := Py.div be_abs current_rate in
              Ok (Py.max result (Py.sub q1 1.0))
            else Ok result in
          let* result :=
            if Py.ge current_rate lock_trigger then
              let lock_abs := Py.add (open_rate trade) (Py.mul 0.4 risk_abs) in
              let* q2 := Py.div lock_abs current_rate in
              Ok (Py.max result (Py.sub q2 1.0))
            else Ok result in
          let* result :=
            if Py.ge current_rate tp_abs then
              let* q3 := Py.div tp_abs current_rate in
              let tp_ratio := Py.sub q3 1.0 in
              Ok (Py.max result tp_ratio)
            else Ok result in
          Ok (Py.max result (stoploss self))
  end.

End EdgeBreakRetestV1.

(* ===================================================================== *)
(** ** SwingHighToSkyV2                                                  *)
(* ===================================================================== *)

(** Rows of the [date]-indexed caches holding [close] and [atr]. *)
Record CloseAtr : Type := { close : float; atr : float }.

(** The default handed to [List.last] when a frame is known to be non-empty. *)
Definition no_row : Z * CloseAtr := (0%Z, {| close := NaN; atr := NaN |}).

Module SwingHighToSkyV2.

Record Self : Type := {
  stoploss : Q;
  atr_cap_mult : Q;
  max_atr_stop : Q;
  be_trigger : Q;
  trail_trigger : Q;
  trail_atr_mult : Q;
  max_trail : Q;
  _cache : gmap string (Frame CloseAtr)
}.

Definition new (cache : gmap string (Frame CloseAtr)) : Self :=
  {| stoploss := -0.34338; atr_cap_mult := 1.8; max_atr_stop := 0.045;
     be_trigger := 0.015; trail_trigger := 0.035; trail_atr_mult := 1.0;
     max_trail := 0.05; _cache := cache |}.

Definition _atr_at (self : Self) (pair : string) (when : Z)
  (fallback_last : bool) : res float :=
  match _cache self !! pair with
  | None => Ok (Num 0.0)
  | Some df =>
      if Pandas.empty df then Ok (Num 0.0)
      else
        Py.try_except
          (let* idx := Pandas.get_loc_ffill when df in
           let* r := Pandas.iloc idx df in
           Ok (atr (snd r)))
          (if fallback_last then
             let* r := Pandas.iloc_last df in Ok (atr (snd r))
           else Ok (Num 0.0))
  end.

Definition custom_stoploss (self : Self) (pair : string) (trade : Trade)
  (current_time : Z) (current_rate : Q) (current_profit : option Q)
  : res float :=
  (* 1) ATR-based initial cap computed at entry *)
  let* atr_open := _atr_at self pair (open_date_utc trade) true in
  let* atr_cap :=
    if (Qle_bool (open_rate trade) 0 || Py.le atr_open 0)%bool then
      Ok (Num (stoploss self))
    else
      let* q := Py.div atr_open (open_rate trade) in
      let atr_frac := Py.mul q (atr_cap_mult self) in
      let atr_frac := Py.min atr_frac (max_atr_stop self) in
      Ok (Py.neg (Py.max 0.005 atr_frac)) in
  let sl := atr_cap in
  (* 2) Breakeven *)
  let* sl :=
    match current_profit with
    | Some profit =>
        if Qle_bool (be_trigger self) profit then
          let be_price : float :=
            open_rate trade * (1 + fee_open trade + fee_close trade) in
          let* q := Py.div be_price (Py.max current_rate (1 # 1000000000)) in
          let be_ratio := Py.sub q 1.0 in
          Ok (Py.max sl be_ratio)
        else Ok sl
    | None => Ok sl
    end in
  (* 3) Trail after profit threshold *)
  let* sl :=
    match current_profit with
    | Some profit =>
        if Qle_bool (trail_trigger self) profit then
          let* atr_now := _atr_at self pair current_time true in
          if (Py.gt atr_now 0 && Py.Qltb 0 current_rate)%bool then
            let* q := Py.div atr_now current_rate in
            let trail_frac :=
              Py.min (max_trail self)
                     (Py.max 0.004 (Py.mul q (trail_atr_mult self))) in
            let trail_sl := Py.neg trail_frac in
            Ok (Py.max sl trail_sl)
          else Ok sl
        else Ok sl
    | None => Ok sl
    end in
  (* 4) Respect absolute floor *)
  Ok (Py.max sl (stoploss self)).

End SwingHighToSkyV2.

(* ===================================================================== *)
(** ** SwingATRBreakevenV2                                               *)
(* ===================================================================== *)

Module SwingATRBreakevenV2.

Record Self : Type := {
  stoploss : Q;
  atr_init_mult : Q;
  atr_trail_mult : Q;
  breakeven_trigger : Q;
  trail_trigger : Q;
  max_init_sl : Q;
  max_trail_sl : Q;
  custom_info : gmap string (Frame CloseAtr)
}.

Definition new (info : gmap string (Frame CloseAtr)) : Self :=
  {| stoploss := -0.10; atr_init_mult := 1.50; atr_trail_mult := 1.00;
     breakeven_trigger := 0.015; trail_trigger := 0.030;
     max_init_sl := 0.035; max_trail_sl := 0.05; custom_info := info |}.

(** The two [try: get_loc(..., method="ffill") except: last value] blocks. *)
Definition atr_asof (info_df : Frame CloseAtr) (when : Z) : res float :=
  Py.try_except
    (let* idx := Pandas.get_loc_ffill when info_df in
     let* r := Pandas.iloc idx info_df in
     Ok (atr (snd r)))
    (let* r := Pandas.iloc_last info_df in Ok (atr (snd r))).

Definition custom_stoploss (self : Self) (pair : string) (trade : Trade)
  (current_time : Z) (current_rate : Q) (current_profit : option Q)
  : res float :=
  match custom_info self !! pair with
  | None => Ok (Num (stoploss self))
  | Some info_df =>
      if Pandas.empty info_df then Ok (Num (stoploss self))
      else
        let* atr_at_open := atr_asof info_df (open_date_utc trade) in
        let* atr_now := atr_asof info_df current_time in
        (* 1) initial ATR-based stop as fraction of entry *)
        let init_mult := atr_init_mult self in
        let max_init := max_init_sl self in
        let* q := Py.div atr_at_open (Py.max (open_rate trade) (1 # 1000000000)) in
        let init_sl_frac := Py.mul q init_mult in
        let init_sl_frac := Py.min init_sl_frac max_init in
        let sl_candidates : list float := [Py.neg init_sl_frac] in
        (* 2) breakeven once profit crosses threshold *)
        let be_trig := breakeven_trigger self in
        let* sl_candidates :=
          match current_profit with
          | Some profit =>
              if Qle_bool be_trig profit then
                let be_price : float :=
                  open_rate trade * (1 + fee_open trade + fee_close trade) in
                let* q := Py.div be_price (Py.max current_rate (1 # 1000000000)) in
                let be_ratio := Py.sub q 1.0 in
                Ok (sl_candidates ++ [be_ratio])
              else Ok sl_candidates
          | None => Ok sl_candidates
          end in
        (* 3) ATR trailing once profit >= trail_trigger *)
        let trail_trig := trail_trigger self in
        let* sl_candidates :=
          match current_profit with
          | Some profit =>
              if Qle_bool trail_trig profit then
                let trail_mult := atr_trail_mult self in
                let max_trail := max_trail_sl self in
                let* q := Py.div atr_now (Py.max current_rate (1 # 1000000000)) in
                let trail_frac := Py.mul q trail_mult in
                let trail_frac := Py.min (Py.max 0.004 trail_frac) max_trail in
                Ok (sl_candidates ++ [Py.neg trail_frac])
              else Ok sl_candidates
          | None => Ok sl_candidates
          end in
        (* final SL = tightest candidate, but respect the hard floor *)
        let* sl := Py.max_list sl_candidates in
        Ok (Py.max sl (stoploss self))
  end.

End SwingATRBreakevenV2.

(* ===================================================================== *)
(** ** Sma20RsiBbAtrStrategy                                             *)
(* ===================================================================== *)

Module Sma20RsiBbAtrStrategy.

Record Self : Type := {
  stoploss : Q;
  dp : option DataProvider
}.

Definition new (dp : option DataProvider) : Self :=
  {| stoploss := -0.10; dp := dp |}.

Definition custom_stoploss (self : Self) (pair : string) (trade : Trade)
  (current_time : Z) (current_rate : Q) (current_profit : option Q)
  : res float :=
  let* df :=
    match dp self with
    | Some dp => Ok (get_analyzed_dataframe dp pair)
    | None => Raise Py.AttributeError
    end in
  let* last := Pandas.iloc_last df in
  let* close :=
    match last !! "close"%string with
    | Some v => Ok v
    | None => Raise Py.KeyError
    end in
  let atr_val : float :=
    match last !! "atr"%string with
    | Some v => if negb (Py.isnan v) then v else Num 0.0
    | None => Num 0.0
    end in
  let* atr_pct :=
    if Py.gt close 0 then Py.div atr_val close else Ok (Num 0.0) in
  let wild := Py.ge atr_pct 0.02 in
  let atr_based :=
    if wild then Py.neg (Py.min 0.15 (Py.max 0.012 (Py.mul atr_pct 2.2)))
    else Py.neg (Py.min 0.08 (Py.max 0.008 (Py.mul atr_pct 1.2))) in
  let sl := atr_based in
  let sl :=
    match current_profit with
    | Some profit =>
        if Py.Qltb 0.04 profit then
          let profit_trail :=
            Py.neg (Py.max 0.015 (Py.min 0.05 (Py.mul profit 0.5))) in
          Py.max atr_based profit_trail
        else sl
    | None => sl
    end in
  Ok (Py.max sl (stoploss self)).

End Sma20RsiBbAtrStrategy.

(* ===================================================================== *)
(** ** CustomStoplossWithPSAR                                            *)
(* ===================================================================== *)

(** Boolean and float series, aligned on one index. *)
Module Series.

Definition shift1 (a : list float) : list float :=
  match a with
  | [] => []
  | _ :: _ => NaN :: removelast a
  end.

Definition cmp (op : float -> float -> bool) (a b : list float) : list bool :=
  zip_with op a b.

Definition cmp_const (op : float -> float -> bool) (a : list float) (c : float)
  : list bool :=
  map (fun x => op x c) a.

Definition and (m1 m2 : list bool) : list bool := zip_with andb m1 m2.

(** [df.loc[mask, col] = v] on the column [col]. *)
Definition loc_set {A : Type} (mask : list bool) (v : A) (col : list A) : list A :=
  zip_with (fun (m : bool) x => if m then v else x) mask col.

End Series.

(** The indicator columns read by the entry rules, one record per candle. *)
Record Candle : Type := {
  ema20 : float;
  ema50 : float;
  ema200 : float;
  c_close : float;
  rsi : float;
  macdhist : float;
  atrp : float;
  vol_ma20 : float;
  sar : float
}.

Module CustomStoplossWithPSAR.

Record Self : Type := {
  stoploss : Q;
  custom_info : gmap string (Frame float);
  dp : option DataProvider
}.

Definition new (info : gmap string (Frame float)) (dp : option DataProvider) : Self :=
  {| stoploss := -0.08; custom_info := info; dp := dp |}.

Definition custom_stoploss (self : Self) (pair : string) (trade : Trade)
  (current_time : Z) (current_rate : Q) (current_profit : option Q)
  : res float :=
  let result : float := 1 in   (* off unless computed *)
  if (negb (Nat.eqb (size (custom_info self)) 0)
      && bool_decide (is_Some (custom_info self !! pair)))%bool then
    match dp self with
    | None => Ok result
    | Some dp =>
        let df := get_analyzed_dataframe dp pair in
        let* last := Pandas.iloc_last df in
        let sar := last !! "sar"%string in
        match sar with
        | Some sar =>
            if Py.Qltb 0 current_rate then
              let* q := Py.div (Py.sub current_rate sar) current_rate in
              let rel := Py.sub q 1 in
              Ok (Py.max (Py.min rel (-0.02)) (-0.08))
            else Ok result
        | None => Ok result
        end
    end
  else Ok result.

(** *** Entry rules *)

Definition strong_up (df : list Candle) : list bool :=
  Series.and
    (Series.and (Series.cmp Py.gt (map ema20 df) (map ema50 df))
                (Series.cmp Py.gt (map ema50 df) (map ema200 df)))
    (Series.cmp Py.gt (map c_close df) (map ema50 df)).

Definition mom_ok (df : list Candle) : list bool :=
  Series.and (Series.cmp_const Py.gt (map rsi df) 45)
             (Series.cmp_const Py.gt (map macdhist df) 0).

Definition vol_ok (df : list Candle) : list bool :=
  Series.and
    (Series.and (Series.cmp_const Py.gt (map atrp df) 0.005)
                (Series.cmp_const Py.lt (map atrp df) 0.03))
    (Series.cmp_const Py.gt (map vol_ma20 df) 0).

Definition psar_bull_flip (df : list Candle) : list bool :=
  Series.and
    (Series.cmp Py.lt (map sar df) (map c_close df))
    (Series.cmp Py.ge (Series.shift1 (map sar df)) (Series.shift1 (map c_close df))).

Definition cond_psar_strict (df : list Candle) : list bool :=
  Series.and (Series.and (Series.and (psar_bull_flip df) (strong_up df))
                         (mom_ok df))
             (vol_ok df).

Definition rsi_rebound (df : list Candle) : list bool :=
  Series.and
    (Series.and (Series.cmp_const Py.gt (map rsi df) 35)
                (Series.cmp_const Py.le (Series.shift1 (map rsi df)) 35))
    (Series.cmp Py.gt (map c_close df) (map ema20 df)).

Definition cond_rsi (df : list Candle) : list bool :=
  Series.and (Series.and (rsi_rebound df) (strong_up df)) (vol_ok df).

(** The two columns written by [populate_entry_trend]; a cell never
    assigned stays undefined ([None]). *)
Record EntryColumns : Type := {
  enter_long : list (option Z);
  enter_tag : list (option string)
}.

(** The frame as it reaches [populate_entry_trend]: no signal column yet. *)
Definition no_signal (df : list Candle) : EntryColumns :=
  {| enter_long := replicate (length df) None;
     enter_tag := replicate (length df) None |}.

(** [dataframe.loc[cond, 'enter_long'] = 1] followed by
    [dataframe.loc[cond, 'enter_tag'] = tag]. *)
Definition assign_rule (cond : list bool) (tag : string) (cols : EntryColumns)
  : EntryColumns :=
  let enter_long := Series.loc_set cond (Some 1%Z) (enter_long cols) in
  let enter_tag := Series.loc_set cond (Some tag) (enter_tag cols) in
  {| enter_long := enter_long; enter_tag := enter_tag |}.

(** The frame after the first two assignments, those of the PSAR rule
    (lines 143-144). *)
Definition psar_rule_assigned (df : list Candle) : EntryColumns :=
  assign_rule (cond_psar_strict df) "psar_bull_flip_strict" (no_signal df).

(** The whole function: the assignments of the RSI rule (lines 146-147)
    run on that frame. *)
Definition populate_entry_trend (df : list Candle) : EntryColumns :=
  let cols := psar_rule_assigned df in
  let cols := assign_rule (cond_rsi df) "rsi_rebound_35" cols in
  cols.

End CustomStoplossWithPSAR.

(* ===================================================================== *)
(** ** The staged engine in price terms                                  *)
(* ===================================================================== *)

(** The stop price implied by a ratio: [current_price * (1 + ratio)]. *)
Definition stop_price (current_rate ratio : Q) : Q := current_rate * (1 + ratio).

(** The staged composition of the specification (baseline, then stages
    gated by a trigger price, the tightest candidate wins, final clamp to
    the hard floor), written on stop prices instead of ratios.  It is not
    taken from the source: the refinement lemmas below compare the four
    risk-multiple callbacks with it. *)
Module Engine.

Record Stage : Type := { trigger : Q; level : Q }.

Definition pmax (a b : Q) : Q := if Py.Qltb a b then b else a.

Definition tighten (rate : Q) (best : Q) (s : Stage) : Q :=
  if Qle_bool (trigger s) rate then pmax best (level s) else best.

Definition best_level (rate base : Q) (stages : list Stage) : Q :=
  fold_left (tighten rate) stages base.

Definition staged_ratio (floor rate base : Q) (stages : list Stage) : Q :=
  let ratio := best_level rate base stages / rate - 1.0 in
  if Py.Qltb ratio floor then floor else ratio.

End Engine.

(** The stage tables of the four risk-multiple strategies, for an entry
    reference [i] below the entry price ([risk_abs = open_rate - i]). *)
Module Stages.

Import Engine.

Definition breakeven_price (t : Trade) : Q :=
  open_rate t * (1 + fee_open t + fee_close t).

(** [trade.open_rate + k * risk_abs] *)
Definition risk_level (t : Trade) (i k : Q) : Q :=
  open_rate t + k * (open_rate t - i).

(** breakeven, then trailing at the take-profit line *)
Definition two_stage (t : Trade) (i break_even_R rr : Q) : list Stage :=
  [ {| trigger := risk_level t i break_even_R; level := breakeven_price t |};
    {| trigger := risk_level t i rr; level := risk_level t i rr |} ].

(** breakeven at 0.7R, lock at 1.5R, then the take-profit line *)
Definition three_stage (t : Trade) (i lock rr : Q) : list Stage :=
  [ {| trigger := risk_level t i 0.7; level := breakeven_price t |};
    {| trigger := risk_level t i 1.5; level := risk_level t i lock |};
    {| trigger := risk_level t i rr; level := risk_level t i rr |} ].

End Stages.

(* ===================================================================== *)
(** ** The strategies behind one interface                               *)
(* ===================================================================== *)

(** The engine calls [strategy.custom_stoploss(...)] on whichever strategy
    class is loaded. *)
Inductive IStrategy : Type :=
| of_FixedRiskRewardLossImproved (self : FixedRiskRewardLossImproved.Self)
| of_FixedRR_MultiMode (self : FixedRR_MultiMode.Self)
| of_SwingEMA_RSI_ATR (self : SwingEMA_RSI_ATR.Self)
| of_EdgeBreakRetestV1 (self : EdgeBreakRetestV1.Self)
| of_SwingHighToSkyV2 (self : SwingHighToSkyV2.Self)
| of_SwingATRBreakevenV2 (self : SwingATRBreakevenV2.Self)
| of_Sma20RsiBbAtrStrategy (self : Sma20RsiBbAtrStrategy.Self)
| of_CustomStoplossWithPSAR (self : CustomStoplossWithPSAR.Self).

Definition stoploss_of (s : IStrategy) : Q :=
  match s with
  | of_FixedRiskRewardLossImproved self => FixedRiskRewardLossImproved.stoploss self
  | of_FixedRR_MultiMode self => FixedRR_MultiMode.stoploss self
  | of_SwingEMA_RSI_ATR self => SwingEMA_RSI_ATR.stoploss self
  | of_EdgeBreakRetestV1 self => EdgeBreakRetestV1.stoploss self
  | of_SwingHighToSkyV2 self => SwingHighToSkyV2.stoploss self
  | of_SwingATRBreakevenV2 self => SwingATRBreakevenV2.stoploss self
  | of_Sma20RsiBbAtrStrategy self => Sma20RsiBbAtrStrategy.stoploss self
  | of_CustomStoplossWithPSAR self => CustomStoplossWithPSAR.stoploss self
  end.

Definition custom_stoploss_of (s : IStrategy) (pair : string) (trade : Trade)
  (current_time : Z) (current_rate : Q) (current_profit : option Q) : res float :=
  match s with
  | of_FixedRiskRewardLossImproved self =>
      FixedRiskRewardLossImproved.custom_stoploss self pair trade current_time
        current_rate current_profit
  | of_FixedRR_MultiMode self =>
      FixedRR_MultiMode.custom_stoploss self pair trade current_time
        current_rate current_profit
  | of_SwingEMA_RSI_ATR self =>
      SwingEMA_RSI_ATR.custom_stoploss self pair trade current_time
        current_rate current_profit
  | of_EdgeBreakRetestV1 self =>
      EdgeBreakRetestV1.custom_stoploss self pair trade current_time
        current_rate current_profit
  | of_SwingHighToSkyV2 self =>
      SwingHighToSkyV2.custom_stoploss self pair trade current_time
        current_rate current_profit
  | of_SwingATRBreakevenV2 self =>
      SwingATRBreakevenV2.custom_stoploss self pair trade current_time
        current_rate current_profit
  | of_Sma20RsiBbAtrStrategy self =>
      Sma20RsiBbAtrStrategy.custom_stoploss self pair trade current_time
        current_rate current_profit
  | of_CustomStoplossWithPSAR self =>
      CustomStoplossWithPSAR.custom_stoploss self pair trade current_time
        current_rate current_profit
  end.

(** The strategies whose stages are multiples of the initial risk: they
    look up a stop reference recorded at entry time. *)
Definition entry_reference_of (s : IStrategy) (pair : string) (open_time : Z)
  : option float :=
  match s with
  | of_FixedRiskRewardLossImproved self =>
      FixedRiskRewardLossImproved._lookup_open_sl_abs self pair open_time
  | of_FixedRR_MultiMode self =>
      FixedRR_MultiMode._lookup_open_sl_abs self pair open_time
  | of_SwingEMA_RSI_ATR self => SwingEMA_RSI_ATR._lookup_init_sl self pair open_time
  | of_EdgeBreakRetestV1 self => EdgeBreakRetestV1._lookup_init_sl self pair open_time
  | _ => None
  end.

(** The store those lookups read. *)
Definition reference_store_of (s : IStrategy) : gmap string (Frame float) :=
  match s with
  | of_FixedRiskRewardLossImproved self => FixedRiskRewardLossImproved.custom_info self
  | of_FixedRR_MultiMode self => FixedRR_MultiMode.custom_info self
  | of_SwingEMA_RSI_ATR self => SwingEMA_RSI_ATR.custom_info self
  | of_EdgeBreakRetestV1 self => EdgeBreakRetestV1.custom_info self
  | _ => ∅
  end.

Definition risk_multiple (s : IStrategy) : bool :=
  match s with
  | of_FixedRiskRewardLossImproved _ | of_FixedRR_MultiMode _
  | of_SwingEMA_RSI_ATR _ | of_EdgeBreakRetestV1 _ => true
  | _ => false
  end.

Definition stages_of (s : IStrategy) (trade : Trade) (i : Q) : list Engine.Stage :=
  match s with
  | of_FixedRiskRewardLossImproved self =>
      Stages.two_stage trade i (FixedRiskRewardLossImproved.break_even_R self)
        (FixedRiskRewardLossImproved.rr_ratio self)
  | of_FixedRR_MultiMode self =>
      Stages.two_stage trade i (FixedRR_MultiMode.break_even_R self)
        (FixedRR_MultiMode.rr_ratio self)
  | of_SwingEMA_RSI_ATR self =>
      Stages.three_stage trade i 0.5 (SwingEMA_RSI_ATR.rr_ratio self)
  | of_EdgeBreakRetestV1 self =>
      Stages.three_stage trade i 0.4 (EdgeBreakRetestV1.rr_ratio self)
  | _ => []
  end.

(** [be_trigger_abs] / [be_trigger]: the price from which the breakeven
    stage applies, for the entry reference [i]. *)
Definition breakeven_trigger_of (s : IStrategy) (trade : Trade) (i : Q) : Q :=
  match s with
  | of_FixedRiskRewardLossImproved self =>
      Stages.risk_level trade i (FixedRiskRewardLossImproved.break_even_R self)
  | of_FixedRR_MultiMode self =>
      Stages.risk_level trade i (FixedRR_MultiMode.break_even_R self)
  | of_SwingEMA_RSI_ATR _ | of_EdgeBreakRetestV1 _ => Stages.risk_level trade i 0.7
  | _ => 0
  end.

(** A pair whose per-pair store is absent or empty. *)
Definition store_missing {A : Type} (store : gmap string (Frame A)) (pair : string)
  : bool :=
  match store !! pair with
  | None => true
  | Some df => Pandas.empty df
  end.

(** The strategies that return early on a missing store. *)
Definition reference_missing (s : IStrategy) (pair : string) : option bool :=
  match s with
  | of_FixedRiskRewardLossImproved self =>
      Some (store_missing (FixedRiskRewardLossImproved.custom_info self) pair)
  | of_FixedRR_MultiMode self =>
      Some (store_missing (FixedRR_MultiMode.custom_info self) pair)
  | of_SwingEMA_RSI_ATR self =>
      Some (store_missing (SwingEMA_RSI_ATR.custom_info self) pair)
  | of_EdgeBreakRetestV1 self =>
      Some (store_missing (EdgeBreakRetestV1.custom_info self) pair)
  | of_SwingATRBreakevenV2 self =>
      Some (store_missing (SwingATRBreakevenV2.custom_info self) pair)
  | _ => None
  end.

(** The last candle of the analyzed dataframe, when there is one. *)
Definition last_candle (dp : DataProvider) (pair : string) : option Row :=
  match rev (get_analyzed_dataframe dp pair) with
  | r :: _ => Some r
  | [] => None
  end.

(** A cell that, when present, holds a number. *)
Definition not_nan (v : option float) : bool :=
  match v with
  | Some x => negb (Py.isnan x)
  | None => true
  end.

(** Valid inputs of a stop-loss query: the dataframe the callback takes its
    last candle from has one, and the indicator value it turns into the
    first stop candidate is a number (the ATR that [SwingATRBreakevenV2]
    reads for the entry, the SAR of the last candle for
    [CustomStoplossWithPSAR], whose clamp is the constant -0.08).  The
    risk-multiple strategies and [SwingHighToSkyV2] guard these cases
    themselves. *)
Definition valid_inputs (s : IStrategy) (pair : string) (trade : Trade) : bool :=
  match s with
  | of_SwingATRBreakevenV2 self =>
      match SwingATRBreakevenV2.custom_info self !! pair with
      | Some df =>
          if Pandas.empty df then true
          else match SwingATRBreakevenV2.atr_asof df (open_date_utc trade) with
               | Ok atr_at_open => negb (Py.isnan atr_at_open)
               | Raise _ => false
               end
      | None => true
      end
  | of_Sma20RsiBbAtrStrategy self =>
      match Sma20RsiBbAtrStrategy.dp self with
      | Some dp =>
          match last_candle dp pair with
          | Some r => bool_decide (is_Some (r !! "close"%string))
          | None => false
          end
      | None => false
      end
  | of_CustomStoplossWithPSAR self =>
      (Qle_bool (CustomStoplossWithPSAR.stoploss self) (-0.08)
       && match CustomStoplossWithPSAR.custom_info self !! pair,
                CustomStoplossWithPSAR.dp self with
          | Some _, Some dp =>
              match last_candle dp pair with
              | Some r => not_nan (r !! "sar"%string)
              | None => false
              end
          | _, _ => true
          end)%bool
  | _ => true
  end.

(* ===================================================================== *)
(** ** Further readings of the strategies' knobs                         *)
(* ===================================================================== *)

(** [tp_abs]: the take-profit line of a risk-multiple strategy, for the
    entry reference [i]. *)
Definition take_profit_of (s : IStrategy) (trade : Trade) (i : Q) : Q :=
  match s with
  | of_FixedRiskRewardLossImproved self =>
      Stages.risk_level trade i (FixedRiskRewardLossImproved.rr_ratio self)
  | of_FixedRR_MultiMode self =>
      Stages.risk_level trade i (FixedRR_MultiMode.rr_ratio self)
  | of_SwingEMA_RSI_ATR self =>
      Stages.risk_level trade i (SwingEMA_RSI_ATR.rr_ratio self)
  | of_EdgeBreakRetestV1 self =>
      Stages.risk_level trade i (EdgeBreakRetestV1.rr_ratio self)
  | _ => 0
  end.

(** [lock_abs]: the gain locked once 1.5R is reached, as a multiple of the
    initial risk; only the two swing variants have this stage. *)
Definition lock_multiple_of (s : IStrategy) : option Q :=
  match s with
  | of_SwingEMA_RSI_ATR _ => Some 0.5
  | of_EdgeBreakRetestV1 _ => Some 0.4
  | _ => None
  end.

(* ===================================================================== *)
(** ** Indicator passes: writing the per-pair reference store            *)
(* ===================================================================== *)

(** A candle of the dataframe handed to [populate_indicators]. *)
Module Ohlcv.

Record t : Type := {
  date : Z;
  open : float;
  high : float;
  low : float;
  close : float;
  volume : float
}.

End Ohlcv.

(** TA-Lib is an external library: [ta.ATR(df, timeperiod)] and
    [ta.SAR(df)] are taken as arbitrary columns computed from the candles. *)
Abbreviation AtrIndicator := (list Ohlcv.t -> nat -> list float).
Abbreviation SarIndicator := (list Ohlcv.t -> list float).

Module Columns.

(** [df[["date", col]].copy().set_index("date")] *)
Definition set_index {A : Type} (df : list Ohlcv.t) (col : list A) : Frame A :=
  zip (map Ohlcv.date df) col.

(** [df["close"] - (df["atr"] * atr_mult)] *)
Definition stop_reference (atr_mult : Q) (df : list Ohlcv.t) (atr : list float)
  : list float :=
  zip_with (fun c a => Py.sub (Ohlcv.close c) (Py.mul a atr_mult)) df atr.

End Columns.

(** The part of each [populate_indicators] that feeds [custom_stoploss]:
    the ATR column, the stop reference derived from it and the write into
    the shared per-pair dictionary.  The other indicator columns are calls
    into TA-Lib that the stop-loss callbacks never read; on the candles the
    engine hands over they return a column each.  The strategy
    object after the pass stands for the mutated class dictionary;
    [atr_mult] is [self.atr_mult] where the embedded [Self] does not carry
    it. *)
Module FixedRiskRewardLossImprovedPass.

Import FixedRiskRewardLossImproved.

Definition populate_indicators (ta_ATR : AtrIndicator) (atr_mult : Q)
  (self : Self) (df : list Ohlcv.t) (pair : string) : Self :=
  let atr := ta_ATR df 14%nat in
  let stoploss_rate := Columns.stop_reference atr_mult df atr in
  {| stoploss := stoploss self; rr_ratio := rr_ratio self;
     break_even_R := break_even_R self;
     custom_info := <[pair := Columns.set_index df stoploss_rate]> (custom_info self) |}.

End FixedRiskRewardLossImprovedPass.

Module FixedRR_MultiModePass.

Import FixedRR_MultiMode.

Definition populate_indicators (ta_ATR : AtrIndicator)
  (self : Self) (df : list Ohlcv.t) (pair : string) : Self :=
  let atr := ta_ATR df 14%nat in
  let stoploss_rate := Columns.stop_reference (atr_mult self) df atr in
  {| stoploss := stoploss self; rr_ratio := rr_ratio self;
     break_even_R := break_even_R self; atr_mult := atr_mult self;
     _mode := _mode self;
     custom_info := <[pair := Columns.set_index df stoploss_rate]> (custom_info self) |}.

End FixedRR_MultiModePass.

Module SwingEMA_RSI_ATRPass.

Import SwingEMA_RSI_ATR.

Definition populate_indicators (ta_ATR : AtrIndicator) (atr_mult : Q)
  (self : Self) (df : list Ohlcv.t) (pair : string) : Self :=
  match df with
  | [] => self                       (* [if df.empty: return df] *)
  | _ :: _ =>
      let atr := ta_ATR df 14%nat in
      let init_sl_price := Columns.stop_reference atr_mult df atr in
      {| stoploss := stoploss self; rr_ratio := rr_ratio self;
         custom_info := <[pair := Columns.set_index df init_sl_price]> (custom_info self) |}
  end.

End SwingEMA_RSI_ATRPass.

Module EdgeBreakRetestV1Pass.

Import EdgeBreakRetestV1.

Definition populate_indicators (ta_ATR : AtrIndicator) (atr_mult : Q)
  (self : Self) (df : list Ohlcv.t) (pair : string) : Self :=
  match df with
  | [] => self                       (* [if df.empty: return df] *)
  | _ :: _ =>
      let atr := ta_ATR df 14%nat in
      let init_sl_price := Columns.stop_reference atr_mult df atr in
      {| stoploss := stoploss self; rr_ratio := rr_ratio self;
         custom_info := <[pair := Columns.set_index df init_sl_price]> (custom_info self) |}
  end.

End EdgeBreakRetestV1Pass.

Module CustomStoplossWithPSARPass.

Import CustomStoplossWithPSAR.

(** [runmode] is [self.dp.runmode.value]; the store is only written when a
    data provider is attached and the bot backtests or hyperopts. *)
Definition populate_indicators (ta_SAR : SarIndicator) (runmode : string)
  (self : Self) (df : list Ohlcv.t) (pair : string) : Self :=
  let sar := ta_SAR df in
  match dp self with
  | Some _ =>
      if (String.eqb runmode "backtest" || String.eqb runmode "hyperopt")%bool then
        {| stoploss := stoploss self;
           custom_info := <[pair := Columns.set_index df sar]> (custom_info self);
           dp := dp self |}
      else self
  | None => self
  end.

End CustomStoplossWithPSARPass.

(** The indicator pass of the four risk-multiple strategies behind the
    interface; the other strategies are left as they are. *)
Definition populate_reference_of (ta_ATR : AtrIndicator) (atr_mult : Q)
  (s : IStrategy) (df : list Ohlcv.t) (pair : string) : IStrategy :=
  match s with
  | of_FixedRiskRewardLossImproved self =>
      of_FixedRiskRewardLossImproved
        (FixedRiskRewardLossImprovedPass.populate_indicators ta_ATR atr_mult self df pair)
  | of_FixedRR_MultiMode self =>
      of_FixedRR_MultiMode (FixedRR_MultiModePass.populate_indicators ta_ATR self df pair)
  | of_SwingEMA_RSI_ATR self =>
      of_SwingEMA_RSI_ATR
        (SwingEMA_RSI_ATRPass.populate_indicators ta_ATR atr_mult self df pair)
  | of_EdgeBreakRetestV1 self =>
      of_EdgeBreakRetestV1
        (EdgeBreakRetestV1Pass.populate_indicators ta_ATR atr_mult self df pair)
  | _ => s
  end.

(** The multiplier that pass applies to the ATR. *)
Definition atr_mult_of (s : IStrategy) (atr_mult : Q) : Q :=
  match s with
  | of_FixedRR_MultiMode self => FixedRR_MultiMode.atr_mult self
  | _ => atr_mult
  end.

(** The caches of [SwingHighToSkyV2] and [SwingATRBreakevenV2]:
    [df[["date", "close", "atr"]].copy().set_index("date")]. *)
Definition close_atr_rows (df : list Ohlcv.t) (atr : list float) : list CloseAtr :=
  zip_with (fun c a => {| close := Ohlcv.close c; atr := a |}) df atr.

Module SwingHighToSkyV2Pass.

Import SwingHighToSkyV2.

(** [atr_len] is the class attribute [self.atr_len] (14). *)
Definition populate_indicators (ta_ATR : AtrIndicator) (atr_len : nat)
  (self : Self) (df : list Ohlcv.t) (pair : string) : Self :=
  let atr := ta_ATR df atr_len in
  {| stoploss := stoploss self; atr_cap_mult := atr_cap_mult self;
     max_atr_stop := max_atr_stop self; be_trigger := be_trigger self;
     trail_trigger := trail_trigger self; trail_atr_mult := trail_atr_mult self;
     max_trail := max_trail self;
     _cache := <[pair := Columns.set_index df (close_atr_rows df atr)]> (_cache self) |}.

End SwingHighToSkyV2Pass.

Module SwingATRBreakevenV2Pass.

Import SwingATRBreakevenV2.

(** [atr_len] is [int(self.atr_len.value)]. *)
Definition populate_indicators (ta_ATR : AtrIndicator) (atr_len : nat)
  (self : Self) (df : list Ohlcv.t) (pair : string) : Self :=
  match df with
  | [] => self                       (* [if df.empty: return df] *)
  | _ :: _ =>
      let atr := ta_ATR df atr_len in
      {| stoploss := stoploss self; atr_init_mult := atr_init_mult self;
         atr_trail_mult := atr_trail_mult self;
         breakeven_trigger := breakeven_trigger self;
         trail_trigger := trail_trigger self; max_init_sl := max_init_sl self;
         max_trail_sl := max_trail_sl self;
         custom_info :=
           <[pair := Columns.set_index df (close_atr_rows df atr)]> (custom_info self) |}
  end.

End SwingATRBreakevenV2Pass.

(* ===================================================================== *)
(** ** Entry and exit signals                                            *)
(* ===================================================================== *)

(** Further column operations used by the signal rules. *)
Module SeriesOps.

(** [s.shift(n)] *)
Definition shift (n : nat) (a : list float) : list float :=
  take (length a) (replicate n NaN ++ a).

(** [m1 | m2] *)
Definition or (m1 m2 : list bool) : list bool := zip_with orb m1 m2.

(** [s * k] *)
Definition scale (a : list float) (k : float) : list float :=
  map (fun x => Py.mul x k) a.

(** [s.fillna(v)] *)
Definition fillna (a : list float) (v : float) : list float :=
  map (fun x => if Py.isnan x then v else x) a.

(** [np.all(conds, axis=0)] for a non-empty list of masks over [n] rows. *)
Definition all (n : nat) (conds : list (list bool)) : list bool :=
  fold_left Series.and conds (replicate n true).

End SeriesOps.

(** The pair of columns [enter_long]/[enter_tag] or [exit_long]/[exit_tag]. *)
Module Signal.

Record t : Type := { long : list Z; tag : list string }.

(** [df[long] = 0; df[tag] = ""] *)
Definition blank (n : nat) : t :=
  {| long := replicate n 0%Z; tag := replicate n ""%string |}.

(** [df.loc[mask, [long, tag]] = (1, name)] *)
Definition assign (mask : list bool) (name : string) (cols : t) : t :=
  {| long := Series.loc_set mask 1%Z (long cols);
     tag := Series.loc_set mask name (tag cols) |}.

End Signal.

(** The columns of the analyzed dataframe read by the signal rules of the
    strategies with a volume guard, one record per candle.  The Bollinger
    columns are named [bb_lowerband] and [bb_middleband] in
    [Sma20RsiBbAtrStrategy]. *)
Module Bar.

Record t : Type := {
  low : float;
  close : float;
  volume : float;
  ema20 : float;
  ema50 : float;
  ema100 : float;
  ema200 : float;
  sma20 : float;
  rsi : float;
  adx14 : float;
  bb_lower : float;
  bb_mid : float;
  ha_open : float;
  ha_close : float
}.

(** [df["volume"] > 0] *)
Definition has_volume (df : list t) : list bool :=
  Series.cmp_const Py.gt (map volume df) 0.

End Bar.

(** [qtpylib.crossed_below], a library function: any column of flags. *)
Abbreviation CrossIndicator := (list float -> list float -> list bool).

Module EdgeBreakRetestV1Signals.

Import Bar.

Definition _crossed_above (a b : list float) : list bool :=
  Series.and (Series.cmp Py.le (Series.shift1 a) (Series.shift1 b))
             (Series.cmp Py.gt a b).

Definition _crossed_below (a b : list float) : list bool :=
  Series.and (Series.cmp Py.ge (Series.shift1 a) (Series.shift1 b))
             (Series.cmp Py.lt a b).

(** [trend_entry]; [adx_th] is [int(self.adx_trend_th.value)] and
    [window] is [int(self.ema_pullback_window.value)]. *)
Definition trend_entry (adx_th window : Z) (df : list Bar.t) : list bool :=
  let trend_regime := Series.cmp_const Py.ge (map adx14 df) (inject_Z adx_th) in
  let ema_stack :=
    Series.and (Series.cmp Py.gt (map ema20 df) (map ema50 df))
               (Series.cmp Py.gt (map ema50 df) (map ema100 df)) in
  let pull_allow : Q := 1 + 0.001 * inject_Z window in
  let pullback_tag :=
    Series.cmp Py.le (map low df) (SeriesOps.scale (map ema20 df) pull_allow) in
  let reclaim := Series.cmp Py.gt (map close df) (map ema20 df) in
  Series.and (Series.and (Series.and trend_regime ema_stack) pullback_tag) reclaim.

(** [mr_entry]; [mr_rsi_max] is [int(self.mr_rsi_max.value)]. *)
Definition mr_entry (adx_th mr_rsi_max : Z) (df : list Bar.t) : list bool :=
  let range_regime := Series.cmp_const Py.lt (map adx14 df) (inject_Z adx_th) in
  Series.and
    (Series.and range_regime (Series.cmp Py.le (map close df) (map bb_lower df)))
    (Series.cmp_const Py.le (map rsi df) (inject_Z mr_rsi_max)).

Definition populate_entry_trend (adx_th window mr_rsi_max : Z) (df : list Bar.t)
  : Signal.t :=
  let cols := Signal.blank (length df) in
  let cols :=
    Signal.assign (Series.and (trend_entry adx_th window df) (has_volume df))
      "trend_pullback" cols in
  let cols :=
    Signal.assign (Series.and (mr_entry adx_th mr_rsi_max df) (has_volume df))
      "mr_dip" cols in
  cols.

Definition populate_exit_trend (df : list Bar.t) : Signal.t :=
  let cols := Signal.blank (length df) in
  let ema_cross_down := _crossed_below (map ema20 df) (map ema50 df) in
  let lose_fast := Series.cmp Py.lt (map close df) (map ema20 df) in
  let mr_complete := Series.cmp Py.ge (map close df) (map bb_mid df) in
  let rsi_hot := Series.cmp_const Py.ge (map rsi df) 72 in
  let rule :=
    Series.and
      (SeriesOps.or (SeriesOps.or (SeriesOps.or ema_cross_down lose_fast) mr_complete)
                    rsi_hot)
      (has_volume df) in
  Signal.assign rule "rule_exit" cols.

End EdgeBreakRetestV1Signals.

Module FixedRiskRewardLossImprovedSignals.

Import Bar.

Definition _strong_trend (df : list Bar.t) : list bool :=
  Series.and (Series.cmp Py.gt (map ema20 df) (map ema50 df))
             (Series.cmp Py.gt (map ema50 df) (map ema100 df)).

(** The mask of [populate_entry_trend]. *)
Definition entry_mask (df : list Bar.t) : list bool :=
  let strong := _strong_trend df in
  let ha_green := Series.cmp Py.gt (map ha_close df) (map ha_open df) in
  let pullback_ema20 :=
    Series.and (Series.cmp Py.le (map low df) (map ema20 df))
               (Series.cmp Py.gt (map close df) (map ema20 df)) in
  let pullback_bblow := Series.cmp Py.le (map close df) (map bb_lower df) in
  Series.and
    (Series.and (Series.and strong ha_green)
                (SeriesOps.or pullback_ema20 pullback_bblow))
    (has_volume df).

Definition populate_entry_trend (df : list Bar.t) : Signal.t :=
  Signal.assign (entry_mask df) "pullback_entry" (Signal.blank (length df)).

(** The mask of [populate_exit_trend]; [rsi_overbought] is the class
    attribute (72). *)
Definition exit_mask (crossed_below : CrossIndicator) (rsi_overbought : Z)
  (df : list Bar.t) : list bool :=
  let ema_cross_down := crossed_below (map ema20 df) (map ema50 df) in
  let rsi_hot := Series.cmp_const Py.gt (map rsi df) (inject_Z rsi_overbought) in
  let price_below_ema20 := Series.cmp Py.lt (map close df) (map ema20 df) in
  Series.and
    (SeriesOps.or (SeriesOps.or ema_cross_down rsi_hot) price_below_ema20)
    (has_volume df).

Definition populate_exit_trend (crossed_below : CrossIndicator) (rsi_overbought : Z)
  (df : list Bar.t) : Signal.t :=
  Signal.assign (exit_mask crossed_below rsi_overbought df) "trend_weaken_or_rsi_hot"
    (Signal.blank (length df)).

End FixedRiskRewardLossImprovedSignals.

Module FixedRR_MultiModeSignals.

Import Bar.
Import FixedRR_MultiMode.

Definition _strong_trend (df : list Bar.t) : list bool :=
  Series.and (Series.cmp Py.gt (map ema20 df) (map ema50 df))
             (Series.cmp Py.gt (map ema50 df) (map ema100 df)).

Definition entry_mask (self : Self) (df : list Bar.t) : list bool :=
  if String.eqb (_mode self) "mr" then
    let not_trending :=
      Series.cmp_const Py.lt (SeriesOps.fillna (map adx14 df) 50) 20 in
    let context_ok :=
      Series.cmp Py.ge (map close df) (SeriesOps.scale (map ema200 df) 0.98) in
    let stretch_down :=
      SeriesOps.or (Series.cmp Py.le (map close df) (map bb_lower df))
                   (Series.cmp_const Py.le (map rsi df) 40) in
    Series.and (Series.and (Series.and not_trending context_ok) stretch_down)
               (has_volume df)
  else
    let strong := _strong_trend df in
    let ha_green := Series.cmp Py.gt (map ha_close df) (map ha_open df) in
    let pullback_ema20 :=
      Series.and (Series.cmp Py.le (map low df) (map ema20 df))
                 (Series.cmp Py.gt (map close df) (map ema20 df)) in
    let pullback_bblow := Series.cmp Py.le (map close df) (map bb_lower df) in
    Series.and
      (Series.and (Series.and strong ha_green)
                  (SeriesOps.or pullback_ema20 pullback_bblow))
      (has_volume df).

Definition populate_entry_trend (self : Self) (df : list Bar.t) : Signal.t :=
  let cols := Signal.blank (length df) in
  if String.eqb (_mode self) "mr" then
    Signal.assign (entry_mask self df) "mr_dip_buy" cols
  else
    Signal.assign (entry_mask self df) "trend_pullback" cols.

(** [rsi_overbought] is [self.rsi_overbought] (72 in both modes). *)
Definition exit_mask (crossed_below : CrossIndicator) (rsi_overbought : Z)
  (self : Self) (df : list Bar.t) : list bool :=
  if String.eqb (_mode self) "mr" then
    let mid_revert := Series.cmp Py.ge (map close df) (map bb_mid df) in
    let rsi_relief := Series.cmp_const Py.ge (map rsi df) 55 in
    let trend_bad := Series.cmp Py.lt (map close df) (map ema20 df) in
    Series.and (SeriesOps.or (SeriesOps.or mid_revert rsi_relief) trend_bad)
               (has_volume df)
  else
    let ema_cross_down := crossed_below (map ema20 df) (map ema50 df) in
    let rsi_hot := Series.cmp_const Py.gt (map rsi df) (inject_Z rsi_overbought) in
    let price_below_ema20 := Series.cmp Py.lt (map close df) (map ema20 df) in
    Series.and
      (SeriesOps.or (SeriesOps.or ema_cross_down rsi_hot) price_below_ema20)
      (has_volume df).

Definition populate_exit_trend (crossed_below : CrossIndicator) (rsi_overbought : Z)
  (self : Self) (df : list Bar.t) : Signal.t :=
  let cols := Signal.blank (length df) in
  if String.eqb (_mode self) "mr" then
    Signal.assign (exit_mask crossed_below rsi_overbought self df)
      "mr_revert_or_weak" cols
  else
    Signal.assign (exit_mask crossed_below rsi_overbought self df)
      "trend_weaken_or_hot" cols.

End FixedRR_MultiModeSignals.

Module SwingEMA_RSI_ATRSignals.

Import Bar.

(** [pullback_tol_bp], [rsi_buy_min] are the integer values of the knobs. *)
Definition entry_mask (pullback_tol_bp rsi_buy_min : Z) (df : list Bar.t)
  : list bool :=
  let uptrend := Series.cmp Py.gt (map ema50 df) (map ema200 df) in
  let tol : Q := 1 + inject_Z pullback_tol_bp / 10000.0 in
  let pullback :=
    Series.and (Series.cmp Py.le (map low df) (SeriesOps.scale (map sma20 df) tol))
               (Series.cmp Py.gt (map close df) (map sma20 df)) in
  let rsi_ok := Series.cmp_const Py.ge (map rsi df) (inject_Z rsi_buy_min) in
  Series.and (Series.and (Series.and uptrend pullback) rsi_ok) (has_volume df).

Definition populate_entry_trend (pullback_tol_bp rsi_buy_min : Z) (df : list Bar.t)
  : Signal.t :=
  Signal.assign (entry_mask pullback_tol_bp rsi_buy_min df) "swing_pullback_sma20"
    (Signal.blank (length df)).

Definition exit_mask (rsi_sell_max : Z) (df : list Bar.t) : list bool :=
  let weaken := Series.cmp Py.lt (map close df) (map ema50 df) in
  let overbought := Series.cmp_const Py.gt (map rsi df) (inject_Z rsi_sell_max) in
  Series.and (SeriesOps.or weaken overbought) (has_volume df).

Definition populate_exit_trend (rsi_sell_max : Z) (df : list Bar.t) : Signal.t :=
  Signal.assign (exit_mask rsi_sell_max df) "swing_exit_weaken_or_hot"
    (Signal.blank (length df)).

End SwingEMA_RSI_ATRSignals.

Module Sma20RsiBbAtrStrategySignals.

Import Bar.

(** [rsi_buy] is [int(self.rsi_buy.value)]. *)
Definition entry_mask (rsi_buy : Z) (df : list Bar.t) : list bool :=
  let sma_slope_up :=
    Series.cmp Py.gt (map sma20 df) (SeriesOps.shift 3 (map sma20 df)) in
  let c1 := Series.cmp_const Py.lt (map rsi df) (inject_Z (Z.max 30 rsi_buy)) in
  let c2 :=
    Series.and (Series.cmp_const Py.lt (SeriesOps.shift 1 (map rsi df)) 30)
               (Series.cmp_const Py.ge (map rsi df) 30) in
  let c3 := Series.cmp Py.le (map close df) (map bb_lower df) in
  Series.and (Series.and sma_slope_up (SeriesOps.or (SeriesOps.or c1 c2) c3))
             (has_volume df).

Definition populate_entry_trend (rsi_buy : Z) (df : list Bar.t) : Signal.t :=
  Signal.assign (entry_mask rsi_buy df) "revert_with_rising_sma"
    (Signal.blank (length df)).

(** [rsi_sell] is [self.rsi_sell.value]. *)
Definition exit_mask (rsi_sell : Z) (df : list Bar.t) : list bool :=
  Series.and
    (SeriesOps.or (Series.cmp_const Py.gt (map rsi df) (inject_Z rsi_sell))
                  (Series.cmp Py.lt (map close df) (map sma20 df)))
    (has_volume df).

Definition populate_exit_trend (rsi_sell : Z) (df : list Bar.t) : Signal.t :=
  Signal.assign (exit_mask rsi_sell df) "rsi_overbought_or_below_sma"
    (Signal.blank (length df)).

End Sma20RsiBbAtrStrategySignals.

Module SwingHighToSkyV2Signals.

(** The columns read by [populate_entry_trend]: [cci] and [rsi] are the
    columns [cci-{buy_cciTime}] and [rsi-{buy_rsiTime}] selected by the
    knobs; the last three exist when the optional filters are on. *)
Record Candle : Type := {
  cci : float;
  rsi : float;
  close : float;
  ema_fast : float;
  ema_slow : float;
  bbw_pct : float
}.

Record Knobs : Type := {
  buy_cci : Z;
  buy_rsi : Z;
  enable_trend_filter : bool;
  enable_volatility_filter : bool;
  min_bb_width_pct : Q
}.

Definition conds (self : Knobs) (df : list Candle) : list (list bool) :=
  let conds :=
    [ Series.cmp_const Py.lt (map cci df) (inject_Z (buy_cci self));
      Series.cmp_const Py.lt (map rsi df) (inject_Z (buy_rsi self)) ] in
  let conds :=
    if enable_trend_filter self then
      conds ++ [ Series.cmp Py.gt (map ema_fast df) (map ema_slow df);
                 Series.cmp Py.gt (map close df) (map ema_fast df) ]
    else conds in
  let conds :=
    if enable_volatility_filter self then
      conds ++ [ Series.cmp_const Py.gt (map bbw_pct df) (min_bb_width_pct self) ]
    else conds in
  conds.

(** The class defaults of the two switches: both filters off. *)
Definition filters_off (self : Knobs) : Knobs :=
  {| buy_cci := buy_cci self; buy_rsi := buy_rsi self;
     enable_trend_filter := false; enable_volatility_filter := false;
     min_bb_width_pct := min_bb_width_pct self |}.

(** The column [enter_long]. *)
Definition populate_entry_trend (self : Knobs) (df : list Candle) : list Z :=
  let enter_long := replicate (length df) 0%Z in
  match conds self df with
  | [] => enter_long
  | cs => Series.loc_set (SeriesOps.all (length df) cs) 1%Z enter_long
  end.

End SwingHighToSkyV2Signals.

Module CustomStoplossWithPSARSignals.

(** The two columns written by [populate_exit_trend]; a cell never
    assigned stays undefined ([None]). *)
Record ExitColumns : Type := {
  exit_long : list (option Z);
  exit_tag : list (option string)
}.

(** [dataframe.loc[cond, 'exit_long'] = 1] followed by
    [dataframe.loc[cond, 'exit_tag'] = tag]. *)
Definition assign_rule (cond : list bool) (tag : string) (cols : ExitColumns)
  : ExitColumns :=
  let exit_long := Series.loc_set cond (Some 1%Z) (exit_long cols) in
  let exit_tag := Series.loc_set cond (Some tag) (exit_tag cols) in
  {| exit_long := exit_long; exit_tag := exit_tag |}.

(** [bb_upper] is the column of that name. *)
Definition populate_exit_trend (df : list Candle) (bb_upper : list float)
  : ExitColumns :=
  let rsi_tp := Series.cmp_const Py.gt (map rsi df) 70 in
  let bb_tp := Series.cmp Py.ge (map c_close df) bb_upper in
  let psar_bear_flip :=
    Series.and
      (Series.cmp Py.gt (map sar df) (map c_close df))
      (Series.cmp Py.le (Series.shift1 (map sar df)) (Series.shift1 (map c_close df))) in
  let cols :=
    {| exit_long := replicate (length df) None;
       exit_tag := replicate (length df) None |} in
  let cols := assign_rule rsi_tp "rsi_overbought_70" cols in
  let cols := assign_rule bb_tp "bb_upper_tp" cols in
  cols.

End CustomStoplossWithPSARSignals.
(* ===================================================================== *)
(** * Proofs                                                             *)
(* ===================================================================== *)

(** ** Facts about the Python builtins *)

Lemma Qle_bool_false (x y : Q) : Qle_bool x y = false -> y < x.
Proof.
  intros H. apply Qnot_le_lt. intros Hle.
  apply Qle_bool_iff in Hle. congruence.
Qed.

Lemma Qltb_true (x y : Q) : Py.Qltb x y = true -> x < y.
Proof.
  unfold Py.Qltb. intros H. apply negb_true_iff in H.
  now apply Qle_bool_false.
Qed.

Lemma Qltb_false (x y : Q) : Py.Qltb x y = false -> y <= x.
Proof.
  unfold Py.Qltb. intros H. apply negb_false_iff in H.
  now apply Qle_bool_iff.
Qed.

Lemma Qeq_bool_false (x y : Q) : Qeq_bool x y = false -> ~ x == y.
Proof. intros H. now apply Qeq_bool_neq. Qed.

(** Turn the boolean tests collected in the context into (in)equalities. *)
Ltac qprop :=
  repeat match goal with
  | H : Qle_bool _ _ = true |- _ => apply Qle_bool_iff in H
  | H : Qle_bool _ _ = false |- _ => apply Qle_bool_false in H
  | H : Py.Qltb _ _ = true |- _ => apply Qltb_true in H
  | H : Py.Qltb _ _ = false |- _ => apply Qltb_false in H
  | H : Qeq_bool _ _ = true |- _ => apply Qeq_bool_iff in H
  | H : Qeq_bool _ _ = false |- _ => apply Qeq_bool_false in H
  end.

Lemma div_num (a r : Q) : ~ r == 0 -> Py.div (Num a) (Num r) = Ok (Num (a / r)).
Proof.
  intros Hr. unfold Py.div.
  destruct (Qeq_bool r 0) eqn:E; [|reflexivity].
  qprop. contradiction.
Qed.

Lemma div_nan (r : Q) : ~ r == 0 -> Py.div NaN (Num r) = Ok NaN.
Proof.
  intros Hr. unfold Py.div.
  destruct (Qeq_bool r 0) eqn:E; [|reflexivity].
  qprop. contradiction.
Qed.

Lemma max_num (a b : Q) : Py.max (Num a) (Num b) = Num (Engine.pmax a b).
Proof.
  unfold Py.max, Py.gt, Py.lt, Engine.pmax. now destruct (Py.Qltb a b).
Qed.

Lemma max_nan_r (a : float) : Py.max a NaN = a.
Proof. now destruct a. Qed.

Lemma pmax_l (a b : Q) : a <= Engine.pmax a b.
Proof. unfold Engine.pmax. destruct (Py.Qltb a b) eqn:E; qprop; lra. Qed.

Lemma pmax_r (a b : Q) : b <= Engine.pmax a b.
Proof. unfold Engine.pmax. destruct (Py.Qltb a b) eqn:E; qprop; lra. Qed.

Lemma pmax_cases (a b : Q) :
  (a < b /\ Engine.pmax a b = b) \/ (b <= a /\ Engine.pmax a b = a).
Proof. unfold Engine.pmax. destruct (Py.Qltb a b) eqn:E; qprop; auto. Qed.

Lemma max_num_floor (a f : Q) :
  exists r, Py.max (Num a) (Num f) = Num r /\ f <= r.
Proof. rewrite max_num. eexists. split; [reflexivity | apply pmax_r]. Qed.

(** ** The scenario of the specification *)

(** C8: [SwingEMA_RSI_ATR.custom_stoploss] with entry price 100, entry-time
    stop reference 98, [rr_ratio] 2.0 and both fees 0.001 returns
    98/101 - 1 at rate 101, 100.2/102 - 1 at rate 102 and 104/105 - 1 at
    rate 105 (about -0.0297, -0.0176 and -0.0095); the breakeven trigger is
    101.4 and the target 104. *)
Theorem swing_ema_end_to_end
  (info : gmap string (Frame float)) (pair : string) (open_date now : Z)
  (profit : option Q) :
  let self := SwingEMA_RSI_ATR.new info in
  let trade := {| open_rate := 100; open_date_utc := open_date;
                  fee_open := 0.001; fee_close := 0.001 |} in
  SwingEMA_RSI_ATR._lookup_init_sl self pair open_date = Some (Num 98) ->
  exists r1 r2 r3 : Q,
    SwingEMA_RSI_ATR.custom_stoploss self pair trade now 101 profit = Ok (Num r1)
    /\ r1 == 98 / 101 - 1 /\ -0.0298 < r1 < -0.0297
    /\ SwingEMA_RSI_ATR.custom_stoploss self pair trade now 102 profit = Ok (Num r2)
    /\ r2 == 100.2 / 102 - 1 /\ -0.0177 < r2 < -0.0176
    /\ SwingEMA_RSI_ATR.custom_stoploss self pair trade now 105 profit = Ok (Num r3)
    /\ r3 == 104 / 105 - 1 /\ -0.0096 < r3 < -0.0095
    /\ Stages.risk_level trade 98 0.7 == 101.4
    /\ Stages.risk_level trade 98 (SwingEMA_RSI_ATR.rr_ratio self) == 104.
Proof.
  intros self trade Hlook.
  unfold SwingEMA_RSI_ATR.custom_stoploss.
  cbn [open_date_utc trade]. rewrite Hlook.
  do 3 eexists.
  repeat split; try (vm_compute; reflexivity).
Qed.

Lemma swing_ema_end_to_end_witness :
  let info : gmap string (Frame float) :=
    {[ "BTC/USDT"%string := [(900%Z, Num 97); (1000%Z, Num 98); (1100%Z, Num 105)] ]} in
  let self := SwingEMA_RSI_ATR.new info in
  let trade := {| open_rate := 100; open_date_utc := 1000;
                  fee_open := 0.001; fee_close := 0.001 |} in
  exists r1 r2 r3 : Q,
    SwingEMA_RSI_ATR.custom_stoploss self "BTC/USDT" trade 4600 101 None = Ok (Num r1)
    /\ r1 == 98 / 101 - 1 /\ -0.0298 < r1 < -0.0297
    /\ SwingEMA_RSI_ATR.custom_stoploss self "BTC/USDT" trade 4600 102 None = Ok (Num r2)
    /\ r2 == 100.2 / 102 - 1 /\ -0.0177 < r2 < -0.0176
    /\ SwingEMA_RSI_ATR.custom_stoploss self "BTC/USDT" trade 4600 105 None = Ok (Num r3)
    /\ r3 == 104 / 105 - 1 /\ -0.0096 < r3 < -0.0095
    /\ Stages.risk_level trade 98 0.7 == 101.4
    /\ Stages.risk_level trade 98 (SwingEMA_RSI_ATR.rr_ratio self) == 104.
Proof.
  intros info self trade.
  apply (swing_ema_end_to_end info "BTC/USDT" 1000 4600 None).
  vm_compute. reflexivity.
Defined.

(** ** The risk-multiple strategies implement the staged engine *)

Lemma Qltb_ratio (a b r : Q) :
  0 < r -> Py.Qltb (a / r - 1.0) (b / r - 1.0) = Py.Qltb a b.
Proof.
  intros Hr.
  assert (Ha : a == (a / r) * r) by (field; lra).
  assert (Hb : b == (b / r) * r) by (field; lra).
  destruct (Py.Qltb a b) eqn:E1;
    destruct (Py.Qltb (a / r - 1.0) (b / r - 1.0)) eqn:E2;
    try reflexivity; qprop; exfalso;
    set (x := a / r) in *; set (y := b / r) in *; clearbody x y; nra.
Qed.

Lemma max_ratio (a b r : Q) :
  0 < r ->
  Py.max (Num (a / r - 1.0)) (Num (b / r - 1.0)) = Num (Engine.pmax a b / r - 1.0).
Proof.
  intros Hr. rewrite max_num. unfold Engine.pmax.
  rewrite (Qltb_ratio a b r Hr). now destruct (Py.Qltb a b).
Qed.

(** The guards in front of the stages: a numeric reference below the entry
    price yields a positive [risk_abs = open_rate - i]. *)
Lemma risk_abs_positive (o i : Q) :
  i < o -> Py.max 0.0 (Py.sub (Num o) (Num i)) = Num (o - i).
Proof.
  intros H. cbn [Py.sub Py.lift2]. rewrite max_num. unfold Engine.pmax.
  destruct (Py.Qltb 0.0 (o - i)) eqn:E; [reflexivity | qprop; lra].
Qed.

(** Any other reference (NaN, or at or above the entry price) yields a
    [risk_abs] that fails the [risk_abs <= 0] test. *)
Lemma risk_abs_degenerate (o : Q) (init : float) :
  (forall i, init = Num i -> o <= i) ->
  Py.le (Py.max 0.0 (Py.sub (Num o) init)) 0 = true.
Proof.
  intros H. destruct init as [i|]; [|reflexivity].
  specialize (H i eq_refl). cbn [Py.sub Py.lift2]. rewrite max_num.
  unfold Engine.pmax, Py.le.
  destruct (Py.Qltb 0.0 (o - i)) eqn:E; [qprop; lra | reflexivity].
Qed.

(** Common script: enter the staged part of a risk-multiple callback and
    identify it with [Engine.staged_ratio]. *)
Ltac enter_stages Hlook Hr Hrisk :=
  rewrite Hlook;
  match goal with
  | |- context [Qle_bool ?r 0] =>
      destruct (Qle_bool r 0) eqn:?; [qprop; lra|]
  end;
  rewrite (risk_abs_positive _ _ Hrisk);
  cbn [Py.le Py.add Py.mul Py.lift2 Py.ge];
  match goal with
  | |- context [Qle_bool (?o - ?i) 0] =>
      destruct (Qle_bool (o - i) 0) eqn:?; [qprop; lra|]
  end;
  rewrite !div_num by lra; cbn [Py.bind Py.sub Py.lift2];
  unfold Engine.staged_ratio, Engine.best_level, Engine.tighten,
    Stages.two_stage, Stages.three_stage, Stages.risk_level, Stages.breakeven_price;
  cbn [fold_left Engine.trigger Engine.level];
  repeat match goal with
  | |- context [if Qle_bool ?t ?r then _ else _] => destruct (Qle_bool t r) eqn:?
  end;
  cbn [Py.bind]; rewrite ?max_ratio by assumption; rewrite max_num;
  reflexivity.

Lemma fixed_rr_improved_refines (self : FixedRiskRewardLossImproved.Self)
  (pair : string) (trade : Trade) (now : Z) (rate : Q) (profit : option Q) (i : Q) :
  FixedRiskRewardLossImproved._lookup_open_sl_abs self pair (open_date_utc trade)
    = Some (Num i) ->
  0 < rate -> i < open_rate trade ->
  FixedRiskRewardLossImproved.custom_stoploss self pair trade now rate profit
  = Ok (Num (Engine.staged_ratio (FixedRiskRewardLossImproved.stoploss self) rate i
               (Stages.two_stage trade i (FixedRiskRewardLossImproved.break_even_R self)
                  (FixedRiskRewardLossImproved.rr_ratio self)))).
Proof.
  intros Hlook Hr Hrisk. unfold FixedRiskRewardLossImproved.custom_stoploss.
  enter_stages Hlook Hr Hrisk.
Qed.

Lemma fixed_rr_multimode_refines (self : FixedRR_MultiMode.Self)
  (pair : string) (trade : Trade) (now : Z) (rate : Q) (profit : option Q) (i : Q) :
  FixedRR_MultiMode._lookup_open_sl_abs self pair (open_date_utc trade) = Some (Num i) ->
  0 < rate -> i < open_rate trade ->
  FixedRR_MultiMode.custom_stoploss self pair trade now rate profit
  = Ok (Num (Engine.staged_ratio (FixedRR_MultiMode.stoploss self) rate i
               (Stages.two_stage trade i (FixedRR_MultiMode.break_even_R self)
                  (FixedRR_MultiMode.rr_ratio self)))).
Proof.
  intros Hlook Hr Hrisk. unfold FixedRR_MultiMode.custom_stoploss.
  enter_stages Hlook Hr Hrisk.
Qed.

Lemma swing_ema_refines (self : SwingEMA_RSI_ATR.Self)
  (pair : string) (trade : Trade) (now : Z) (rate : Q) (profit : option Q) (i : Q) :
  SwingEMA_RSI_ATR._lookup_init_sl self pair (open_date_utc trade) = Some (Num i) ->
  0 < rate -> i < open_rate trade ->
  SwingEMA_RSI_ATR.custom_stoploss self pair trade now rate profit
  = Ok (Num (Engine.staged_ratio (SwingEMA_RSI_ATR.stoploss self) rate i
               (Stages.three_stage trade i 0.5 (SwingEMA_RSI_ATR.rr_ratio self)))).
Proof.
  intros Hlook Hr Hrisk. unfold SwingEMA_RSI_ATR.custom_stoploss.
  enter_stages Hlook Hr Hrisk.
Qed.

Lemma edge_break_refines (self : EdgeBreakRetestV1.Self)
  (pair : string) (trade : Trade) (now : Z) (rate : Q) (profit : option Q) (i : Q) :
  EdgeBreakRetestV1._lookup_init_sl self pair (open_date_utc trade) = Some (Num i) ->
  0 < rate -> i < open_rate trade ->
  EdgeBreakRetestV1.custom_stoploss self pair trade now rate profit
  = Ok (Num (Engine.staged_ratio (EdgeBreakRetestV1.stoploss self) rate i
               (Stages.three_stage trade i 0.4 (EdgeBreakRetestV1.rr_ratio self)))).
Proof.
  intros Hlook Hr Hrisk. unfold EdgeBreakRetestV1.custom_stoploss.
  enter_stages Hlook Hr Hrisk.
Qed.

(** Behind the interface: the staged part ... *)
Lemma risk_multiple_staged (s : IStrategy) (pair : string) (trade : Trade)
  (now : Z) (rate : Q) (profit : option Q) (i : Q) :
  entry_reference_of s pair (open_date_utc trade) = Some (Num i) ->
  0 < rate -> i < open_rate trade ->
  custom_stoploss_of s pair trade now rate profit
  = Ok (Num (Engine.staged_ratio (stoploss_of s) rate i (stages_of s trade i))).
Proof.
  destruct s; cbn [entry_reference_of custom_stoploss_of stoploss_of stages_of];
    try discriminate.
  - apply fixed_rr_improved_refines.
  - apply fixed_rr_multimode_refines.
  - apply swing_ema_refines.
  - apply edge_break_refines.
Qed.

(** ... and the guards in front of it, which all return the hard floor. *)
Lemma risk_multiple_guarded (s : IStrategy) (pair : string) (trade : Trade)
  (now : Z) (rate : Q) (profit : option Q) :
  risk_multiple s = true ->
  rate <= 0
  \/ entry_reference_of s pair (open_date_utc trade) = None
  \/ (exists init, entry_reference_of s pair (open_date_utc trade) = Some init
                   /\ forall i, init = Num i -> open_rate trade <= i) ->
  custom_stoploss_of s pair trade now rate profit = Ok (Num (stoploss_of s)).
Proof.
  intros Hs Hguard.
  destruct s; try discriminate Hs;
    cbn [entry_reference_of custom_stoploss_of stoploss_of] in *;
    [ unfold FixedRiskRewardLossImproved.custom_stoploss
    | unfold FixedRR_MultiMode.custom_stoploss
    | unfold SwingEMA_RSI_ATR.custom_stoploss
    | unfold EdgeBreakRetestV1.custom_stoploss ];
    (destruct Hguard as [Hr | [Hn | (init & Hi & Hrisk)]];
     [ apply Qle_bool_iff in Hr; rewrite Hr;
       match goal with |- context [match ?l with Some _ => _ | None => _ end] =>
         now destruct l end
     | now rewrite Hn
     | rewrite Hi, (risk_abs_degenerate _ _ Hrisk);
       now destruct (Qle_bool rate 0) ]).
Qed.

Lemma risk_multiple_cases (s : IStrategy) (pair : string) (trade : Trade)
  (now : Z) (rate : Q) (profit : option Q) :
  risk_multiple s = true ->
  custom_stoploss_of s pair trade now rate profit = Ok (Num (stoploss_of s))
  \/ exists i,
       entry_reference_of s pair (open_date_utc trade) = Some (Num i)
       /\ 0 < rate /\ i < open_rate trade
       /\ custom_stoploss_of s pair trade now rate profit
          = Ok (Num (Engine.staged_ratio (stoploss_of s) rate i (stages_of s trade i))).
Proof.
  intros Hs.
  destruct (Qlt_le_dec 0 rate) as [Hr | Hr];
    [| left; apply risk_multiple_guarded; auto].
  destruct (entry_reference_of s pair (open_date_utc trade)) as [[i|]|] eqn:Hi.
  - destruct (Qlt_le_dec i (open_rate trade)) as [Hrisk | Hrisk].
    + right. exists i. repeat split; auto. now apply risk_multiple_staged.
    + left. apply risk_multiple_guarded; auto. right; right.
      exists (Num i). split; [assumption|]. intros j [= <-]. exact Hrisk.
  - left. apply risk_multiple_guarded; auto. right; right.
    exists NaN. split; [assumption|]. intros j [=].
  - left. apply risk_multiple_guarded; auto.
Qed.

(** ** Properties of the staged engine *)

Section EngineFacts.

Import Engine.

Lemma staged_ratio_floor (f r b : Q) (st : list Stage) :
  f <= staged_ratio f r b st.
Proof.
  unfold staged_ratio.
  destruct (Py.Qltb (best_level r b st / r - 1.0) f) eqn:E; qprop; lra.
Qed.

Lemma stop_price_ratio (r c : Q) : 0 < r -> stop_price r (c / r - 1.0) == c.
Proof. intros Hr. unfold stop_price. field. lra. Qed.

(** In price terms the result is the larger of the best stage level and
    the floor price. *)
Lemma staged_stop_price (f r b : Q) (st : list Stage) :
  0 < r ->
  let P := stop_price r (staged_ratio f r b st) in
  best_level r b st <= P /\ stop_price r f <= P
  /\ (P == best_level r b st \/ P == stop_price r f).
Proof.
  intros Hr P. subst P. unfold staged_ratio.
  pose proof (stop_price_ratio r (best_level r b st) Hr) as Hp.
  destruct (Py.Qltb (best_level r b st / r - 1.0) f) eqn:E; qprop.
  - assert (Hlt : stop_price r (best_level r b st / r - 1.0) < stop_price r f).
    { unfold stop_price. apply Qmult_lt_l; lra. }
    rewrite Hp in Hlt. split; [lra | split; [lra | right; reflexivity]].
  - assert (Hle : stop_price r f <= stop_price r (best_level r b st / r - 1.0)).
    { unfold stop_price. apply Qmult_le_l; lra. }
    rewrite Hp in Hle. split; [rewrite Hp; lra | split; [lra | left; exact Hp]].
Qed.

Lemma tighten_base (r b : Q) (s : Stage) : b <= tighten r b s.
Proof.
  unfold tighten. destruct (Qle_bool (trigger s) r); [apply pmax_l | lra].
Qed.

Lemma best_level_base (r b : Q) (st : list Stage) : b <= best_level r b st.
Proof.
  unfold best_level. revert b. induction st as [|s st IH]; intros b; cbn.
  - lra.
  - pose proof (tighten_base r b s). pose proof (IH (tighten r b s)). lra.
Qed.

(** A stage whose trigger is reached has its level honoured. *)
Lemma best_level_stage (r b : Q) (st : list Stage) (s : Stage) :
  In s st -> trigger s <= r -> level s <= best_level r b st.
Proof.
  unfold best_level. revert b. induction st as [|s' st IH]; intros b Hin Ht.
  - destruct Hin.
  - cbn. destruct Hin as [-> | Hin].
    + pose proof (best_level_base r (tighten r b s) st) as Hb.
      unfold best_level in Hb.
      assert (Hl : level s <= tighten r b s).
      { unfold tighten. apply Qle_bool_iff in Ht. rewrite Ht. apply pmax_r. }
      lra.
    + now apply IH.
Qed.

Lemma tighten_mono (r1 r2 b1 b2 : Q) (s : Stage) :
  r1 <= r2 -> b1 <= b2 -> tighten r1 b1 s <= tighten r2 b2 s.
Proof.
  intros Hr Hb. unfold tighten.
  destruct (Qle_bool (trigger s) r1) eqn:E1;
    destruct (Qle_bool (trigger s) r2) eqn:E2; qprop; try lra.
  - destruct (pmax_cases b1 (level s)) as [[? ->] | [? ->]];
      [apply pmax_r | pose proof (pmax_l b2 (level s)); lra].
  - pose proof (pmax_l b2 (level s)). lra.
Qed.

(** Raising the price can only switch stages on: the best level rises. *)
Lemma best_level_mono (r1 r2 b1 b2 : Q) (st : list Stage) :
  r1 <= r2 -> b1 <= b2 -> best_level r1 b1 st <= best_level r2 b2 st.
Proof.
  intros Hr. unfold best_level. revert b1 b2.
  induction st as [|s st IH]; intros b1 b2 Hb; cbn; [assumption|].
  apply IH. now apply tighten_mono.
Qed.

Lemma staged_stop_price_mono (f r1 r2 b : Q) (st : list Stage) :
  -1 <= f -> 0 < r1 -> r1 <= r2 ->
  stop_price r1 (staged_ratio f r1 b st) <= stop_price r2 (staged_ratio f r2 b st).
Proof.
  intros Hf H1 H12.
  assert (H2 : 0 < r2) by lra.
  destruct (staged_stop_price f r1 b st H1) as (_ & _ & Hone).
  destruct (staged_stop_price f r2 b st H2) as (Hb2 & Hf2 & _).
  pose proof (best_level_mono r1 r2 b b st H12 (Qle_refl b)) as Hm.
  assert (Hfl : stop_price r1 f <= stop_price r2 f).
  { unfold stop_price. apply Qmult_le_compat_r; lra. }
  destruct Hone as [-> | ->]; lra.
Qed.

End EngineFacts.

(** ** Breakeven and tightening, on the strategies *)

Lemma breakeven_stage_listed (s : IStrategy) (trade : Trade) (i : Q) :
  risk_multiple s = true ->
  In {| Engine.trigger := breakeven_trigger_of s trade i;
        Engine.level := Stages.breakeven_price trade |} (stages_of s trade i).
Proof.
  destruct s; try discriminate; intros _; left; reflexivity.
Qed.

(** C2: once the entry-time lookup has succeeded with positive risk and
    the current rate is at or above the breakeven trigger, the implied stop
    price [current_rate * (1 + ratio)] is at least
    [open_rate * (1 + fee_open + fee_close)]. *)
Theorem breakeven_non_loss (s : IStrategy) (pair : string) (trade : Trade)
  (now : Z) (rate : Q) (profit : option Q) (i : Q) :
  risk_multiple s = true ->
  entry_reference_of s pair (open_date_utc trade) = Some (Num i) ->
  i < open_rate trade ->
  0 < rate ->
  breakeven_trigger_of s trade i <= rate ->
  exists q,
    custom_stoploss_of s pair trade now rate profit = Ok (Num q)
    /\ open_rate trade * (1 + fee_open trade + fee_close trade) <= stop_price rate q.
Proof.
  intros Hs Hlook Hrisk Hr Htrig.
  eexists. split; [exact (risk_multiple_staged s pair trade now rate profit i Hlook Hr Hrisk)|].
  destruct (staged_stop_price (stoploss_of s) rate i (stages_of s trade i) Hr)
    as (Hbest & _).
  pose proof (best_level_stage rate i (stages_of s trade i) _
                (breakeven_stage_listed s trade i Hs) Htrig) as Hbe.
  cbn [Engine.level] in Hbe. unfold Stages.breakeven_price in Hbe. lra.
Qed.

Lemma breakeven_non_loss_witness :
  let info : gmap string (Frame float) :=
    {[ "BTC/USDT"%string := [(900%Z, Num 97); (1000%Z, Num 98); (1100%Z, Num 105)] ]} in
  let trade := {| open_rate := 100; open_date_utc := 1000;
                  fee_open := 0.001; fee_close := 0.001 |} in
  exists q,
    custom_stoploss_of (of_FixedRiskRewardLossImproved (FixedRiskRewardLossImproved.new info))
      "BTC/USDT" trade 4600 102 None = Ok (Num q)
    /\ open_rate trade * (1 + fee_open trade + fee_close trade) <= stop_price 102 q.
Proof.
  intros info trade.
  apply (breakeven_non_loss
           (of_FixedRiskRewardLossImproved (FixedRiskRewardLossImproved.new info))
           "BTC/USDT" trade 4600 102 None 98).
  - reflexivity.
  - vm_compute. reflexivity.
  - vm_compute. reflexivity.
  - vm_compute. reflexivity.
  - vm_compute. intros H. discriminate H.
Defined.

(** C3, as stated, fails: the ratio is taken against the current rate, so
    between two triggers it falls while the rate rises.  With entry 100 and
    reference 98, [FixedRiskRewardLossImproved] gives a lower ratio at 103.9
    (just under its take-profit line 104) than at its breakeven trigger
    101.6, and [SwingEMA_RSI_ATR] a lower ratio at its lock trigger 103 than
    at its breakeven trigger 101.4. *)
Lemma ratio_falls_between_triggers :
  let info : gmap string (Frame float) := {[ "BTC/USDT"%string := [(1000%Z, Num 98)] ]} in
  let trade := {| open_rate := 100; open_date_utc := 1000;
                  fee_open := 0.001; fee_close := 0.001 |} in
  (101.6 <= 103.9
   /\ exists q1 q2,
        FixedRiskRewardLossImproved.custom_stoploss (FixedRiskRewardLossImproved.new info)
          "BTC/USDT" trade 4600 101.6 None = Ok (Num q1)
        /\ FixedRiskRewardLossImproved.custom_stoploss (FixedRiskRewardLossImproved.new info)
             "BTC/USDT" trade 4600 103.9 None = Ok (Num q2)
        /\ q2 < q1)
  /\ (101.4 <= 103
      /\ exists q1 q2,
           SwingEMA_RSI_ATR.custom_stoploss (SwingEMA_RSI_ATR.new info)
             "BTC/USDT" trade 4600 101.4 None = Ok (Num q1)
           /\ SwingEMA_RSI_ATR.custom_stoploss (SwingEMA_RSI_ATR.new info)
                "BTC/USDT" trade 4600 103 None = Ok (Num q2)
           /\ q2 < q1).
Proof.
  intros info trade. split; (split; [vm_compute; intros H; discriminate H|]).
  - do 2 eexists. repeat split; vm_compute; reflexivity.
  - do 2 eexists. repeat split; vm_compute; reflexivity.
Qed.

Lemma floor_price_mono (f r1 r2 : Q) :
  -1 <= f -> r1 <= r2 -> stop_price r1 f <= stop_price r2 f.
Proof. intros Hf Hr. unfold stop_price. apply Qmult_le_compat_r; lra. Qed.

(** C3, amended: for a fixed trade and store, with a hard floor of at
    least -1, the implied stop price [current_rate * (1 + ratio)] of the
    risk-multiple strategies never falls when the current rate rises. *)
Theorem stop_price_monotone (s : IStrategy) (pair : string) (trade : Trade)
  (now1 now2 : Z) (r1 r2 : Q) (profit1 profit2 : option Q) :
  risk_multiple s = true ->
  -1 <= stoploss_of s ->
  r1 <= r2 ->
  exists q1 q2,
    custom_stoploss_of s pair trade now1 r1 profit1 = Ok (Num q1)
    /\ custom_stoploss_of s pair trade now2 r2 profit2 = Ok (Num q2)
    /\ stop_price r1 q1 <= stop_price r2 q2.
Proof.
  intros Hs Hf Hr.
  destruct (risk_multiple_cases s pair trade now1 r1 profit1 Hs)
    as [H1 | (i & Hi & Hpos & Hrisk & H1)].
  - destruct (risk_multiple_cases s pair trade now2 r2 profit2 Hs)
      as [H2 | (i & Hi & Hpos & Hrisk & H2)].
    + do 2 eexists. split; [exact H1|]. split; [exact H2|].
      now apply floor_price_mono.
    + do 2 eexists. split; [exact H1|]. split; [exact H2|].
      destruct (staged_stop_price (stoploss_of s) r2 i (stages_of s trade i) Hpos)
        as (_ & Hfl & _).
      pose proof (floor_price_mono (stoploss_of s) r1 r2 Hf Hr). lra.
  - assert (Hpos2 : 0 < r2) by lra.
    do 2 eexists. split; [exact H1|].
    split; [exact (risk_multiple_staged s pair trade now2 r2 profit2 i Hi Hpos2 Hrisk)|].
    apply staged_stop_price_mono; assumption.
Qed.

Lemma stop_price_monotone_witness :
  let info : gmap string (Frame float) := {[ "BTC/USDT"%string := [(1000%Z, Num 98)] ]} in
  let trade := {| open_rate := 100; open_date_utc := 1000;
                  fee_open := 0.001; fee_close := 0.001 |} in
  exists q1 q2,
    custom_stoploss_of (of_SwingEMA_RSI_ATR (SwingEMA_RSI_ATR.new info))
      "BTC/USDT" trade 4600 101.4 None = Ok (Num q1)
    /\ custom_stoploss_of (of_SwingEMA_RSI_ATR (SwingEMA_RSI_ATR.new info))
         "BTC/USDT" trade 8200 103 (Some 0.03) = Ok (Num q2)
    /\ stop_price 101.4 q1 <= stop_price 103 q2.
Proof.
  intros info trade.
  apply (stop_price_monotone (of_SwingEMA_RSI_ATR (SwingEMA_RSI_ATR.new info))
           "BTC/USDT" trade 4600 8200 101.4 103 None (Some 0.03)).
  - reflexivity.
  - vm_compute. intros H. discriminate H.
  - vm_compute. intros H. discriminate H.
Defined.

(** ** Facts about frames *)

Section FrameFacts.

Context {A : Type}.

Lemma loc_upto_prefix (t : Z) (df : Frame A) :
  exists rest, df = Pandas.loc_upto t df ++ rest.
Proof.
  induction df as [|r df [rest IH]]; cbn.
  - now exists [].
  - destruct (fst r <=? t)%Z.
    + exists rest. cbn. now rewrite <- IH.
    + now exists (r :: df).
Qed.

Lemma loc_upto_le (t : Z) (df : Frame A) (r : Z * A) :
  In r (Pandas.loc_upto t df) -> (fst r <= t)%Z.
Proof.
  induction df as [|r' df IH]; cbn; [tauto|].
  destruct (fst r' <=? t)%Z eqn:E; cbn; [|tauto].
  intros [<- | Hin]; [now apply Z.leb_le | auto].
Qed.

Lemma loc_upto_in (t : Z) (df : Frame A) (r : Z * A) :
  In r (Pandas.loc_upto t df) -> In r df.
Proof.
  destruct (loc_upto_prefix t df) as [rest Hdf]. intros Hin.
  rewrite Hdf. apply in_or_app. now left.
Qed.

Lemma loc_upto_before_first (t : Z) (r : Z * A) (df : Frame A) :
  (t < fst r)%Z -> Pandas.loc_upto t (r :: df) = [].
Proof.
  intros H. cbn. destruct (fst r <=? t)%Z eqn:E; [|reflexivity].
  apply Z.leb_le in E. lia.
Qed.

Lemma tail1_last (df : Frame A) (d : Z * A) :
  df <> [] -> Pandas.tail1 df = [List.last df d].
Proof.
  induction df as [|r [|r' df] IH]; intros Hne; [contradiction | reflexivity |].
  change (Pandas.tail1 (r :: r' :: df)) with (Pandas.tail1 (r' :: df)).
  change (List.last (r :: r' :: df) d) with (List.last (r' :: df) d).
  now apply IH.
Qed.

Lemma last_in (l : list (Z * A)) (d : Z * A) : l <> [] -> In (List.last l d) l.
Proof.
  induction l as [|r [|r' l] IH]; intros Hne; [contradiction | now left |].
  right. now apply IH.
Qed.

Lemma iloc_last_last (B : Type) (l : list B) (d : B) :
  l <> [] -> Pandas.iloc_last l = Ok (List.last l d).
Proof.
  intros Hne. unfold Pandas.iloc_last.
  destruct (exists_last Hne) as (l' & x & ->).
  rewrite rev_app_distr. cbn. now rewrite last_last.
Qed.

(** [get_loc(t, method="ffill")] never yields a position. *)
Lemma get_loc_raises (t : Z) (df : Frame A) :
  Pandas.get_loc_ffill t df = Raise Py.TypeError.
Proof. reflexivity. Qed.

End FrameFacts.

(** ** Reads of the [close]/[atr] caches *)

Lemma asof_body (df : Frame CloseAtr) (t : Z) :
  (let* idx := Pandas.get_loc_ffill t df in
   let* r := Pandas.iloc idx df in
   Ok (atr (snd r)))
  = Raise Py.TypeError.
Proof. now rewrite get_loc_raises. Qed.

(** What [SwingHighToSkyV2._atr_at] returns, case by case: the [try] block
    always ends in the handler. *)
Lemma atr_at_spec (self : SwingHighToSkyV2.Self) (pair : string) (when : Z)
  (fallback_last : bool) :
  SwingHighToSkyV2._atr_at self pair when fallback_last
  = Ok (match SwingHighToSkyV2._cache self !! pair with
        | None => Num 0.0
        | Some df =>
            if Pandas.empty df then Num 0.0
            else if fallback_last then atr (snd (List.last df no_row))
                 else Num 0.0
        end).
Proof.
  unfold SwingHighToSkyV2._atr_at.
  destruct (SwingHighToSkyV2._cache self !! pair) as [df|]; [|reflexivity].
  destruct df as [|r df]; [reflexivity|]. cbn [Pandas.empty].
  rewrite asof_body. cbn [Py.try_except].
  destruct fallback_last; [|reflexivity].
  now rewrite (iloc_last_last _ (r :: df) no_row).
Qed.

Lemma atr_asof_spec (df : Frame CloseAtr) (when : Z) :
  df <> [] ->
  SwingATRBreakevenV2.atr_asof df when = Ok (atr (snd (List.last df no_row))).
Proof.
  intros Hne. unfold SwingATRBreakevenV2.atr_asof. rewrite asof_body.
  cbn [Py.try_except]. now rewrite (iloc_last_last _ df no_row Hne).
Qed.

Lemma atr_at_total (self : SwingHighToSkyV2.Self) (pair : string) (when : Z)
  (fallback_last : bool) :
  exists v, SwingHighToSkyV2._atr_at self pair when fallback_last = Ok v.
Proof. rewrite atr_at_spec. eauto. Qed.

(** ** The hard floor, strategy by strategy *)

Lemma max_num_any (a : Q) (x : float) :
  exists q, Py.max (Num a) x = Num q /\ a <= q.
Proof.
  destruct x as [b|].
  - rewrite max_num. eexists. split; [reflexivity | apply pmax_l].
  - exists a. split; [reflexivity | lra].
Qed.

Lemma min_num (a b : Q) :
  Py.min (Num a) (Num b) = Num (if Py.Qltb b a then b else a).
Proof. unfold Py.min, Py.lt. now destruct (Py.Qltb b a). Qed.

Lemma pmax_tiny_nonzero (r : Q) : ~ Engine.pmax r (1 # 1000000000) == 0.
Proof. pose proof (pmax_r r (1 # 1000000000)). lra. Qed.

Lemma div_total (x : float) (r : Q) :
  ~ r == 0 -> exists v, Py.div x (Num r) = Ok v /\ (Py.isnan x = false -> Py.isnan v = false).
Proof.
  intros Hr. destruct x as [a|].
  - rewrite div_num by assumption. eauto.
  - rewrite div_nan by assumption. eauto.
Qed.

(** Show that the first monadic step of the goal yields a number, then
    continue with that number. *)
Ltac first_step :=
  match goal with
  | |- context [Py.bind ?e _] =>
      let H := fresh "Hstep" in
      assert (H : exists c : Q, e = Ok (Num c));
      [ | destruct H as [? H]; rewrite H; clear H; cbn [Py.bind] ]
  end.

Ltac case_if :=
  match goal with |- context [if ?c then _ else _] => destruct c eqn:? end.

Lemma high_to_sky_floor (self : SwingHighToSkyV2.Self) (pair : string)
  (trade : Trade) (now : Z) (rate : Q) (profit : option Q) :
  exists q,
    SwingHighToSkyV2.custom_stoploss self pair trade now rate profit = Ok (Num q)
    /\ SwingHighToSkyV2.stoploss self <= q.
Proof.
  unfold SwingHighToSkyV2.custom_stoploss.
  destruct (atr_at_total self pair (open_date_utc trade) true) as [atr_open ->].
  destruct (atr_at_total self pair now true) as [atr_now ->].
  cbn [Py.bind].
  (* 1) the ATR cap *)
  first_step.
  { case_if; [eauto|].
    match goal with H : orb _ _ = false |- _ =>
      apply orb_false_iff in H; destruct H as [Ho _] end.
    qprop.
    destruct (div_total atr_open (open_rate trade)) as (v & -> & _); [lra|].
    cbn [Py.bind].
    match goal with |- context [Py.max (Num ?a) ?x] =>
      destruct (max_num_any a x) as (q & -> & _) end.
    cbn [Py.neg]. eauto. }
  (* 2) breakeven *)
  first_step.
  { destruct profit; [|eauto]. case_if; [|eauto].
    rewrite max_num, div_num by apply pmax_tiny_nonzero.
    cbn [Py.bind Py.sub Py.lift2]. rewrite max_num. eauto. }
  (* 3) trailing *)
  first_step.
  { destruct profit; [|eauto]. case_if; [|eauto].
    destruct atr_now as [a|]; cbn [Py.gt Py.lt andb]; [|eauto].
    case_if; [|eauto].
    match goal with H : andb _ _ = true |- _ =>
      apply andb_true_iff in H; destruct H as [_ Hr] end.
    qprop. rewrite div_num by lra. cbn [Py.bind Py.mul Py.lift2].
    rewrite max_num, min_num. cbn [Py.neg]. rewrite max_num. eauto. }
  match goal with |- context [Py.max (Num ?a) (Num ?f)] =>
    destruct (max_num_floor a f) as (q & -> & Hq) end.
  eauto.
Qed.

Lemma atr_asof_total (df : Frame CloseAtr) (when : Z) :
  df <> [] -> exists v, SwingATRBreakevenV2.atr_asof df when = Ok v.
Proof. intros Hne. rewrite (atr_asof_spec df when Hne). eauto. Qed.

Lemma swing_atr_floor (self : SwingATRBreakevenV2.Self) (pair : string)
  (trade : Trade) (now : Z) (rate : Q) (profit : option Q) :
  valid_inputs (of_SwingATRBreakevenV2 self) pair trade = true ->
  exists q,
    SwingATRBreakevenV2.custom_stoploss self pair trade now rate profit = Ok (Num q)
    /\ SwingATRBreakevenV2.stoploss self <= q.
Proof.
  intros Hv. unfold SwingATRBreakevenV2.custom_stoploss. cbn [valid_inputs] in Hv.
  destruct (SwingATRBreakevenV2.custom_info self !! pair) as [df|];
    [|eexists; split; [reflexivity | lra]].
  destruct df as [|r df]; [eexists; split; [reflexivity | lra]|].
  cbn [Pandas.empty] in *.
  destruct (SwingATRBreakevenV2.atr_asof (r :: df) (open_date_utc trade))
    as [[ao|]|]; try discriminate Hv.
  destruct (atr_asof_total (r :: df) now) as [atr_now ->]; [discriminate|].
  cbn [Py.bind]. rewrite !max_num.
  (* a NaN current ATR is absorbed by [max(0.004, trail_frac)] *)
  destruct atr_now as [an|];
    rewrite ?div_num, ?div_nan by apply pmax_tiny_nonzero;
    cbn [Py.bind Py.mul Py.sub Py.lift2]; rewrite ?max_nan_r, ?max_num, ?min_num;
    cbn [Py.neg];
    (destruct profit; repeat case_if;
     cbn [Py.bind app Py.max_list fold_left]; rewrite ?max_num;
     (eexists; split; [reflexivity | apply pmax_r])).
Qed.

Lemma last_candle_iloc (dp : DataProvider) (pair : string) (r : Row) :
  last_candle dp pair = Some r ->
  Pandas.iloc_last (get_analyzed_dataframe dp pair) = Ok r.
Proof.
  unfold last_candle, Pandas.iloc_last.
  destruct (rev (get_analyzed_dataframe dp pair)); [discriminate|].
  now intros [= ->].
Qed.

Lemma sma20_floor (self : Sma20RsiBbAtrStrategy.Self) (pair : string)
  (trade : Trade) (now : Z) (rate : Q) (profit : option Q) :
  valid_inputs (of_Sma20RsiBbAtrStrategy self) pair trade = true ->
  exists q,
    Sma20RsiBbAtrStrategy.custom_stoploss self pair trade now rate profit = Ok (Num q)
    /\ Sma20RsiBbAtrStrategy.stoploss self <= q.
Proof.
  intros Hv. unfold Sma20RsiBbAtrStrategy.custom_stoploss. cbn [valid_inputs] in Hv.
  destruct (Sma20RsiBbAtrStrategy.dp self) as [dp|]; [|discriminate Hv].
  destruct (last_candle dp pair) as [last|] eqn:Hlast; [|discriminate Hv].
  cbn [Py.bind]. rewrite (last_candle_iloc dp pair last Hlast). cbn [Py.bind].
  apply bool_decide_eq_true in Hv. destruct Hv as [close ->]. cbn [Py.bind].
  (* atr_val is a number whatever the cell holds *)
  match goal with |- context [Py.div ?x _] =>
    assert (Hatr : exists a : Q, x = Num a)
      by (destruct (last !! "atr"%string) as [[a|]|]; cbn; eauto);
    destruct Hatr as [a ->]
  end.
  first_step.
  { destruct close as [c|]; cbn [Py.gt Py.lt]; [|eauto].
    case_if; [|eauto]. qprop. rewrite div_num by lra. eauto. }
  cbn [Py.ge Py.le Py.mul Py.lift2]. rewrite !max_num, !min_num. cbn [Py.neg].
  destruct profit; repeat case_if; cbn [Py.mul Py.lift2];
    rewrite ?min_num, ?max_num; cbn [Py.neg]; rewrite ?max_num;
    (eexists; split; [reflexivity | apply pmax_r]).
Qed.

(** [CustomStoplossWithPSAR]: either the "off" value 1 or a clamped ratio,
    as long as the last candle exists and its SAR is not NaN. *)
Lemma psar_range (self : CustomStoplossWithPSAR.Self) (pair : string)
  (trade : Trade) (now : Z) (rate : Q) (profit : option Q) :
  match CustomStoplossWithPSAR.custom_info self !! pair,
        CustomStoplossWithPSAR.dp self with
  | Some _, Some dp =>
      match last_candle dp pair with
      | Some r => not_nan (r !! "sar"%string)
      | None => false
      end
  | _, _ => true
  end = true ->
  exists q,
    CustomStoplossWithPSAR.custom_stoploss self pair trade now rate profit = Ok (Num q)
    /\ (q = 1 \/ (-0.08 <= q <= -0.02)).
Proof.
  intros Hv. unfold CustomStoplossWithPSAR.custom_stoploss.
  case_if; [|eauto].
  match goal with H : andb _ _ = true |- _ =>
    apply andb_true_iff in H; destruct H as [_ H];
    apply bool_decide_eq_true in H; destruct H as [hist Hhist] end.
  rewrite Hhist in Hv.
  destruct (CustomStoplossWithPSAR.dp self) as [dp|]; [|eauto].
  destruct (last_candle dp pair) as [last|] eqn:Hlast; [|discriminate Hv].
  rewrite (last_candle_iloc dp pair last Hlast). cbn [Py.bind].
  destruct (last !! "sar"%string) as [[s|]|]; [| discriminate Hv | eauto].
  case_if; [|eauto]. qprop.
  cbn [Py.sub Py.lift2]. rewrite div_num by lra. cbn [Py.bind Py.sub Py.lift2].
  rewrite min_num, max_num.
  eexists. split; [reflexivity|]. right.
  unfold Engine.pmax. repeat case_if; qprop; lra.
Qed.

Lemma psar_floor (self : CustomStoplossWithPSAR.Self) (pair : string)
  (trade : Trade) (now : Z) (rate : Q) (profit : option Q) :
  valid_inputs (of_CustomStoplossWithPSAR self) pair trade = true ->
  exists q,
    CustomStoplossWithPSAR.custom_stoploss self pair trade now rate profit = Ok (Num q)
    /\ CustomStoplossWithPSAR.stoploss self <= q.
Proof.
  intros Hv. cbn [valid_inputs] in Hv. apply andb_true_iff in Hv.
  destruct Hv as [Hfloor Hframe]. qprop.
  destruct (psar_range self pair trade now rate profit Hframe) as (q & Hq & Hrange).
  exists q. split; [assumption|]. destruct Hrange as [-> | Hrange]; lra.
Qed.

(** Where the indicator values read are numbers ([valid_inputs]) every
    strategy's [custom_stoploss] returns a ratio that is at least the
    strategy's hard floor [stoploss]. *)
Theorem floor_invariant (s : IStrategy) (pair : string) (trade : Trade)
  (now : Z) (rate : Q) (profit : option Q) :
  valid_inputs s pair trade = true ->
  exists q,
    custom_stoploss_of s pair trade now rate profit = Ok (Num q)
    /\ stoploss_of s <= q.
Proof.
  intros Hv.
  destruct (risk_multiple s) eqn:Hs.
  - destruct (risk_multiple_cases s pair trade now rate profit Hs)
      as [H | (i & _ & _ & _ & H)]; rewrite H; eexists;
      (split; [reflexivity|]); [lra | apply staged_ratio_floor].
  - destruct s; try discriminate Hs; cbn [custom_stoploss_of stoploss_of].
    + apply high_to_sky_floor.
    + now apply swing_atr_floor.
    + now apply sma20_floor.
    + now apply psar_floor.
Qed.

Lemma floor_invariant_witness :
  let row : Row :=
    {[ "close"%string := Num 100; "atr"%string := Num 3 ]} in
  let dp : DataProvider := {[ "BTC/USDT"%string := [row] ]} in
  let trade := {| open_rate := 100; open_date_utc := 1000;
                  fee_open := 0.001; fee_close := 0.001 |} in
  exists q,
    custom_stoploss_of (of_Sma20RsiBbAtrStrategy (Sma20RsiBbAtrStrategy.new (Some dp)))
      "BTC/USDT" trade 4600 104 (Some 0.05) = Ok (Num q)
    /\ -0.10 <= q.
Proof.
  intros row dp trade.
  apply (floor_invariant
           (of_Sma20RsiBbAtrStrategy (Sma20RsiBbAtrStrategy.new (Some dp)))
           "BTC/USDT" trade 4600 104 (Some 0.05)).
  vm_compute. reflexivity.
Defined.

(** C1 fails on the code: [SwingATRBreakevenV2.custom_stoploss] turns the
    ATR it reads for the entry into its first candidate without checking
    that it is a number.  On a cache still in the indicator's warm-up the
    ATR is NaN, [min] and [max] keep a NaN first argument, and the callback
    returns NaN, which is not at or above the hard floor, although its
    docstring says "never below self.stoploss". *)
Lemma floor_lost_on_nan_atr :
  let info : gmap string (Frame CloseAtr) :=
    {[ "BTC/USDT"%string := [(900%Z, {| close := Num 99; atr := NaN |});
                             (1000%Z, {| close := Num 100; atr := NaN |})] ]} in
  let trade := {| open_rate := 100; open_date_utc := 1000;
                  fee_open := 0.001; fee_close := 0.001 |} in
  let s := of_SwingATRBreakevenV2 (SwingATRBreakevenV2.new info) in
  custom_stoploss_of s "BTC/USDT" trade 4600 101 None = Ok NaN
  /\ ~ (exists q,
          custom_stoploss_of s "BTC/USDT" trade 4600 101 None = Ok (Num q)
          /\ stoploss_of s <= q).
Proof.
  intros info trade s.
  assert (H : custom_stoploss_of s "BTC/USDT" trade 4600 101 None = Ok NaN)
    by (vm_compute; reflexivity).
  split; [exact H|].
  intros (q & Hq & _). rewrite H in Hq. discriminate Hq.
Qed.

(** ** Missing reference store *)

(** C4, as stated, fails: with no store for the pair
    [CustomStoplossWithPSAR] returns 1, not its floor -0.08, and
    [SwingHighToSkyV2] still applies its breakeven stage once the profit has
    reached [be_trigger]. *)
Lemma missing_reference_not_always_floor :
  let trade := {| open_rate := 100; open_date_utc := 1000;
                  fee_open := 0.001; fee_close := 0.001 |} in
  (store_missing (CustomStoplossWithPSAR.custom_info (CustomStoplossWithPSAR.new ∅ None))
     "BTC/USDT" = true
   /\ CustomStoplossWithPSAR.custom_stoploss (CustomStoplossWithPSAR.new ∅ None)
        "BTC/USDT" trade 4600 102 None = Ok (Num 1)
   /\ CustomStoplossWithPSAR.stoploss (CustomStoplossWithPSAR.new ∅ None) < 1)
  /\ (store_missing (SwingHighToSkyV2._cache (SwingHighToSkyV2.new ∅)) "BTC/USDT" = true
      /\ exists q,
           SwingHighToSkyV2.custom_stoploss (SwingHighToSkyV2.new ∅)
             "BTC/USDT" trade 4600 102 (Some 0.02) = Ok (Num q)
           /\ q == 100.2 / 102 - 1
           /\ SwingHighToSkyV2.stoploss (SwingHighToSkyV2.new ∅) < q).
Proof.
  intros trade. repeat split; try (vm_compute; reflexivity).
  eexists. repeat split; vm_compute; reflexivity.
Qed.

Lemma store_missing_lookup {A : Type} (store : gmap string (Frame A)) (pair : string) :
  store_missing store pair = true ->
  store !! pair = None \/ store !! pair = Some [].
Proof.
  unfold store_missing. destruct (store !! pair) as [[|r df]|]; auto. discriminate.
Qed.

Lemma pmax_same (a : Q) : Engine.pmax a a = a.
Proof. unfold Engine.pmax. now destruct (Py.Qltb a a). Qed.

(** C4, amended: on a pair whose store is absent or empty, the four
    risk-multiple strategies and [SwingATRBreakevenV2] return exactly the
    hard floor whatever the time, rate and profit; [SwingHighToSkyV2] does
    so when the profit is absent or below [be_trigger]; and
    [CustomStoplossWithPSAR] returns 1 for a pair absent from
    [custom_info]. *)
Theorem missing_reference_fallback :
  (forall (s : IStrategy) (pair : string) (trade : Trade) (now : Z) (rate : Q)
          (profit : option Q),
      reference_missing s pair = Some true ->
      custom_stoploss_of s pair trade now rate profit = Ok (Num (stoploss_of s)))
  /\ (forall (self : SwingHighToSkyV2.Self) (pair : string) (trade : Trade)
             (now : Z) (rate : Q) (profit : option Q),
         store_missing (SwingHighToSkyV2._cache self) pair = true ->
         (forall p, profit = Some p -> p < SwingHighToSkyV2.be_trigger self) ->
         SwingHighToSkyV2.custom_stoploss self pair trade now rate profit
         = Ok (Num (SwingHighToSkyV2.stoploss self)))
  /\ (forall (self : CustomStoplossWithPSAR.Self) (pair : string) (trade : Trade)
             (now : Z) (rate : Q) (profit : option Q),
         CustomStoplossWithPSAR.custom_info self !! pair = None ->
         CustomStoplossWithPSAR.custom_stoploss self pair trade now rate profit
         = Ok (Num 1)).
Proof.
  split; [|split].
  - intros s pair trade now rate profit Hm.
    destruct s; cbn [reference_missing] in Hm; try discriminate Hm;
      injection Hm as Hm; apply store_missing_lookup in Hm;
      cbn [custom_stoploss_of stoploss_of].
    + unfold FixedRiskRewardLossImproved.custom_stoploss,
        FixedRiskRewardLossImproved._lookup_open_sl_abs.
      now destruct Hm as [-> | ->].
    + unfold FixedRR_MultiMode.custom_stoploss, FixedRR_MultiMode._lookup_open_sl_abs.
      now destruct Hm as [-> | ->].
    + unfold SwingEMA_RSI_ATR.custom_stoploss, SwingEMA_RSI_ATR._lookup_init_sl.
      now destruct Hm as [-> | ->].
    + unfold EdgeBreakRetestV1.custom_stoploss, EdgeBreakRetestV1._lookup_init_sl.
      now destruct Hm as [-> | ->].
    + unfold SwingATRBreakevenV2.custom_stoploss.
      now destruct Hm as [-> | ->].
  - intros self pair trade now rate profit Hm Hp.
    apply store_missing_lookup in Hm.
    unfold SwingHighToSkyV2.custom_stoploss, SwingHighToSkyV2._atr_at.
    assert (Hcap : (Qle_bool (open_rate trade) 0 || Py.le (Num 0.0) (Num 0))%bool = true)
      by (apply orb_true_iff; right; reflexivity).
    destruct Hm as [-> | ->]; cbn [Pandas.empty Py.bind]; rewrite Hcap;
      cbn [Py.bind];
      (destruct profit as [p|];
       [ specialize (Hp p eq_refl);
         destruct (Qle_bool (SwingHighToSkyV2.be_trigger self) p) eqn:E1;
         [qprop; lra|];
         destruct (Qle_bool (SwingHighToSkyV2.trail_trigger self) p)
       | ]);
      cbn [Py.bind Py.gt Py.lt]; try change (Py.Qltb 0 0.0) with false;
      cbn [Py.bind andb]; rewrite ?max_num, ?pmax_same;
      reflexivity.
  - intros self pair trade now rate profit Hn.
    unfold CustomStoplossWithPSAR.custom_stoploss. rewrite Hn.
    case_if; [|reflexivity].
    match goal with H : andb _ _ = true |- _ =>
      apply andb_true_iff in H; destruct H as [_ H];
      apply bool_decide_eq_true in H; destruct H as [? H]; discriminate H end.
Qed.

Lemma missing_reference_fallback_witness :
  let trade := {| open_rate := 100; open_date_utc := 1000;
                  fee_open := 0.001; fee_close := 0.001 |} in
  custom_stoploss_of
    (of_FixedRR_MultiMode (FixedRR_MultiMode.bot_start (FixedRR_MultiMode.new ∅) (Some "mr"%string)))
    "BTC/USDT" trade 4600 102 (Some 0.02) = Ok (Num (-0.08))
  /\ SwingHighToSkyV2.custom_stoploss (SwingHighToSkyV2.new ∅)
       "BTC/USDT" trade 4600 101 (Some 0.01) = Ok (Num (-0.34338))
  /\ CustomStoplossWithPSAR.custom_stoploss (CustomStoplossWithPSAR.new ∅ None)
       "BTC/USDT" trade 4600 102 None = Ok (Num 1).
Proof.
  intros trade.
  destruct missing_reference_fallback as (Ha & Hb & Hc).
  split; [|split].
  - apply (Ha (of_FixedRR_MultiMode
                 (FixedRR_MultiMode.bot_start (FixedRR_MultiMode.new ∅) (Some "mr"%string)))).
    reflexivity.
  - apply (Hb (SwingHighToSkyV2.new ∅)).
    + reflexivity.
    + intros p [= <-]. vm_compute. reflexivity.
  - apply (Hc (CustomStoplossWithPSAR.new ∅ None)). reflexivity.
Defined.

(** ** As-of lookups *)



(** On an index in ascending order the row read is the latest one at or
    before the query time. *)
Lemma loc_upto_latest {A : Type} (df : Frame A) (t : Z) (r d : Z * A) :
  StronglySorted Z.le (map fst df) ->
  In r df -> (fst r <= t)%Z ->
  Pandas.loc_upto t df <> []
  /\ (fst r <= fst (List.last (Pandas.loc_upto t df) d))%Z.
Proof.
  induction df as [|a df IH]; intros Hs Hin Hle; [destruct Hin|].
  cbn [map] in Hs. apply StronglySorted_inv in Hs. destruct Hs as [Hs Ha].
  rewrite List.Forall_forall in Ha.
  assert (Hr : (fst a <= fst r)%Z).
  { destruct Hin as [-> | Hin]; [lia|]. apply Ha. now apply in_map. }
  cbn [Pandas.loc_upto].
  destruct (fst a <=? t)%Z eqn:E; [|apply Z.leb_gt in E; lia].
  split; [discriminate|].
  destruct (Pandas.loc_upto t df) as [|b pre] eqn:Epre.
  - destruct Hin as [-> | Hin]; [cbn; lia|].
    destruct (IH Hs Hin Hle) as [Hne _]. contradiction.
  - change (List.last (a :: b :: pre) d) with (List.last (b :: pre) d).
    destruct Hin as [-> | Hin].
    + apply Ha. apply in_map. apply (loc_upto_in t df). rewrite Epre.
      apply last_in. discriminate.
    + now destruct (IH Hs Hin Hle) as [_ Hlast].
Qed.

Lemma lookup_latest (hist : Frame float) (t : Z) (v : float) :
  StronglySorted Z.le (map fst hist) ->
  match Pandas.tail1 (Pandas.loc_upto t hist) with
  | [] => None
  | r :: _ => Some (snd r)
  end = Some v ->
  exists ts,
    In (ts, v) hist /\ (ts <= t)%Z
    /\ forall r, In r hist -> (fst r <= t)%Z -> (fst r <= ts)%Z.
Proof.
  intros Hs H.
  destruct (Pandas.loc_upto t hist) as [|a pre] eqn:E; [discriminate H|].
  rewrite (tail1_last (a :: pre) a) in H by discriminate.
  assert (Hv : v = snd (List.last (a :: pre) a)) by congruence.
  assert (Hin : In (List.last (a :: pre) a) (Pandas.loc_upto t hist))
    by (rewrite E; apply last_in; discriminate).
  exists (fst (List.last (a :: pre) a)). split; [|split].
  - apply loc_upto_in in Hin. now rewrite Hv, <- surjective_pairing.
  - now apply loc_upto_le in Hin.
  - intros r Hr Hle. destruct (loc_upto_latest hist t r a Hs Hr Hle) as [_ Hl].
    rewrite E in Hl. exact Hl.
Qed.




(** ** Totality *)

(** C6 fails on the code: [Sma20RsiBbAtrStrategy.custom_stoploss] takes
    [df.iloc[-1]] of the analyzed dataframe without checking that it has a
    row, so a pair with no cached candles raises [IndexError] instead of
    yielding the hard floor; [CustomStoplossWithPSAR.custom_stoploss] does
    the same once the pair is in [custom_info]. *)
Lemma custom_stoploss_raises_on_empty_frame :
  let trade := {| open_rate := 100; open_date_utc := 1000;
                  fee_open := 0.001; fee_close := 0.001 |} in
  let dp : DataProvider := ∅ in
  let info : gmap string (Frame float) := {[ "BTC/USDT"%string := [(1000%Z, Num 97)] ]} in
  get_analyzed_dataframe dp "BTC/USDT" = []
  /\ Sma20RsiBbAtrStrategy.custom_stoploss (Sma20RsiBbAtrStrategy.new (Some dp))
       "BTC/USDT" trade 4600 102 (Some 0.02) = Raise Py.IndexError
  /\ CustomStoplossWithPSAR.custom_stoploss (CustomStoplossWithPSAR.new info (Some dp))
       "BTC/USDT" trade 4600 102 (Some 0.02) = Raise Py.IndexError.
Proof. intros trade dp info. repeat split; vm_compute; reflexivity. Qed.

(** The guarded strategies, for comparison: whatever the store, the time,
    the rate and the profit, the risk-multiple strategies and
    [SwingHighToSkyV2] return a number. *)
Lemma guarded_strategies_total (s : IStrategy) (pair : string) (trade : Trade)
  (now : Z) (rate : Q) (profit : option Q) :
  match s with
  | of_SwingATRBreakevenV2 _ | of_Sma20RsiBbAtrStrategy _
  | of_CustomStoplossWithPSAR _ => True
  | _ => exists q, custom_stoploss_of s pair trade now rate profit = Ok (Num q)
  end.
Proof.
  destruct s; try exact I;
    [ match goal with |- context [custom_stoploss_of ?s _ _ _ _ _] =>
        destruct (risk_multiple_cases s pair trade now rate profit eq_refl)
          as [H | (i & _ & _ & _ & H)]; rewrite H; eauto
      end .. | ].
  destruct (high_to_sky_floor self pair trade now rate profit) as (q & H & _).
  eauto.
Qed.

(** ** Non-positive prices *)

(** C7, as stated, fails: [SwingATRBreakevenV2] and
    [Sma20RsiBbAtrStrategy] have no early return on a non-positive rate and
    return their ATR-based stop, which differs from the hard floor. *)
Lemma nonpositive_rate_not_always_floor :
  let trade := {| open_rate := 100; open_date_utc := 1000;
                  fee_open := 0.001; fee_close := 0.001 |} in
  let info : gmap string (Frame CloseAtr) :=
    {[ "BTC/USDT"%string := [(900%Z, {| close := Num 100; atr := Num 1 |})] ]} in
  let row : Row := {[ "close"%string := Num 100; "atr"%string := Num 3 ]} in
  let dp : DataProvider := {[ "BTC/USDT"%string := [row] ]} in
  (-1 <= 0
   /\ SwingATRBreakevenV2.custom_stoploss (SwingATRBreakevenV2.new info)
        "BTC/USDT" trade 4600 (-1) None = Ok (Num (-0.0150))
   /\ ~ -0.0150 == SwingATRBreakevenV2.stoploss (SwingATRBreakevenV2.new info))
  /\ (0 <= 0
      /\ Sma20RsiBbAtrStrategy.custom_stoploss (Sma20RsiBbAtrStrategy.new (Some dp))
           "BTC/USDT" trade 4600 0 None = Ok (Num (-0.066))
      /\ ~ -0.066 == Sma20RsiBbAtrStrategy.stoploss (Sma20RsiBbAtrStrategy.new (Some dp))).
Proof.
  intros trade info row dp.
  repeat split; try (vm_compute; reflexivity);
    try (vm_compute; intros H; discriminate H).
Qed.

Lemma pmax_tiny_nonpositive (r : Q) :
  r <= 0 -> Engine.pmax r (1 # 1000000000) = (1 # 1000000000).
Proof.
  intros Hr. unfold Engine.pmax.
  destruct (Py.Qltb r (1 # 1000000000)) eqn:E; [reflexivity | qprop; lra].
Qed.

Lemma Qltb_nonpositive (r : Q) : r <= 0 -> Py.Qltb 0 r = false.
Proof.
  intros Hr. unfold Py.Qltb. apply negb_false_iff. now apply Qle_bool_iff.
Qed.

(** C7, amended: the four risk-multiple strategies return the hard floor
    whenever [current_rate <= 0], whatever the other inputs.  The others
    have no such return: [SwingATRBreakevenV2] and [SwingHighToSkyV2] divide
    by [max(current_rate, 1e-9)], so every non-positive rate gives the
    result of rate 0; [Sma20RsiBbAtrStrategy] never reads the rate; and
    [CustomStoplossWithPSAR] returns 1 when it has no data provider or its
    analyzed dataframe has a last candle. *)
Theorem nonpositive_rate_guard :
  (forall (s : IStrategy) (pair : string) (trade : Trade) (now : Z) (rate : Q)
          (profit : option Q),
      risk_multiple s = true -> rate <= 0 ->
      custom_stoploss_of s pair trade now rate profit = Ok (Num (stoploss_of s)))
  /\ (forall (self : SwingATRBreakevenV2.Self) (pair : string) (trade : Trade)
             (now : Z) (rate : Q) (profit : option Q),
         rate <= 0 ->
         SwingATRBreakevenV2.custom_stoploss self pair trade now rate profit
         = SwingATRBreakevenV2.custom_stoploss self pair trade now 0 profit)
  /\ (forall (self : SwingHighToSkyV2.Self) (pair : string) (trade : Trade)
             (now : Z) (rate : Q) (profit : option Q),
         rate <= 0 ->
         SwingHighToSkyV2.custom_stoploss self pair trade now rate profit
         = SwingHighToSkyV2.custom_stoploss self pair trade now 0 profit)
  /\ (forall (self : Sma20RsiBbAtrStrategy.Self) (pair : string) (trade : Trade)
             (now : Z) (rate rate' : Q) (profit : option Q),
         Sma20RsiBbAtrStrategy.custom_stoploss self pair trade now rate profit
         = Sma20RsiBbAtrStrategy.custom_stoploss self pair trade now rate' profit)
  /\ (forall (self : CustomStoplossWithPSAR.Self) (pair : string) (trade : Trade)
             (now : Z) (rate : Q) (profit : option Q),
         rate <= 0 ->
         (forall dp, CustomStoplossWithPSAR.dp self = Some dp ->
                     is_Some (last_candle dp pair)) ->
         CustomStoplossWithPSAR.custom_stoploss self pair trade now rate profit
         = Ok (Num 1)).
Proof.
  split; [|split; [|split; [|split]]].
  - intros s pair trade now rate profit Hs Hr.
    apply risk_multiple_guarded; auto.
  - intros self pair trade now rate profit Hr.
    unfold SwingATRBreakevenV2.custom_stoploss.
    rewrite !max_num, (pmax_tiny_nonpositive rate Hr),
      (pmax_tiny_nonpositive 0 (Qle_refl 0)).
    reflexivity.
  - intros self pair trade now rate profit Hr.
    unfold SwingHighToSkyV2.custom_stoploss.
    rewrite !max_num, (pmax_tiny_nonpositive rate Hr),
      (pmax_tiny_nonpositive 0 (Qle_refl 0)),
      (Qltb_nonpositive rate Hr), (Qltb_nonpositive 0 (Qle_refl 0)).
    destruct (atr_at_total self pair (open_date_utc trade) true) as [atr_open ->].
    destruct (atr_at_total self pair now true) as [atr_now ->].
    cbn [Py.bind]. rewrite !andb_false_r. reflexivity.
  - reflexivity.
  - intros self pair trade now rate profit Hr Hframe.
    unfold CustomStoplossWithPSAR.custom_stoploss.
    case_if; [|reflexivity].
    destruct (CustomStoplossWithPSAR.dp self) as [dp|]; [|reflexivity].
    destruct (Hframe dp eq_refl) as [last Hlast].
    rewrite (last_candle_iloc dp pair last Hlast). cbn [Py.bind].
    rewrite (Qltb_nonpositive rate Hr). now destruct (last !! "sar"%string).
Qed.

Lemma nonpositive_rate_guard_witness :
  let trade := {| open_rate := 100; open_date_utc := 1000;
                  fee_open := 0.001; fee_close := 0.001 |} in
  let info : gmap string (Frame float) := {[ "BTC/USDT"%string := [(1000%Z, Num 98)] ]} in
  custom_stoploss_of (of_EdgeBreakRetestV1 (EdgeBreakRetestV1.new info))
    "BTC/USDT" trade 4600 (-3) (Some 0.02) = Ok (Num (-0.20))
  /\ CustomStoplossWithPSAR.custom_stoploss (CustomStoplossWithPSAR.new info None)
       "BTC/USDT" trade 4600 0 None = Ok (Num 1).
Proof.
  intros trade info. destruct nonpositive_rate_guard as (Ha & _ & _ & _ & Hp). split.
  - apply (Ha (of_EdgeBreakRetestV1 (EdgeBreakRetestV1.new info))).
    + reflexivity.
    + vm_compute. intros H. discriminate H.
  - apply (Hp (CustomStoplossWithPSAR.new info None)).
    + vm_compute. intros H. discriminate H.
    + intros dp H. discriminate H.
Defined.

(** ** The PSAR clamp *)

(** C10 fails on the code: a NaN SAR in the last candle (the first value
    of the indicator) is not [None], and [max(min(rel, -0.02), -0.08)] keeps
    a NaN first argument, so the callback returns NaN, which is neither 1
    nor within [-0.08, -0.02]. *)
Lemma psar_nan_escapes_clamp :
  let trade := {| open_rate := 100; open_date_utc := 1000;
                  fee_open := 0.001; fee_close := 0.001 |} in
  let info : gmap string (Frame float) := {[ "BTC/USDT"%string := [(1000%Z, NaN)] ]} in
  let row : Row := {[ "close"%string := Num 100; "sar"%string := NaN ]} in
  let dp : DataProvider := {[ "BTC/USDT"%string := [row] ]} in
  CustomStoplossWithPSAR.custom_stoploss (CustomStoplossWithPSAR.new info (Some dp))
    "BTC/USDT" trade 4600 100 None = Ok NaN.
Proof. intros trade info row dp. vm_compute. reflexivity. Qed.

(** ** Entry tags of CustomStoplossWithPSAR *)

Section EntryTags.

Import CustomStoplossWithPSAR.

Lemma loc_set_lookup {A : Type} (mask : list bool) (v : A) (col : list A) (i : nat) :
  Series.loc_set mask v col !! i
  = match (mask !! i : option bool), (col !! i : option A) with
    | Some m, Some x => Some (if m then v else x)
    | _, _ => @None A
    end.
Proof.
  unfold Series.loc_set. rewrite lookup_zip_with.
  destruct (mask !! i), (col !! i); reflexivity.
Qed.

Lemma cond_rsi_in_frame (df : list Candle) (i : nat) (b : bool) :
  cond_rsi df !! i = Some b -> (i < length df)%nat.
Proof.
  intros H. apply lookup_lt_Some in H. revert H.
  unfold cond_rsi, vol_ok, Series.and, Series.cmp_const.
  repeat rewrite ?length_zip_with, ?length_map. lia.
Qed.

(** C9: [populate_entry_trend] writes the PSAR rule first and the RSI rule
    on top of it.  On every row the frame after the PSAR assignments has
    [enter_long] 1 and the tag 'psar_bull_flip_strict' exactly where the
    PSAR condition holds; in the frame returned, [enter_long] is 1 exactly
    where one of the two conditions holds, and the tag is 'rsi_rebound_35'
    wherever the RSI condition holds, 'psar_bull_flip_strict' where only the
    PSAR condition does, and undefined elsewhere.  So on a row where both
    conditions hold the flag is 1 before and after the RSI assignments,
    while the tag written first, 'psar_bull_flip_strict', is replaced by
    'rsi_rebound_35'. *)
Theorem last_matching_rule_tag_wins (df : list Candle) (i : nat) (p r : bool) :
  cond_psar_strict df !! i = Some p ->
  cond_rsi df !! i = Some r ->
  populate_entry_trend df
  = assign_rule (cond_rsi df) "rsi_rebound_35" (psar_rule_assigned df)
  /\ enter_long (psar_rule_assigned df) !! i = Some (if p then Some 1%Z else None)
  /\ enter_tag (psar_rule_assigned df) !! i
     = Some (if p then Some "psar_bull_flip_strict"%string else None)
  /\ enter_long (populate_entry_trend df) !! i
     = Some (if (p || r)%bool then Some 1%Z else None)
  /\ enter_tag (populate_entry_trend df) !! i
     = Some (if r then Some "rsi_rebound_35"%string
             else if p then Some "psar_bull_flip_strict"%string
             else None).
Proof.
  intros Hpsar Hrsi.
  pose proof (cond_rsi_in_frame df i r Hrsi) as Hi.
  split; [reflexivity|].
  unfold populate_entry_trend, psar_rule_assigned, assign_rule, no_signal.
  cbn [enter_long enter_tag].
  rewrite !loc_set_lookup, Hpsar, Hrsi.
  rewrite !lookup_replicate_2 by assumption.
  destruct p, r; repeat split.
Qed.

Lemma last_matching_rule_tag_wins_witness :
  let before :=
    {| ema20 := Num 99; ema50 := Num 98; ema200 := Num 97; c_close := Num 100;
       rsi := Num 30; macdhist := Num (-1); atrp := Num 0.01; vol_ma20 := Num 10;
       sar := Num 101 |} in
  let flip :=
    {| ema20 := Num 103; ema50 := Num 102; ema200 := Num 101; c_close := Num 105;
       rsi := Num 50; macdhist := Num 1; atrp := Num 0.01; vol_ma20 := Num 10;
       sar := Num 100 |} in
  let df := [before; flip] in
  cond_psar_strict df !! 1%nat = Some true
  /\ cond_rsi df !! 1%nat = Some true
  /\ enter_long (psar_rule_assigned df) !! 1%nat = Some (Some 1%Z)
  /\ enter_tag (psar_rule_assigned df) !! 1%nat = Some (Some "psar_bull_flip_strict"%string)
  /\ enter_long (populate_entry_trend df) !! 1%nat = Some (Some 1%Z)
  /\ enter_tag (populate_entry_trend df) !! 1%nat = Some (Some "rsi_rebound_35"%string).
Proof.
  intros before flip df.
  split; [vm_compute; reflexivity|]. split; [vm_compute; reflexivity|].
  apply (last_matching_rule_tag_wins df 1%nat true true); vm_compute; reflexivity.
Defined.

End EntryTags.

(* ===================================================================== *)
(** * Further properties of the stop-loss callbacks                      *)
(* ===================================================================== *)

(** ** Risk-multiple strategies: the later stages *)

Lemma take_profit_stage_listed (s : IStrategy) (trade : Trade) (i : Q) :
  risk_multiple s = true ->
  In {| Engine.trigger := take_profit_of s trade i;
        Engine.level := take_profit_of s trade i |} (stages_of s trade i).
Proof.
  destruct s; try discriminate; intros _;
    cbn [stages_of take_profit_of Stages.two_stage Stages.three_stage];
    first [right; left; reflexivity | right; right; left; reflexivity].
Qed.

(** X1: once the current rate has reached the take-profit line
    [open_rate + rr_ratio * risk_abs], the stop of a risk-multiple strategy
    trails at that line: the implied stop price is at least [tp_abs]. *)
Theorem take_profit_trail (s : IStrategy) (pair : string) (trade : Trade)
  (now : Z) (rate : Q) (profit : option Q) (i : Q) :
  risk_multiple s = true ->
  entry_reference_of s pair (open_date_utc trade) = Some (Num i) ->
  i < open_rate trade ->
  0 < rate ->
  take_profit_of s trade i <= rate ->
  exists q,
    custom_stoploss_of s pair trade now rate profit = Ok (Num q)
    /\ take_profit_of s trade i <= stop_price rate q.
Proof.
  intros Hs Hlook Hrisk Hr Htp.
  eexists. split; [exact (risk_multiple_staged s pair trade now rate profit i Hlook Hr Hrisk)|].
  destruct (staged_stop_price (stoploss_of s) rate i (stages_of s trade i) Hr)
    as (Hbest & _).
  pose proof (best_level_stage rate i (stages_of s trade i) _
                (take_profit_stage_listed s trade i Hs) Htp) as Hl.
  cbn [Engine.level] in Hl. lra.
Qed.

Lemma take_profit_trail_witness :
  let info : gmap string (Frame float) := {[ "BTC/USDT"%string := [(1000%Z, Num 98)] ]} in
  let trade := {| open_rate := 100; open_date_utc := 1000;
                  fee_open := 0.001; fee_close := 0.001 |} in
  let s := of_FixedRR_MultiMode
             (FixedRR_MultiMode.bot_start (FixedRR_MultiMode.new info) (Some "trend"%string)) in
  exists q,
    custom_stoploss_of s "BTC/USDT" trade 4600 106 None = Ok (Num q)
    /\ take_profit_of s trade 98 <= stop_price 106 q.
Proof.
  intros info trade s.
  apply (take_profit_trail s "BTC/USDT" trade 4600 106 None 98).
  - reflexivity.
  - vm_compute. reflexivity.
  - vm_compute. reflexivity.
  - vm_compute. reflexivity.
  - vm_compute. intros H. discriminate H.
Defined.

(** X2: the two swing variants lock part of the gain: once the current
    rate has reached [open_rate + 1.5 * risk_abs], the implied stop price is
    at least [open_rate + 0.5 * risk_abs] for [SwingEMA_RSI_ATR] and
    [open_rate + 0.4 * risk_abs] for [EdgeBreakRetestV1]. *)
Theorem lock_stage_keeps_gain (s : IStrategy) (pair : string) (trade : Trade)
  (now : Z) (rate : Q) (profit : option Q) (i k : Q) :
  lock_multiple_of s = Some k ->
  entry_reference_of s pair (open_date_utc trade) = Some (Num i) ->
  i < open_rate trade ->
  0 < rate ->
  open_rate trade + 1.5 * (open_rate trade - i) <= rate ->
  exists q,
    custom_stoploss_of s pair trade now rate profit = Ok (Num q)
    /\ open_rate trade + k * (open_rate trade - i) <= stop_price rate q
    /\ open_rate trade < stop_price rate q.
Proof.
  intros Hk Hlook Hrisk Hr Hlock.
  eexists. split; [exact (risk_multiple_staged s pair trade now rate profit i Hlook Hr Hrisk)|].
  destruct (staged_stop_price (stoploss_of s) rate i (stages_of s trade i) Hr)
    as (Hbest & _).
  assert (Hl : open_rate trade + k * (open_rate trade - i)
               <= Engine.best_level rate i (stages_of s trade i)).
  { destruct s; try discriminate Hk; injection Hk as <-;
      cbn [stages_of Stages.three_stage];
      (eapply (best_level_stage rate i _
                 {| Engine.trigger := Stages.risk_level trade i 1.5;
                    Engine.level := Stages.risk_level trade i _ |});
       [right; left; reflexivity | exact Hlock]). }
  split; [lra|].
  assert (0 < k) by (destruct s; try discriminate Hk; injection Hk as <-; lra).
  nra.
Qed.

Lemma lock_stage_keeps_gain_witness :
  let info : gmap string (Frame float) := {[ "BTC/USDT"%string := [(1000%Z, Num 98)] ]} in
  let trade := {| open_rate := 100; open_date_utc := 1000;
                  fee_open := 0.001; fee_close := 0.001 |} in
  let s := of_EdgeBreakRetestV1 (EdgeBreakRetestV1.new info) in
  exists q,
    custom_stoploss_of s "BTC/USDT" trade 4600 103.5 None = Ok (Num q)
    /\ open_rate trade + 0.4 * (open_rate trade - 98) <= stop_price 103.5 q
    /\ open_rate trade < stop_price 103.5 q.
Proof.
  intros info trade s.
  apply (lock_stage_keeps_gain s "BTC/USDT" trade 4600 103.5 None 98 0.4).
  - reflexivity.
  - vm_compute. reflexivity.
  - vm_compute. reflexivity.
  - vm_compute. reflexivity.
  - vm_compute. intros H. discriminate H.
Defined.

(** X3: a reference that cannot give a positive risk (NaN from the ATR
    warm-up, or a reference at or above the entry price) makes a
    risk-multiple strategy return the hard floor at every rate, time and
    profit. *)
Theorem degenerate_reference_gives_floor (s : IStrategy) (pair : string)
  (trade : Trade) (now : Z) (rate : Q) (profit : option Q) (init : float) :
  risk_multiple s = true ->
  entry_reference_of s pair (open_date_utc trade) = Some init ->
  (forall i, init = Num i -> open_rate trade <= i) ->
  custom_stoploss_of s pair trade now rate profit = Ok (Num (stoploss_of s)).
Proof.
  intros Hs Hlook Hdeg. apply risk_multiple_guarded; [assumption|].
  right; right. exists init. auto.
Qed.

Lemma degenerate_reference_gives_floor_witness :
  let info : gmap string (Frame float) :=
    {[ "BTC/USDT"%string := [(900%Z, NaN); (1000%Z, NaN); (1100%Z, Num 98)] ]} in
  let trade := {| open_rate := 100; open_date_utc := 1000;
                  fee_open := 0.001; fee_close := 0.001 |} in
  custom_stoploss_of (of_SwingEMA_RSI_ATR (SwingEMA_RSI_ATR.new info))
    "BTC/USDT" trade 4600 150 (Some 0.5) = Ok (Num (-0.20)).
Proof.
  intros info trade.
  apply (degenerate_reference_gives_floor
           (of_SwingEMA_RSI_ATR (SwingEMA_RSI_ATR.new info))
           "BTC/USDT" trade 4600 150 (Some 0.5) NaN).
  - reflexivity.
  - vm_compute. reflexivity.
  - intros i H. discriminate H.
Defined.

Lemma best_level_below_rate (rate base : Q) (stages : list Engine.Stage) :
  base <= rate ->
  (forall st, In st stages -> Engine.level st <= Engine.trigger st) ->
  Engine.best_level rate base stages <= rate.
Proof.
  unfold Engine.best_level. revert base.
  induction stages as [|st stages IH]; intros base Hb Hall; cbn [fold_left];
    [assumption|].
  apply IH; [|intros st' Hin; apply Hall; now right].
  unfold Engine.tighten.
  destruct (Qle_bool (Engine.trigger st) rate) eqn:E; [|assumption].
  qprop. pose proof (Hall st (or_introl eq_refl)).
  destruct (pmax_cases base (Engine.level st)) as [[_ ->] | [_ ->]]; lra.
Qed.

(** X4: the stop of a risk-multiple strategy is never above the current
    rate (the returned ratio is at most 0) as long as the rate has not
    fallen below the entry reference, the fee-aware breakeven price does not
    exceed the breakeven trigger, and the hard floor is not positive. *)
Theorem stop_not_above_rate (s : IStrategy) (pair : string) (trade : Trade)
  (now : Z) (rate : Q) (profit : option Q) (i : Q) :
  risk_multiple s = true ->
  entry_reference_of s pair (open_date_utc trade) = Some (Num i) ->
  i < open_rate trade ->
  0 < rate -> i <= rate ->
  Stages.breakeven_price trade <= breakeven_trigger_of s trade i ->
  stoploss_of s <= 0 ->
  exists q,
    custom_stoploss_of s pair trade now rate profit = Ok (Num q) /\ q <= 0.
Proof.
  intros Hs Hlook Hrisk Hr Hi Hbe Hf.
  eexists. split; [exact (risk_multiple_staged s pair trade now rate profit i Hlook Hr Hrisk)|].
  destruct (staged_stop_price (stoploss_of s) rate i (stages_of s trade i) Hr)
    as (_ & _ & Hone).
  assert (Hbest : Engine.best_level rate i (stages_of s trade i) <= rate).
  { apply best_level_below_rate; [assumption|].
    destruct s; try discriminate Hs;
      cbn [stages_of breakeven_trigger_of Stages.two_stage Stages.three_stage] in *;
      intros st Hin; cbn [In] in Hin;
      repeat (destruct Hin as [<- | Hin]); try contradiction;
      cbn [Engine.level Engine.trigger]; unfold Stages.risk_level in *; lra. }
  set (q := Engine.staged_ratio (stoploss_of s) rate i (stages_of s trade i)) in *.
  assert (Hp : stop_price rate q <= rate).
  { destruct Hone as [-> | ->]; [assumption|]. unfold stop_price. nra. }
  unfold stop_price in Hp. nra.
Qed.

Lemma stop_not_above_rate_witness :
  let info : gmap string (Frame float) := {[ "BTC/USDT"%string := [(1000%Z, Num 98)] ]} in
  let trade := {| open_rate := 100; open_date_utc := 1000;
                  fee_open := 0.001; fee_close := 0.001 |} in
  exists q,
    custom_stoploss_of (of_FixedRiskRewardLossImproved (FixedRiskRewardLossImproved.new info))
      "BTC/USDT" trade 4600 101.7 None = Ok (Num q) /\ q <= 0.
Proof.
  intros info trade.
  apply (stop_not_above_rate
           (of_FixedRiskRewardLossImproved (FixedRiskRewardLossImproved.new info))
           "BTC/USDT" trade 4600 101.7 None 98).
  - reflexivity.
  - vm_compute. reflexivity.
  - vm_compute. reflexivity.
  - vm_compute. reflexivity.
  - vm_compute. intros H. discriminate H.
  - vm_compute. intros H. discriminate H.
  - vm_compute. intros H. discriminate H.
Defined.

(** Without the condition on the breakeven price the ratio can be positive:
    with a risk of 0.1 and fees of 0.2 the breakeven stage asks for a stop
    above the rate that triggered it. *)
Example breakeven_above_rate :
  let info : gmap string (Frame float) := {[ "BTC/USDT"%string := [(1000%Z, Num 99.9)] ]} in
  let trade := {| open_rate := 100; open_date_utc := 1000;
                  fee_open := 0.001; fee_close := 0.001 |} in
  exists q,
    FixedRiskRewardLossImproved.custom_stoploss (FixedRiskRewardLossImproved.new info)
      "BTC/USDT" trade 4600 100.1 None = Ok (Num q) /\ 0 < q.
Proof. intros info trade. eexists. split; vm_compute; reflexivity. Qed.

(** ** Profit-gated strategies: caps, breakeven and trailing *)

(** Name every quotient of the goal and context, so that linear arithmetic
    sees it as an unknown. *)
Ltac name_quotients :=
  repeat match goal with
  | |- context [Qdiv ?a ?b] =>
      let d := fresh "d" in set (d := Qdiv a b) in *; clearbody d
  | H : context [Qdiv ?a ?b] |- _ =>
      let d := fresh "d" in set (d := Qdiv a b) in *; clearbody d
  end.

(** Case on a test that contains no further test. *)
Ltac case_inner_if :=
  match goal with
  | |- context [if ?c then _ else _] =>
      lazymatch c with
      | context [if _ then _ else _] => fail
      | _ => destruct c eqn:?
      end
  end.

(** Compare through the [if]s left by [max] and [min]. *)
Ltac through_clamps :=
  unfold Engine.pmax in *; name_quotients; repeat case_inner_if; qprop; try lra.

(** Use the equations between returned values. *)
Ltac same_values :=
  repeat match goal with
  | H : Ok _ = Ok _ |- _ => injection H as H
  | H : Some _ = Some _ |- _ => injection H as H
  | H : Num _ = Num _ |- _ => injection H as H
  | H : None = Some _ |- _ => discriminate H
  | H : NaN = Num _ |- _ => discriminate H
  | H : Num _ = NaN |- _ => discriminate H
  end; subst.

Lemma high_to_sky_bounds (self : SwingHighToSkyV2.Self) (pair : string)
  (trade : Trade) (now : Z) (rate : Q) (profit : option Q) :
  exists q,
    SwingHighToSkyV2.custom_stoploss self pair trade now rate profit = Ok (Num q)
    /\ (forall v,
          0 < open_rate trade ->
          SwingHighToSkyV2._atr_at self pair (open_date_utc trade) true = Ok v ->
          Py.le v 0 = false ->
          0.005 <= SwingHighToSkyV2.max_atr_stop self ->
          - SwingHighToSkyV2.max_atr_stop self <= q)
    /\ (forall p,
          profit = Some p -> SwingHighToSkyV2.be_trigger self <= p ->
          open_rate trade * (1 + fee_open trade + fee_close trade)
            / Engine.pmax rate (1 # 1000000000) - 1.0 <= q)
    /\ (forall p a,
          profit = Some p -> SwingHighToSkyV2.trail_trigger self <= p ->
          SwingHighToSkyV2._atr_at self pair now true = Ok (Num a) ->
          0 < a -> 0 < rate ->
          - SwingHighToSkyV2.max_trail self <= q).
Proof.
  unfold SwingHighToSkyV2.custom_stoploss.
  destruct (atr_at_total self pair (open_date_utc trade) true) as [atr_open ->].
  destruct (atr_at_total self pair now true) as [atr_now ->].
  cbn [Py.bind].
  destruct (Qle_bool (open_rate trade) 0) eqn:Ho; cbn [orb];
    [| destruct atr_open as [ao|]; cbn [Py.le];
       [destruct (Qle_bool ao 0) eqn:Hao|];
       [| rewrite div_num by (qprop; lra) | rewrite div_nan by (qprop; lra)] ];
    cbn [Py.bind Py.mul Py.lift2]; rewrite ?min_num, ?max_num, ?max_nan_r;
    cbn [Py.min Py.lt Py.neg Py.bind];
    (destruct profit as [p|];
     [ destruct (Qle_bool (SwingHighToSkyV2.be_trigger self) p) eqn:Hbe;
       destruct (Qle_bool (SwingHighToSkyV2.trail_trigger self) p) eqn:Htr;
       rewrite ?max_num, ?div_num by apply pmax_tiny_nonzero;
       cbn [Py.bind Py.sub Py.lift2]; rewrite ?max_num;
       try (destruct atr_now as [an|]; cbn [Py.gt Py.lt andb];
            [ destruct (Py.Qltb 0 an && Py.Qltb 0 rate)%bool eqn:Hgate;
              [ apply andb_true_iff in Hgate; destruct Hgate as [Hgate1 Hgate2];
                rewrite div_num by (qprop; lra)
              | ]
            | ])
     | ]);
    cbn [Py.bind Py.mul Py.lift2]; rewrite ?max_num, ?min_num;
    cbn [Py.neg]; rewrite ?max_num;
    (eexists; split; [reflexivity|]);
    (split; [intros v Hopen Hv0 Hv Hcap | split;
      [intros p' Hp0 Hp | intros p' a' Hp0 Hp Ha0 Ha Hrate]]);
    same_values; cbn [Py.le] in *; try discriminate;
    try match goal with H : andb _ _ = false |- _ =>
          apply andb_false_iff in H; destruct H end;
    through_clamps.
Qed.

Lemma swing_atr_bounds (self : SwingATRBreakevenV2.Self) (pair : string)
  (trade : Trade) (now : Z) (rate : Q) (profit : option Q) :
  valid_inputs (of_SwingATRBreakevenV2 self) pair trade = true ->
  store_missing (SwingATRBreakevenV2.custom_info self) pair = false ->
  exists q,
    SwingATRBreakevenV2.custom_stoploss self pair trade now rate profit = Ok (Num q)
    /\ - SwingATRBreakevenV2.max_init_sl self <= q
    /\ (forall p,
          profit = Some p -> SwingATRBreakevenV2.breakeven_trigger self <= p ->
          open_rate trade * (1 + fee_open trade + fee_close trade)
            / Engine.pmax rate (1 # 1000000000) - 1.0 <= q)
    /\ (forall p,
          profit = Some p -> SwingATRBreakevenV2.trail_trigger self <= p ->
          - SwingATRBreakevenV2.max_trail_sl self <= q).
Proof.
  intros Hv Hm. unfold SwingATRBreakevenV2.custom_stoploss.
  unfold store_missing in Hm. cbn [valid_inputs] in Hv.
  destruct (SwingATRBreakevenV2.custom_info self !! pair) as [df|];
    [|discriminate Hm].
  destruct df as [|r df]; [discriminate Hm|]. cbn [Pandas.empty] in *.
  destruct (SwingATRBreakevenV2.atr_asof (r :: df) (open_date_utc trade))
    as [[ao|]|]; try discriminate Hv.
  destruct (atr_asof_total (r :: df) now) as [atr_now ->]; [discriminate|].
  cbn [Py.bind]. rewrite !max_num.
  destruct atr_now as [an|];
    rewrite ?div_num, ?div_nan by apply pmax_tiny_nonzero;
    cbn [Py.bind Py.mul Py.sub Py.lift2]; rewrite ?max_nan_r, ?max_num, ?min_num;
    cbn [Py.neg];
    (destruct profit as [p|];
     [ destruct (Qle_bool (SwingATRBreakevenV2.breakeven_trigger self) p) eqn:Hbe;
       destruct (Qle_bool (SwingATRBreakevenV2.trail_trigger self) p) eqn:Htr
     | ]);
    cbn [Py.bind app Py.max_list fold_left]; rewrite ?max_num;
    (eexists; split; [reflexivity|]);
    (split; [| split; [intros p' Hp0 Hp | intros p' Hp0 Hp]]);
    same_values; through_clamps.
Qed.

Lemma ratio_to_price (r c q : Q) :
  0 < r -> c / r - 1.0 <= q -> c <= stop_price r q.
Proof.
  intros Hr Hq. rewrite <- (stop_price_ratio r c Hr).
  unfold stop_price. apply Qmult_le_l; lra.
Qed.

Lemma pmax_tiny_rate (r : Q) :
  (1 # 1000000000) <= r -> Engine.pmax r (1 # 1000000000) = r.
Proof.
  intros Hr. unfold Engine.pmax.
  destruct (Py.Qltb r (1 # 1000000000)) eqn:E; [qprop; lra | reflexivity].
Qed.

(** X5: the two strategies gated on the profit ratio also protect the
    entry: once [current_profit] has reached the breakeven trigger, and for a
    rate of at least 1e-9, the implied stop price is at least
    [open_rate * (1 + fee_open + fee_close)].  [SwingATRBreakevenV2] needs a
    non-empty store with a numeric ATR for the entry time to get that far. *)
Theorem profit_breakeven_non_loss :
  (forall (self : SwingHighToSkyV2.Self) (pair : string) (trade : Trade)
          (now : Z) (rate p : Q),
      SwingHighToSkyV2.be_trigger self <= p ->
      (1 # 1000000000) <= rate ->
      exists q,
        SwingHighToSkyV2.custom_stoploss self pair trade now rate (Some p) = Ok (Num q)
        /\ open_rate trade * (1 + fee_open trade + fee_close trade)
           <= stop_price rate q)
  /\ (forall (self : SwingATRBreakevenV2.Self) (pair : string) (trade : Trade)
             (now : Z) (rate p : Q),
         valid_inputs (of_SwingATRBreakevenV2 self) pair trade = true ->
         store_missing (SwingATRBreakevenV2.custom_info self) pair = false ->
         SwingATRBreakevenV2.breakeven_trigger self <= p ->
         (1 # 1000000000) <= rate ->
         exists q,
           SwingATRBreakevenV2.custom_stoploss self pair trade now rate (Some p)
           = Ok (Num q)
           /\ open_rate trade * (1 + fee_open trade + fee_close trade)
              <= stop_price rate q).
Proof.
  split.
  - intros self pair trade now rate p Hp Hr.
    destruct (high_to_sky_bounds self pair trade now rate (Some p))
      as (q & Hq & _ & Hbe & _).
    exists q. split; [assumption|].
    specialize (Hbe p eq_refl Hp). rewrite (pmax_tiny_rate rate Hr) in Hbe.
    apply ratio_to_price; [lra | assumption].
  - intros self pair trade now rate p Hv Hm Hp Hr.
    destruct (swing_atr_bounds self pair trade now rate (Some p) Hv Hm)
      as (q & Hq & _ & Hbe & _).
    exists q. split; [assumption|].
    specialize (Hbe p eq_refl Hp). rewrite (pmax_tiny_rate rate Hr) in Hbe.
    apply ratio_to_price; [lra | assumption].
Qed.

Lemma profit_breakeven_non_loss_witness :
  let cache : gmap string (Frame CloseAtr) :=
    {[ "BTC/USDT"%string := [(900%Z, {| close := Num 100; atr := Num 1 |});
                             (2000%Z, {| close := Num 103; atr := Num 2 |})] ]} in
  let trade := {| open_rate := 100; open_date_utc := 1000;
                  fee_open := 0.001; fee_close := 0.001 |} in
  (exists q,
      SwingHighToSkyV2.custom_stoploss (SwingHighToSkyV2.new cache)
        "BTC/USDT" trade 4600 102 (Some 0.02) = Ok (Num q)
      /\ open_rate trade * (1 + fee_open trade + fee_close trade) <= stop_price 102 q)
  /\ (exists q,
         SwingATRBreakevenV2.custom_stoploss (SwingATRBreakevenV2.new cache)
           "BTC/USDT" trade 4600 102 (Some 0.02) = Ok (Num q)
         /\ open_rate trade * (1 + fee_open trade + fee_close trade) <= stop_price 102 q).
Proof.
  intros cache trade. destruct profit_breakeven_non_loss as [Ha Hb]. split.
  - apply (Ha (SwingHighToSkyV2.new cache)).
    + vm_compute. intros H. discriminate H.
    + vm_compute. intros H. discriminate H.
  - apply (Hb (SwingATRBreakevenV2.new cache)).
    + vm_compute. reflexivity.
    + vm_compute. reflexivity.
    + vm_compute. intros H. discriminate H.
    + vm_compute. intros H. discriminate H.
Defined.

(** X6: the ATR-based initial stop is capped.  [SwingHighToSkyV2] never
    returns a stop wider than [max_atr_stop] when the entry price is
    positive and the ATR read for the entry time is not zero or negative;
    [SwingATRBreakevenV2] never returns one wider than [max_init_sl] when
    its store holds a numeric ATR for the entry time.  Both hold at every
    rate, time and profit. *)
Theorem initial_stop_cap :
  (forall (self : SwingHighToSkyV2.Self) (pair : string) (trade : Trade)
          (now : Z) (rate : Q) (profit : option Q) (atr_open : float),
      0 < open_rate trade ->
      SwingHighToSkyV2._atr_at self pair (open_date_utc trade) true = Ok atr_open ->
      Py.le atr_open 0 = false ->
      0.005 <= SwingHighToSkyV2.max_atr_stop self ->
      exists q,
        SwingHighToSkyV2.custom_stoploss self pair trade now rate profit = Ok (Num q)
        /\ - SwingHighToSkyV2.max_atr_stop self <= q)
  /\ (forall (self : SwingATRBreakevenV2.Self) (pair : string) (trade : Trade)
             (now : Z) (rate : Q) (profit : option Q),
         valid_inputs (of_SwingATRBreakevenV2 self) pair trade = true ->
         store_missing (SwingATRBreakevenV2.custom_info self) pair = false ->
         exists q,
           SwingATRBreakevenV2.custom_stoploss self pair trade now rate profit
           = Ok (Num q)
           /\ - SwingATRBreakevenV2.max_init_sl self <= q).
Proof.
  split.
  - intros self pair trade now rate profit atr_open Ho Hatr Hpos Hcap.
    destruct (high_to_sky_bounds self pair trade now rate profit)
      as (q & Hq & Hinit & _).
    exists q. split; [assumption|]. now apply (Hinit atr_open).
  - intros self pair trade now rate profit Hv Hm.
    destruct (swing_atr_bounds self pair trade now rate profit Hv Hm)
      as (q & Hq & Hinit & _).
    eauto.
Qed.

Lemma initial_stop_cap_witness :
  let cache : gmap string (Frame CloseAtr) :=
    {[ "BTC/USDT"%string := [(900%Z, {| close := Num 100; atr := Num 9 |});
                             (2000%Z, {| close := Num 103; atr := Num 2 |})] ]} in
  let trade := {| open_rate := 100; open_date_utc := 1000;
                  fee_open := 0.001; fee_close := 0.001 |} in
  (exists q,
      SwingHighToSkyV2.custom_stoploss (SwingHighToSkyV2.new cache)
        "BTC/USDT" trade 4600 80 None = Ok (Num q) /\ -0.045 <= q)
  /\ (exists q,
         SwingATRBreakevenV2.custom_stoploss (SwingATRBreakevenV2.new cache)
           "BTC/USDT" trade 4600 80 None = Ok (Num q) /\ -0.035 <= q).
Proof.
  intros cache trade. destruct initial_stop_cap as [Ha Hb]. split.
  - apply (Ha (SwingHighToSkyV2.new cache) "BTC/USDT"%string trade 4600%Z 80 None (Num 2)).
    + vm_compute. reflexivity.
    + vm_compute. reflexivity.
    + vm_compute. reflexivity.
    + vm_compute. intros H. discriminate H.
  - apply (Hb (SwingATRBreakevenV2.new cache)).
    + vm_compute. reflexivity.
    + vm_compute. reflexivity.
Defined.

(** X7: the trailing stage is capped as well.  Once [current_profit] has
    reached the trailing trigger, [SwingHighToSkyV2] (with a positive current
    ATR and rate) returns a stop no wider than [max_trail], and
    [SwingATRBreakevenV2] one no wider than [max_trail_sl]. *)
Theorem trailing_stop_cap :
  (forall (self : SwingHighToSkyV2.Self) (pair : string) (trade : Trade)
          (now : Z) (rate p atr_now : Q),
      SwingHighToSkyV2.trail_trigger self <= p ->
      SwingHighToSkyV2._atr_at self pair now true = Ok (Num atr_now) ->
      0 < atr_now -> 0 < rate ->
      exists q,
        SwingHighToSkyV2.custom_stoploss self pair trade now rate (Some p) = Ok (Num q)
        /\ - SwingHighToSkyV2.max_trail self <= q)
  /\ (forall (self : SwingATRBreakevenV2.Self) (pair : string) (trade : Trade)
             (now : Z) (rate p : Q),
         valid_inputs (of_SwingATRBreakevenV2 self) pair trade = true ->
         store_missing (SwingATRBreakevenV2.custom_info self) pair = false ->
         SwingATRBreakevenV2.trail_trigger self <= p ->
         exists q,
           SwingATRBreakevenV2.custom_stoploss self pair trade now rate (Some p)
           = Ok (Num q)
           /\ - SwingATRBreakevenV2.max_trail_sl self <= q).
Proof.
  split.
  - intros self pair trade now rate p atr_now Hp Hatr Ha Hr.
    destruct (high_to_sky_bounds self pair trade now rate (Some p))
      as (q & Hq & _ & _ & Htrail).
    exists q. split; [assumption|]. now apply (Htrail p atr_now).
  - intros self pair trade now rate p Hv Hm Hp.
    destruct (swing_atr_bounds self pair trade now rate (Some p) Hv Hm)
      as (q & Hq & _ & _ & Htrail).
    exists q. split; [assumption|]. now apply (Htrail p).
Qed.

Lemma trailing_stop_cap_witness :
  let cache : gmap string (Frame CloseAtr) :=
    {[ "BTC/USDT"%string := [(900%Z, {| close := Num 100; atr := Num 9 |});
                             (2000%Z, {| close := Num 103; atr := Num 2 |})] ]} in
  let trade := {| open_rate := 100; open_date_utc := 1000;
                  fee_open := 0.001; fee_close := 0.001 |} in
  (exists q,
      SwingHighToSkyV2.custom_stoploss (SwingHighToSkyV2.new cache)
        "BTC/USDT" trade 4600 104 (Some 0.04) = Ok (Num q) /\ -0.05 <= q)
  /\ (exists q,
         SwingATRBreakevenV2.custom_stoploss (SwingATRBreakevenV2.new cache)
           "BTC/USDT" trade 4600 104 (Some 0.04) = Ok (Num q) /\ -0.05 <= q).
Proof.
  intros cache trade. destruct trailing_stop_cap as [Ha Hb]. split.
  - apply (Ha (SwingHighToSkyV2.new cache) "BTC/USDT"%string trade 4600%Z 104 0.04 2).
    + vm_compute. intros H. discriminate H.
    + vm_compute. reflexivity.
    + vm_compute. reflexivity.
    + vm_compute. reflexivity.
  - apply (Hb (SwingATRBreakevenV2.new cache)).
    + vm_compute. reflexivity.
    + vm_compute. reflexivity.
    + vm_compute. intros H. discriminate H.
Defined.

(** X8: a NaN ATR read for the entry (a cache still in the indicator's
    warm-up) does not send
    [SwingHighToSkyV2] to its hard floor: [min] keeps the NaN and
    [max(0.005, NaN)] keeps 0.005, so without a profit stage the callback
    returns the tightest initial stop, -0.005. *)
Theorem high_to_sky_nan_atr_tightest (self : SwingHighToSkyV2.Self)
  (pair : string) (trade : Trade) (now : Z) (rate : Q) (profit : option Q) :
  0 < open_rate trade ->
  SwingHighToSkyV2._atr_at self pair (open_date_utc trade) true = Ok NaN ->
  (forall p, profit = Some p ->
             p < SwingHighToSkyV2.be_trigger self
             /\ p < SwingHighToSkyV2.trail_trigger self) ->
  SwingHighToSkyV2.stoploss self <= -0.005 ->
  exists q,
    SwingHighToSkyV2.custom_stoploss self pair trade now rate profit = Ok (Num q)
    /\ q == -0.005.
Proof.
  intros Ho Hatr Hp Hf. unfold SwingHighToSkyV2.custom_stoploss.
  rewrite Hatr. cbn [Py.bind Py.le].
  destruct (Qle_bool (open_rate trade) 0) eqn:E; [qprop; lra|]. cbn [orb].
  rewrite div_nan by lra. cbn [Py.bind Py.mul Py.lift2 Py.min Py.lt].
  rewrite max_nan_r. cbn [Py.neg].
  assert (Hfin : forall c, c == -0.005 ->
            exists q, Py.max (Num c) (Num (SwingHighToSkyV2.stoploss self)) = Num q
                      /\ q == -0.005).
  { intros c Hc. rewrite max_num. eexists. split; [reflexivity|].
    unfold Engine.pmax.
    destruct (Py.Qltb c (SwingHighToSkyV2.stoploss self)) eqn:E1; qprop; lra. }
  destruct (Hfin (- (0.005)) ltac:(lra)) as (q & Hq & Hq5).
  exists q. split; [|assumption].
  destruct profit as [p|]; [|cbn [Py.bind]; now rewrite Hq].
  destruct (Hp p eq_refl) as [Hbe Htr].
  destruct (Qle_bool (SwingHighToSkyV2.be_trigger self) p) eqn:E1; [qprop; lra|].
  destruct (Qle_bool (SwingHighToSkyV2.trail_trigger self) p) eqn:E2; [qprop; lra|].
  cbn [Py.bind]. now rewrite Hq.
Qed.

Lemma high_to_sky_nan_atr_tightest_witness :
  let cache : gmap string (Frame CloseAtr) :=
    {[ "BTC/USDT"%string := [(900%Z, {| close := Num 100; atr := NaN |});
                             (1000%Z, {| close := Num 103; atr := NaN |})] ]} in
  let trade := {| open_rate := 100; open_date_utc := 1000;
                  fee_open := 0.001; fee_close := 0.001 |} in
  exists q,
    SwingHighToSkyV2.custom_stoploss (SwingHighToSkyV2.new cache)
      "BTC/USDT" trade 4600 99 (Some 0.01) = Ok (Num q)
    /\ q == -0.005.
Proof.
  intros cache trade.
  apply (high_to_sky_nan_atr_tightest (SwingHighToSkyV2.new cache)).
  - vm_compute. reflexivity.
  - vm_compute. reflexivity.
  - intros p [= <-]. split; vm_compute; reflexivity.
  - vm_compute. intros H. discriminate H.
Defined.

(** ** The last-candle strategies *)

(** X9: [Sma20RsiBbAtrStrategy] always leaves room under the price and
    bounds its profit lock.  With a last candle carrying a close and a hard
    floor of at most -0.008, the returned ratio lies between the floor and
    -0.008 whatever the ATR (also NaN, zero or missing), and it is at least
    -0.05 once [current_profit] exceeds 0.04. *)
Theorem sma20_stop_band (self : Sma20RsiBbAtrStrategy.Self) (pair : string)
  (trade : Trade) (now : Z) (rate : Q) (profit : option Q) :
  valid_inputs (of_Sma20RsiBbAtrStrategy self) pair trade = true ->
  Sma20RsiBbAtrStrategy.stoploss self <= -0.008 ->
  exists q,
    Sma20RsiBbAtrStrategy.custom_stoploss self pair trade now rate profit = Ok (Num q)
    /\ Sma20RsiBbAtrStrategy.stoploss self <= q <= -0.008
    /\ (forall p, profit = Some p -> 0.04 < p -> -0.05 <= q).
Proof.
  intros Hv Hf. unfold Sma20RsiBbAtrStrategy.custom_stoploss. cbn [valid_inputs] in Hv.
  destruct (Sma20RsiBbAtrStrategy.dp self) as [dp|]; [|discriminate Hv].
  destruct (last_candle dp pair) as [last|] eqn:Hlast; [|discriminate Hv].
  cbn [Py.bind]. rewrite (last_candle_iloc dp pair last Hlast). cbn [Py.bind].
  apply bool_decide_eq_true in Hv. destruct Hv as [close ->]. cbn [Py.bind].
  match goal with |- context [Py.div ?x _] =>
    assert (Hatr : exists a : Q, x = Num a)
      by (destruct (last !! "atr"%string) as [[a|]|]; cbn; eauto);
    destruct Hatr as [a ->]
  end.
  first_step.
  { destruct close as [c|]; cbn [Py.gt Py.lt]; [|eauto].
    case_if; [|eauto]. qprop. rewrite div_num by lra. eauto. }
  cbn [Py.ge Py.le Py.mul Py.lift2]. rewrite !max_num, !min_num. cbn [Py.neg].
  destruct profit as [p|];
    [destruct (Py.Qltb 0.04 p) eqn:Hp|];
    repeat case_inner_if; cbn [Py.mul Py.lift2];
    rewrite ?min_num, ?max_num; cbn [Py.neg]; rewrite ?max_num;
    (eexists; split; [reflexivity|]);
    (split; [split | intros p' Hp0 Hp']); same_values; through_clamps.
Qed.

Lemma sma20_stop_band_witness :
  let row : Row := {[ "close"%string := Num 100; "atr"%string := Num 3 ]} in
  let dp : DataProvider := {[ "BTC/USDT"%string := [row] ]} in
  let trade := {| open_rate := 100; open_date_utc := 1000;
                  fee_open := 0.001; fee_close := 0.001 |} in
  exists q,
    Sma20RsiBbAtrStrategy.custom_stoploss (Sma20RsiBbAtrStrategy.new (Some dp))
      "BTC/USDT" trade 4600 106 (Some 0.06) = Ok (Num q)
    /\ -0.10 <= q <= -0.008
    /\ (forall p, Some 0.06 = Some p -> 0.04 < p -> -0.05 <= q).
Proof.
  intros row dp trade.
  apply (sma20_stop_band (Sma20RsiBbAtrStrategy.new (Some dp))
           "BTC/USDT" trade 4600 106 (Some 0.06)).
  - vm_compute. reflexivity.
  - vm_compute. intros H. discriminate H.
Defined.

Lemma psar_guard_passes (self : CustomStoplossWithPSAR.Self) (pair : string)
  (hist : Frame float) :
  CustomStoplossWithPSAR.custom_info self !! pair = Some hist ->
  (negb (Nat.eqb (size (CustomStoplossWithPSAR.custom_info self)) 0)
   && bool_decide (is_Some (CustomStoplossWithPSAR.custom_info self !! pair)))%bool
  = true.
Proof.
  intros H. apply andb_true_iff. split.
  - apply negb_true_iff, Nat.eqb_neq. intros Hsize.
    apply map_size_empty_iff in Hsize. rewrite Hsize in H.
    rewrite lookup_empty in H. discriminate H.
  - apply bool_decide_eq_true. eauto.
Qed.

(** X10: what [CustomStoplossWithPSAR] clamps is [-sar / current_rate],
    not the distance between price and SAR.  For a pair present in
    [custom_info], a numeric SAR in the last candle and a positive rate, the
    result is -0.08 whenever the SAR is at least 8% of the rate, -0.02
    whenever it is at most 2% of it, and [-sar / current_rate] in between. *)
Theorem psar_clamps_sar_over_rate (self : CustomStoplossWithPSAR.Self)
  (pair : string) (trade : Trade) (now : Z) (rate : Q) (profit : option Q)
  (hist : Frame float) (dp : DataProvider) (last : Row) (sar : Q) :
  CustomStoplossWithPSAR.custom_info self !! pair = Some hist ->
  CustomStoplossWithPSAR.dp self = Some dp ->
  last_candle dp pair = Some last ->
  last !! "sar"%string = Some (Num sar) ->
  0 < rate ->
  exists q,
    CustomStoplossWithPSAR.custom_stoploss self pair trade now rate profit = Ok (Num q)
    /\ (0.08 * rate <= sar -> q == -0.08)
    /\ (sar <= 0.02 * rate -> q == -0.02)
    /\ (0.02 * rate <= sar <= 0.08 * rate -> q * rate == - sar).
Proof.
  intros Hinfo Hdp Hlast Hsar Hr. unfold CustomStoplossWithPSAR.custom_stoploss.
  rewrite (psar_guard_passes self pair hist Hinfo), Hdp.
  rewrite (last_candle_iloc dp pair last Hlast). cbn [Py.bind]. rewrite Hsar.
  destruct (Py.Qltb 0 rate) eqn:E; [|qprop; lra].
  cbn [Py.sub Py.lift2]. rewrite div_num by lra. cbn [Py.bind Py.sub Py.lift2].
  rewrite min_num, max_num.
  assert (Hrel : ((rate - sar) / rate - 1) * rate == - sar) by (field; lra).
  eexists. split; [reflexivity|].
  set (rel := (rate - sar) / rate - 1) in *. clearbody rel.
  unfold Engine.pmax. repeat split; intros; repeat case_inner_if; qprop; nra.
Qed.

Lemma psar_clamps_sar_over_rate_witness :
  let info : gmap string (Frame float) := {[ "BTC/USDT"%string := [(1000%Z, Num 97)] ]} in
  let row : Row := {[ "close"%string := Num 100; "sar"%string := Num 97 ]} in
  let dp : DataProvider := {[ "BTC/USDT"%string := [row] ]} in
  let trade := {| open_rate := 100; open_date_utc := 1000;
                  fee_open := 0.001; fee_close := 0.001 |} in
  exists q,
    CustomStoplossWithPSAR.custom_stoploss (CustomStoplossWithPSAR.new info (Some dp))
      "BTC/USDT" trade 4600 100 None = Ok (Num q)
    /\ (0.08 * 100 <= 97 -> q == -0.08)
    /\ (97 <= 0.02 * 100 -> q == -0.02)
    /\ (0.02 * 100 <= 97 <= 0.08 * 100 -> q * 100 == - 97).
Proof.
  intros info row dp trade.
  apply (psar_clamps_sar_over_rate (CustomStoplossWithPSAR.new info (Some dp))
           "BTC/USDT" trade 4600 100 None [(1000%Z, Num 97)] dp row 97).
  - vm_compute. reflexivity.
  - reflexivity.
  - vm_compute. reflexivity.
  - vm_compute. reflexivity.
  - vm_compute. reflexivity.
Defined.

(** ** Indicator pass and stop-loss query together *)

(** On a strictly ascending index, the rows up to the query time end with
    the row whose successor, if any, is later than the query. *)
Lemma asof_row {A : Type} (hist : Frame A) (t : Z) (k : nat) (r : Z * A) :
  StronglySorted Z.lt (map fst hist) ->
  hist !! k = Some r ->
  (fst r <= t)%Z ->
  (forall r', hist !! S k = Some r' -> (t < fst r')%Z) ->
  Pandas.tail1 (Pandas.loc_upto t hist) = [r].
Proof.
  revert k. induction hist as [|r0 hist IH]; intros k Hs Hk Hle Hnext;
    [discriminate Hk|].
  cbn [map] in Hs. apply StronglySorted_inv in Hs. destruct Hs as [Hs Hr0].
  rewrite List.Forall_forall in Hr0.
  destruct k as [|k].
  - injection Hk as <-. cbn [Pandas.loc_upto].
    apply Z.leb_le in Hle. rewrite Hle.
    destruct hist as [|r1 hist]; [reflexivity|].
    specialize (Hnext r1 eq_refl).
    now rewrite (loc_upto_before_first t r1 hist Hnext).
  - cbn in Hk.
    assert (Hlt : (fst r0 < fst r)%Z).
    { apply Hr0. apply in_map. apply list_elem_of_In.
      now apply list_elem_of_lookup_2 in Hk. }
    cbn [Pandas.loc_upto].
    assert (E : (fst r0 <=? t)%Z = true) by (apply Z.leb_le; lia).
    rewrite E.
    specialize (IH k Hs Hk Hle Hnext).
    destruct (Pandas.loc_upto t hist) as [|r1 pre]; [discriminate IH|].
    exact IH.
Qed.

Lemma set_index_lookup {A : Type} (df : list Ohlcv.t) (col : list A) (k : nat)
  (c : Ohlcv.t) (v : A) :
  df !! k = Some c -> col !! k = Some v ->
  Columns.set_index df col !! k = Some (Ohlcv.date c, v).
Proof.
  intros Hc Hv. unfold Columns.set_index.
  change (map Ohlcv.date df) with (Ohlcv.date <$> df).
  rewrite lookup_zip_with, list_lookup_fmap, Hc, Hv. reflexivity.
Qed.

Lemma set_index_dates {A : Type} (df : list Ohlcv.t) (col : list A) :
  length col = length df ->
  map fst (Columns.set_index df col) = map Ohlcv.date df.
Proof.
  intros Hlen. unfold Columns.set_index.
  change (map fst (zip (map Ohlcv.date df) col)) with ((zip (map Ohlcv.date df) col).*1).
  apply fst_zip. rewrite length_map. lia.
Qed.

Lemma stop_reference_lookup (atr_mult : Q) (df : list Ohlcv.t) (atr : list float)
  (k : nat) (c : Ohlcv.t) (a : float) :
  df !! k = Some c -> atr !! k = Some a ->
  Columns.stop_reference atr_mult df atr !! k
  = Some (Py.sub (Ohlcv.close c) (Py.mul a atr_mult)).
Proof.
  intros Hc Ha. unfold Columns.stop_reference.
  now rewrite lookup_zip_with, Hc, Ha.
Qed.

Lemma stop_reference_length (atr_mult : Q) (df : list Ohlcv.t) (atr : list float) :
  length atr = length df ->
  length (Columns.stop_reference atr_mult df atr) = length df.
Proof. intros H. unfold Columns.stop_reference. rewrite length_zip_with. lia. Qed.

(** The store of the pair right after the pass. *)
Lemma populate_reference_store (ta_ATR : AtrIndicator) (atr_mult : Q)
  (s : IStrategy) (df : list Ohlcv.t) (pair : string) :
  risk_multiple s = true ->
  df <> [] ->
  reference_store_of (populate_reference_of ta_ATR atr_mult s df pair) !! pair
  = Some (Columns.set_index df
            (Columns.stop_reference (atr_mult_of s atr_mult) df (ta_ATR df 14%nat))).
Proof.
  intros Hs Hne.
  destruct s; try discriminate Hs;
    cbn [populate_reference_of reference_store_of atr_mult_of] in *;
    [ unfold FixedRiskRewardLossImprovedPass.populate_indicators
    | unfold FixedRR_MultiModePass.populate_indicators
    | unfold SwingEMA_RSI_ATRPass.populate_indicators
    | unfold EdgeBreakRetestV1Pass.populate_indicators ];
    (destruct df; [contradiction|]); cbn; apply lookup_insert_eq.
Qed.

(** The lookup reads that store. *)
Lemma entry_reference_reads_store (s : IStrategy) (pair : string) (t : Z)
  (hist : Frame float) :
  risk_multiple s = true ->
  reference_store_of s !! pair = Some hist ->
  entry_reference_of s pair t
  = match Pandas.tail1 (Pandas.loc_upto t hist) with
    | [] => None
    | r :: _ => Some (snd r)
    end.
Proof.
  intros Hs Hstore.
  destruct s; try discriminate Hs; cbn [entry_reference_of reference_store_of] in *;
    [ unfold FixedRiskRewardLossImproved._lookup_open_sl_abs
    | unfold FixedRR_MultiMode._lookup_open_sl_abs
    | unfold SwingEMA_RSI_ATR._lookup_init_sl
    | unfold EdgeBreakRetestV1._lookup_init_sl ];
    rewrite Hstore; now destruct hist.
Qed.

Lemma populate_keeps_family (ta_ATR : AtrIndicator) (atr_mult : Q)
  (s : IStrategy) (df : list Ohlcv.t) (pair : string) :
  risk_multiple (populate_reference_of ta_ATR atr_mult s df pair) = risk_multiple s.
Proof. now destruct s. Qed.

(** X11: write then read.  After the indicator pass of a risk-multiple
    strategy over candles with strictly ascending dates, the entry-time
    lookup at any time from candle [k] up to (not including) the next candle
    returns that candle's [close - atr * atr_mult], the ATR being the value
    the indicator gave for candle [k]. *)
Theorem reference_round_trip (ta_ATR : AtrIndicator) (atr_mult : Q)
  (s : IStrategy) (df : list Ohlcv.t) (pair : string)
  (k : nat) (c : Ohlcv.t) (a : float) (t : Z) :
  risk_multiple s = true ->
  length (ta_ATR df 14%nat) = length df ->
  StronglySorted Z.lt (map Ohlcv.date df) ->
  df !! k = Some c ->
  ta_ATR df 14%nat !! k = Some a ->
  (Ohlcv.date c <= t)%Z ->
  (forall c', df !! S k = Some c' -> (t < Ohlcv.date c')%Z) ->
  entry_reference_of (populate_reference_of ta_ATR atr_mult s df pair) pair t
  = Some (Py.sub (Ohlcv.close c) (Py.mul a (atr_mult_of s atr_mult))).
Proof.
  intros Hs Hlen Hsorted Hc Ha Hle Hnext.
  assert (Hne : df <> []) by (intros ->; discriminate Hc).
  rewrite (entry_reference_reads_store _ pair t _
             (eq_trans (populate_keeps_family _ _ _ _ _) Hs)
             (populate_reference_store ta_ATR atr_mult s df pair Hs Hne)).
  set (col := Columns.stop_reference (atr_mult_of s atr_mult) df (ta_ATR df 14%nat)).
  assert (Hcol : length col = length df) by now apply stop_reference_length.
  rewrite (asof_row (Columns.set_index df col) t k
             (Ohlcv.date c, Py.sub (Ohlcv.close c) (Py.mul a (atr_mult_of s atr_mult)))).
  - reflexivity.
  - now rewrite set_index_dates.
  - apply set_index_lookup; [assumption|]. now apply stop_reference_lookup.
  - exact Hle.
  - intros [d' v'] Hr'. cbn [fst].
    unfold Columns.set_index in Hr'.
    change (map Ohlcv.date df) with (Ohlcv.date <$> df) in Hr'.
    apply lookup_zip_with_Some in Hr'. destruct Hr' as (x & y & [= -> ->] & Hx & _).
    rewrite list_lookup_fmap in Hx.
    destruct (df !! S k) as [c'|] eqn:Hc'; [|discriminate Hx].
    injection Hx as <-. now apply Hnext.
Qed.

Lemma reference_round_trip_witness :
  let ta_ATR : AtrIndicator := fun df _ => [NaN; Num 1; Num 2] in
  let candle d c :=
    {| Ohlcv.date := d; Ohlcv.open := Num c; Ohlcv.high := Num c; Ohlcv.low := Num c;
       Ohlcv.close := Num c; Ohlcv.volume := Num 10 |} in
  let df := [candle 900%Z 99; candle 1000%Z 100; candle 1100%Z 103] in
  entry_reference_of
    (populate_reference_of ta_ATR 2.0
       (of_SwingEMA_RSI_ATR (SwingEMA_RSI_ATR.new ∅)) df "BTC/USDT")
    "BTC/USDT" 1050
  = Some (Py.sub (Num 100) (Py.mul (Num 1) (Num 2.0))).
Proof.
  intros ta_ATR candle df.
  apply (reference_round_trip ta_ATR 2.0 (of_SwingEMA_RSI_ATR (SwingEMA_RSI_ATR.new ∅))
           df "BTC/USDT" 1%nat (candle 1000%Z 100) (Num 1) 1050%Z).
  - reflexivity.
  - reflexivity.
  - repeat constructor.
  - reflexivity.
  - reflexivity.
  - vm_compute. intros H. discriminate H.
  - intros c' [= <-]. reflexivity.
Defined.

(** The pass leaves the knobs of the strategy alone. *)
Lemma populate_keeps_knobs (ta_ATR : AtrIndicator) (atr_mult : Q)
  (s : IStrategy) (df : list Ohlcv.t) (pair : string) (trade : Trade) (i : Q) :
  stoploss_of (populate_reference_of ta_ATR atr_mult s df pair) = stoploss_of s
  /\ stages_of (populate_reference_of ta_ATR atr_mult s df pair) trade i
     = stages_of s trade i.
Proof.
  destruct s; cbn; try (split; reflexivity);
    destruct df; split; reflexivity.
Qed.

(** X12: the pass for one pair never changes the stop of a trade on another
    pair. *)
Theorem populate_other_pair_untouched (ta_ATR : AtrIndicator) (atr_mult : Q)
  (s : IStrategy) (df : list Ohlcv.t) (p q : string) (trade : Trade)
  (now : Z) (rate : Q) (profit : option Q) :
  p <> q ->
  custom_stoploss_of (populate_reference_of ta_ATR atr_mult s df p)
    q trade now rate profit
  = custom_stoploss_of s q trade now rate profit.
Proof.
  intros Hpq.
  destruct s; cbn [populate_reference_of custom_stoploss_of]; try reflexivity.
  - unfold FixedRiskRewardLossImproved.custom_stoploss,
      FixedRiskRewardLossImproved._lookup_open_sl_abs,
      FixedRiskRewardLossImprovedPass.populate_indicators.
    cbn. now rewrite (lookup_insert_ne _ _ _ _ Hpq).
  - unfold FixedRR_MultiMode.custom_stoploss,
      FixedRR_MultiMode._lookup_open_sl_abs,
      FixedRR_MultiModePass.populate_indicators.
    cbn. now rewrite (lookup_insert_ne _ _ _ _ Hpq).
  - destruct df; [reflexivity|].
    unfold SwingEMA_RSI_ATR.custom_stoploss, SwingEMA_RSI_ATR._lookup_init_sl,
      SwingEMA_RSI_ATRPass.populate_indicators.
    cbn. now rewrite (lookup_insert_ne _ _ _ _ Hpq).
  - destruct df; [reflexivity|].
    unfold EdgeBreakRetestV1.custom_stoploss, EdgeBreakRetestV1._lookup_init_sl,
      EdgeBreakRetestV1Pass.populate_indicators.
    cbn. now rewrite (lookup_insert_ne _ _ _ _ Hpq).
Qed.

Lemma populate_other_pair_untouched_witness :
  let ta_ATR : AtrIndicator := fun df _ => [Num 1] in
  let df := [{| Ohlcv.date := 1000%Z; Ohlcv.open := Num 100; Ohlcv.high := Num 101;
               Ohlcv.low := Num 99; Ohlcv.close := Num 100; Ohlcv.volume := Num 10 |}] in
  let s := of_EdgeBreakRetestV1 (EdgeBreakRetestV1.new ∅) in
  let trade := {| open_rate := 100; open_date_utc := 1000%Z;
                  fee_open := 0.001; fee_close := 0.001 |} in
  custom_stoploss_of (populate_reference_of ta_ATR 1.8 s df "BTC/USDT")
    "ETH/USDT" trade 2000%Z 101 None
  = custom_stoploss_of s "ETH/USDT" trade 2000%Z 101 None.
Proof.
  intros ta_ATR df s trade.
  apply (populate_other_pair_untouched ta_ATR 1.8 s df "BTC/USDT" "ETH/USDT").
  intros H. discriminate H.
Defined.

(** X13: a trade opened before the first candle of the batch just written
    has no entry reference any more: whatever the price does, the callback
    answers the hard floor. *)
Theorem stale_trade_gets_floor (ta_ATR : AtrIndicator) (atr_mult : Q)
  (s : IStrategy) (c : Ohlcv.t) (df : list Ohlcv.t) (pair : string)
  (trade : Trade) (now : Z) (rate : Q) (profit : option Q) :
  risk_multiple s = true ->
  length (ta_ATR (c :: df) 14%nat) = length (c :: df) ->
  (open_date_utc trade < Ohlcv.date c)%Z ->
  custom_stoploss_of (populate_reference_of ta_ATR atr_mult s (c :: df) pair)
    pair trade now rate profit
  = Ok (Num (stoploss_of s)).
Proof.
  intros Hs Hlen Hdate.
  pose proof (populate_keeps_family ta_ATR atr_mult s (c :: df) pair) as Hfam.
  rewrite Hs in Hfam.
  destruct (populate_keeps_knobs ta_ATR atr_mult s (c :: df) pair trade 0) as [<- _].
  apply risk_multiple_guarded; [exact Hfam|].
  right; left.
  rewrite (entry_reference_reads_store _ pair _ _ Hfam
             (populate_reference_store ta_ATR atr_mult s (c :: df) pair Hs
                ltac:(discriminate))).
  destruct (ta_ATR (c :: df) 14%nat) as [|a atr] eqn:Ea; [discriminate Hlen|].
  unfold Columns.stop_reference, Columns.set_index. cbn [zip_with map].
  now rewrite loc_upto_before_first.
Qed.

Lemma stale_trade_gets_floor_witness :
  let ta_ATR : AtrIndicator := fun df _ => [Num 1] in
  let c := {| Ohlcv.date := 1000%Z; Ohlcv.open := Num 100; Ohlcv.high := Num 101;
              Ohlcv.low := Num 99; Ohlcv.close := Num 100; Ohlcv.volume := Num 10 |} in
  let s := of_FixedRiskRewardLossImproved (FixedRiskRewardLossImproved.new ∅) in
  let trade := {| open_rate := 100; open_date_utc := 400%Z;
                  fee_open := 0.001; fee_close := 0.001 |} in
  custom_stoploss_of (populate_reference_of ta_ATR 2.2 s [c] "BTC/USDT")
    "BTC/USDT" trade 2000%Z 150 None
  = Ok (Num (stoploss_of s)).
Proof.
  intros ta_ATR c s trade.
  apply (stale_trade_gets_floor ta_ATR 2.2 s c [] "BTC/USDT" trade 2000%Z 150 None).
  - reflexivity.
  - reflexivity.
  - reflexivity.
Defined.

Lemma best_level_untriggered (rate base : Q) (stages : list Engine.Stage) :
  Forall (fun st => rate < Engine.trigger st) stages ->
  Engine.best_level rate base stages = base.
Proof.
  unfold Engine.best_level. revert base.
  induction stages as [|st stages IH]; intros base Hall; [reflexivity|].
  apply Forall_cons in Hall. destruct Hall as [Hst Hall]. cbn [fold_left].
  assert (E : Engine.tighten rate base st = base).
  { unfold Engine.tighten.
    destruct (Qle_bool (Engine.trigger st) rate) eqn:E; [|reflexivity].
    qprop. lra. }
  rewrite E. now apply IH.
Qed.

(** X14: the initial stop.  For a trade opened during candle [k] of the
    batch, with a numeric ATR and an entry price above
    [close - atr * atr_mult], and while the price is below every trigger,
    the stop price is that ATR stop, or the floor price where the floor is
    tighter. *)
Theorem initial_stop_is_atr_stop (ta_ATR : AtrIndicator) (atr_mult : Q)
  (s : IStrategy) (df : list Ohlcv.t) (pair : string)
  (k : nat) (c : Ohlcv.t) (cl a : Q) (trade : Trade)
  (now : Z) (rate : Q) (profit : option Q) :
  risk_multiple s = true ->
  length (ta_ATR df 14%nat) = length df ->
  StronglySorted Z.lt (map Ohlcv.date df) ->
  df !! k = Some c ->
  Ohlcv.close c = Num cl ->
  ta_ATR df 14%nat !! k = Some (Num a) ->
  (Ohlcv.date c <= open_date_utc trade)%Z ->
  (forall c', df !! S k = Some c' -> (open_date_utc trade < Ohlcv.date c')%Z) ->
  let init := cl - a * atr_mult_of s atr_mult in
  init < open_rate trade ->
  0 < rate ->
  Forall (fun st => rate < Engine.trigger st) (stages_of s trade init) ->
  exists q,
    custom_stoploss_of (populate_reference_of ta_ATR atr_mult s df pair)
      pair trade now rate profit = Ok (Num q)
    /\ (stop_price rate (stoploss_of s) <= init -> stop_price rate q == init)
    /\ (init <= stop_price rate (stoploss_of s) -> q == stoploss_of s).
Proof.
  intros Hs Hlen Hsorted Hc Hcl Ha Hle Hnext init Hrisk Hrate Hbelow.
  assert (Href : entry_reference_of (populate_reference_of ta_ATR atr_mult s df pair)
                   pair (open_date_utc trade) = Some (Num init)).
  { set (s' := populate_reference_of ta_ATR atr_mult s df pair).
    assert (Hne : df <> []) by (intros ->; discriminate Hc).
    rewrite (entry_reference_reads_store s' pair _ _
               (eq_trans (populate_keeps_family _ _ _ _ _) Hs)
               (populate_reference_store ta_ATR atr_mult s df pair Hs Hne)).
    set (col := Columns.stop_reference (atr_mult_of s atr_mult) df (ta_ATR df 14%nat)).
    assert (Hcol : length col = length df) by now apply stop_reference_length.
    rewrite (asof_row (Columns.set_index df col) (open_date_utc trade) k
               (Ohlcv.date c, Num init)).
    - reflexivity.
    - now rewrite set_index_dates.
    - apply set_index_lookup; [assumption|].
      unfold col. rewrite (stop_reference_lookup _ df _ k c (Num a) Hc Ha), Hcl.
      reflexivity.
    - exact Hle.
    - intros [d' v'] Hr'. cbn [fst].
      unfold Columns.set_index in Hr'.
      change (map Ohlcv.date df) with (Ohlcv.date <$> df) in Hr'.
      apply lookup_zip_with_Some in Hr'. destruct Hr' as (x & y & [= -> ->] & Hx & _).
      rewrite list_lookup_fmap in Hx.
      destruct (df !! S k) as [c'|] eqn:Hc'; [|discriminate Hx].
      injection Hx as <-. now apply Hnext. }
  rewrite (risk_multiple_staged _ pair trade now rate profit init Href Hrate Hrisk).
  destruct (populate_keeps_knobs ta_ATR atr_mult s df pair trade init) as [-> ->].
  eexists. split; [reflexivity|].
  unfold Engine.staged_ratio.
  rewrite (best_level_untriggered rate init _ Hbelow).
  pose proof (stop_price_ratio rate init Hrate) as Hp.
  unfold stop_price in *.
  set (d := init / rate) in *. clearbody d.
  destruct (Py.Qltb (d - 1.0) (stoploss_of s)) eqn:E; qprop; split; intros H;
    try reflexivity; try nra.
Qed.

Lemma initial_stop_is_atr_stop_witness :
  let ta_ATR : AtrIndicator := fun df _ => [NaN; Num 1; Num 2] in
  let candle d c :=
    {| Ohlcv.date := d; Ohlcv.open := Num c; Ohlcv.high := Num c; Ohlcv.low := Num c;
       Ohlcv.close := Num c; Ohlcv.volume := Num 10 |} in
  let df := [candle 900%Z 99; candle 1000%Z 100; candle 1100%Z 103] in
  let s := of_SwingEMA_RSI_ATR (SwingEMA_RSI_ATR.new ∅) in
  let trade := {| open_rate := 100; open_date_utc := 1050%Z;
                  fee_open := 0.001; fee_close := 0.001 |} in
  exists q,
    custom_stoploss_of (populate_reference_of ta_ATR 2.0 s df "BTC/USDT")
      "BTC/USDT" trade 2000%Z 101 None = Ok (Num q)
    /\ (stop_price 101 (stoploss_of s) <= 100 - 1 * 2.0 -> stop_price 101 q == 100 - 1 * 2.0)
    /\ (100 - 1 * 2.0 <= stop_price 101 (stoploss_of s) -> q == stoploss_of s).
Proof.
  intros ta_ATR candle df s trade.
  apply (initial_stop_is_atr_stop ta_ATR 2.0 s df "BTC/USDT" 1%nat
           (candle 1000%Z 100) 100 1 trade 2000%Z 101 None).
  - reflexivity.
  - reflexivity.
  - repeat constructor.
  - reflexivity.
  - reflexivity.
  - reflexivity.
  - vm_compute. intros H. discriminate H.
  - intros c' [= <-]. reflexivity.
  - reflexivity.
  - reflexivity.
  - repeat constructor.
Defined.

(** Passes of [CustomStoplossWithPSAR] outside backtest and hyperopt. *)
Lemma psar_pass_off (ta_SAR : SarIndicator) (runmode : string)
  (self : CustomStoplossWithPSAR.Self) (df : list Ohlcv.t) (pair : string) :
  runmode <> "backtest"%string -> runmode <> "hyperopt"%string ->
  CustomStoplossWithPSARPass.populate_indicators ta_SAR runmode self df pair = self.
Proof.
  intros Hb Hh. unfold CustomStoplossWithPSARPass.populate_indicators.
  apply String.eqb_neq in Hb, Hh. rewrite Hb, Hh.
  now destruct (CustomStoplossWithPSAR.dp self).
Qed.

(** X15: in a run mode other than backtest and hyperopt (dry run, live) the
    PSAR stop is never armed: starting from the empty class dictionary,
    after any number of indicator passes the callback answers 1, whatever
    the data provider holds. *)
Theorem psar_stop_off_outside_backtest (ta_SAR : SarIndicator) (runmode : string)
  (dp : option DataProvider) (batches : list (list Ohlcv.t * string))
  (pair : string) (trade : Trade) (now : Z) (rate : Q) (profit : option Q) :
  runmode <> "backtest"%string -> runmode <> "hyperopt"%string ->
  CustomStoplossWithPSAR.custom_stoploss
    (fold_left
       (fun self b =>
          CustomStoplossWithPSARPass.populate_indicators ta_SAR runmode self b.1 b.2)
       batches (CustomStoplossWithPSAR.new ∅ dp))
    pair trade now rate profit
  = Ok (Num 1).
Proof.
  intros Hb Hh.
  assert (Hfold : fold_left
            (fun self b =>
               CustomStoplossWithPSARPass.populate_indicators ta_SAR runmode self b.1 b.2)
            batches (CustomStoplossWithPSAR.new ∅ dp)
          = CustomStoplossWithPSAR.new ∅ dp).
  { induction batches as [|b batches IH]; [reflexivity|].
    cbn [fold_left]. now rewrite psar_pass_off. }
  rewrite Hfold. reflexivity.
Qed.

Lemma psar_stop_off_outside_backtest_witness :
  let ta_SAR : SarIndicator := fun df => map Ohlcv.low df in
  let c := {| Ohlcv.date := 1000%Z; Ohlcv.open := Num 100; Ohlcv.high := Num 101;
              Ohlcv.low := Num 99; Ohlcv.close := Num 100; Ohlcv.volume := Num 10 |} in
  let dp : DataProvider := {[ "BTC/USDT"%string := [{[ "sar"%string := Num 99 ]}] ]} in
  let trade := {| open_rate := 100; open_date_utc := 1000%Z;
                  fee_open := 0.001; fee_close := 0.001 |} in
  CustomStoplossWithPSAR.custom_stoploss
    (fold_left
       (fun self b =>
          CustomStoplossWithPSARPass.populate_indicators ta_SAR "dry_run" self b.1 b.2)
       [([c], "BTC/USDT"%string)] (CustomStoplossWithPSAR.new ∅ (Some dp)))
    "BTC/USDT" trade 2000%Z 101 None
  = Ok (Num 1).
Proof.
  intros ta_SAR c dp trade.
  apply (psar_stop_off_outside_backtest ta_SAR "dry_run" (Some dp)
           [([c], "BTC/USDT"%string)] "BTC/USDT" trade 2000%Z 101 None).
  - intros H. discriminate H.
  - intros H. discriminate H.
Defined.

(** ** The [close]/[atr] caches after an indicator pass *)

Lemma close_atr_rows_lookup (df : list Ohlcv.t) (col : list float) (k : nat)
  (c : Ohlcv.t) (a : float) :
  df !! k = Some c -> col !! k = Some a ->
  close_atr_rows df col !! k = Some {| close := Ohlcv.close c; atr := a |}.
Proof.
  intros Hc Ha. unfold close_atr_rows. now rewrite lookup_zip_with, Hc, Ha.
Qed.

Lemma close_atr_rows_length (df : list Ohlcv.t) (col : list float) :
  length col = length df -> length (close_atr_rows df col) = length df.
Proof. intros H. unfold close_atr_rows. rewrite length_zip_with. lia. Qed.

Lemma last_default {A : Type} (l : list A) (d x : A) :
  last l = Some x -> List.last l d = x.
Proof.
  induction l as [|y l IH]; [discriminate|].
  destruct l as [|z l]; [now intros [= <-]|].
  intros H. apply IH. exact H.
Qed.

(** The last row of the cache written by the pass. *)
Lemma cache_last (df : list Ohlcv.t) (col : list float) (a : float) :
  length col = length df ->
  last col = Some a ->
  let frame := Columns.set_index df (close_atr_rows df col) in
  frame <> [] /\ atr (snd (List.last frame no_row)) = a.
Proof.
  intros Hlen Ha frame.
  rewrite last_lookup in Ha.
  assert (Hk : (pred (length col) < length df)%nat).
  { apply lookup_lt_Some in Ha. lia. }
  destruct (lookup_lt_is_Some_2 df _ Hk) as [c Hc].
  assert (Hrow : frame !! pred (length col)
                 = Some (Ohlcv.date c, {| close := Ohlcv.close c; atr := a |})).
  { apply set_index_lookup; [assumption|]. now apply close_atr_rows_lookup. }
  assert (Hframe : length frame = length col).
  { subst frame. unfold Columns.set_index.
    rewrite length_zip_with, length_map, close_atr_rows_length by assumption. lia. }
  split.
  - intros E. rewrite E in Hrow. discriminate Hrow.
  - rewrite <- Hframe, <- last_lookup in Hrow.
    now rewrite (last_default frame no_row _ Hrow).
Qed.

(** X16: the as-of read of the ATR caches never succeeds.  After the
    indicator pass of [SwingHighToSkyV2] or [SwingATRBreakevenV2], whatever
    the time asked for, the ATR read is the one of the latest candle of the
    batch: [_atr_at] returns it with [fallback_last] and 0.0 without, and
    [SwingATRBreakevenV2] reads it for the entry time and for the current
    time alike. *)
Theorem atr_read_is_latest (ta_ATR : AtrIndicator) (atr_len : nat)
  (df : list Ohlcv.t) (pair : string) (a : float) (t : Z) :
  length (ta_ATR df atr_len) = length df ->
  last (ta_ATR df atr_len) = Some a ->
  (forall self : SwingHighToSkyV2.Self,
     SwingHighToSkyV2._atr_at
       (SwingHighToSkyV2Pass.populate_indicators ta_ATR atr_len self df pair)
       pair t true = Ok a
     /\ SwingHighToSkyV2._atr_at
          (SwingHighToSkyV2Pass.populate_indicators ta_ATR atr_len self df pair)
          pair t false = Ok (Num 0.0))
  /\ (forall self : SwingATRBreakevenV2.Self,
        exists frame,
          SwingATRBreakevenV2.custom_info
            (SwingATRBreakevenV2Pass.populate_indicators ta_ATR atr_len self df pair)
          !! pair = Some frame
          /\ Pandas.empty frame = false
          /\ SwingATRBreakevenV2.atr_asof frame t = Ok a).
Proof.
  intros Hlen Ha.
  destruct (cache_last df (ta_ATR df atr_len) a Hlen Ha) as [Hframe Hlast].
  set (frame := Columns.set_index df (close_atr_rows df (ta_ATR df atr_len))) in *.
  split.
  - intros self. rewrite !atr_at_spec.
    unfold SwingHighToSkyV2Pass.populate_indicators. cbn [SwingHighToSkyV2._cache].
    rewrite lookup_insert_eq. fold frame.
    destruct frame as [|r frame'] eqn:Ef; [contradiction|].
    cbn [Pandas.empty]. now rewrite Hlast.
  - intros self. exists frame.
    destruct df as [|c0 df'].
    { destruct (ta_ATR [] atr_len); [discriminate Ha | discriminate Hlen]. }
    unfold SwingATRBreakevenV2Pass.populate_indicators.
    cbn [SwingATRBreakevenV2.custom_info].
    rewrite lookup_insert_eq. split; [reflexivity|]. split.
    + now destruct frame.
    + now rewrite (atr_asof_spec frame t Hframe), Hlast.
Qed.

Lemma atr_read_is_latest_witness :
  let ta_ATR : AtrIndicator := fun df _ => [NaN; Num 1; Num 7] in
  let candle d c :=
    {| Ohlcv.date := d; Ohlcv.open := Num c; Ohlcv.high := Num c; Ohlcv.low := Num c;
       Ohlcv.close := Num c; Ohlcv.volume := Num 10 |} in
  let df := [candle 900%Z 99; candle 1000%Z 100; candle 2000%Z 103] in
  SwingHighToSkyV2._atr_at
    (SwingHighToSkyV2Pass.populate_indicators ta_ATR 14%nat (SwingHighToSkyV2.new ∅)
       df "BTC/USDT")
    "BTC/USDT" 1000%Z true = Ok (Num 7)
  /\ SwingHighToSkyV2._atr_at
       (SwingHighToSkyV2Pass.populate_indicators ta_ATR 14%nat (SwingHighToSkyV2.new ∅)
          df "BTC/USDT")
       "BTC/USDT" 1000%Z false = Ok (Num 0.0).
Proof.
  intros ta_ATR candle df.
  refine (proj1 (atr_read_is_latest ta_ATR 14%nat df "BTC/USDT" (Num 7) 1000%Z _ _)
            (SwingHighToSkyV2.new ∅)); reflexivity.
Defined.

(** ** [FixedRR_MultiMode.bot_start] *)

Lemma bot_start_preset (self : FixedRR_MultiMode.Self) (mode_raw : option string) :
  (mode_raw = Some "trend"%string
   /\ FixedRR_MultiMode.bot_start self mode_raw
      = {| FixedRR_MultiMode.stoploss := -0.18; FixedRR_MultiMode.rr_ratio := 2.0;
           FixedRR_MultiMode.break_even_R := 0.8; FixedRR_MultiMode.atr_mult := 2.2;
           FixedRR_MultiMode._mode := "trend";
           FixedRR_MultiMode.custom_info := FixedRR_MultiMode.custom_info self |})
  \/ (mode_raw <> Some "trend"%string
      /\ FixedRR_MultiMode.bot_start self mode_raw
         = {| FixedRR_MultiMode.stoploss := -0.08; FixedRR_MultiMode.rr_ratio := 1.2;
              FixedRR_MultiMode.break_even_R := 0.6; FixedRR_MultiMode.atr_mult := 1.8;
              FixedRR_MultiMode._mode := "mr";
              FixedRR_MultiMode.custom_info := FixedRR_MultiMode.custom_info self |}).
Proof.
  unfold FixedRR_MultiMode.bot_start.
  destruct mode_raw as [m|].
  - destruct (String.eqb m "mr") eqn:Emr.
    + apply String.eqb_eq in Emr. subst m. right. split; [discriminate | reflexivity].
    + destruct (String.eqb m "trend") eqn:Etr; cbn [orb].
      * apply String.eqb_eq in Etr. subst m. left. split; reflexivity.
      * right. split; [|reflexivity].
        apply String.eqb_neq in Etr. congruence.
  - right. split; [discriminate | reflexivity].
Qed.

(** X17: whatever the configured mode, after [bot_start] the strategy runs
    one of two presets.  Only the value "trend" (once stripped and
    lower-cased) selects the trend preset with its -18% floor; any other
    value, or none, runs the
    mean-reversion preset, whose stop never falls below -8%. *)
Theorem bot_start_floor (self : FixedRR_MultiMode.Self) (mode_raw : option string)
  (pair : string) (trade : Trade) (now : Z) (rate : Q) (profit : option Q) :
  exists q,
    FixedRR_MultiMode.custom_stoploss (FixedRR_MultiMode.bot_start self mode_raw)
      pair trade now rate profit = Ok (Num q)
    /\ FixedRR_MultiMode.custom_info (FixedRR_MultiMode.bot_start self mode_raw)
       = FixedRR_MultiMode.custom_info self
    /\ (mode_raw = Some "trend"%string ->
        FixedRR_MultiMode._mode (FixedRR_MultiMode.bot_start self mode_raw)
        = "trend"%string /\ -0.18 <= q)
    /\ (mode_raw <> Some "trend"%string ->
        FixedRR_MultiMode._mode (FixedRR_MultiMode.bot_start self mode_raw)
        = "mr"%string /\ -0.08 <= q).
Proof.
  set (self' := FixedRR_MultiMode.bot_start self mode_raw).
  assert (Hq : exists q,
             FixedRR_MultiMode.custom_stoploss self' pair trade now rate profit
             = Ok (Num q) /\ FixedRR_MultiMode.stoploss self' <= q).
  { destruct (risk_multiple_cases (of_FixedRR_MultiMode self') pair trade now rate
                profit eq_refl) as [H | (i & _ & _ & _ & H)];
      cbn [custom_stoploss_of stoploss_of] in H; rewrite H; eexists;
      (split; [reflexivity|]); [lra | apply staged_ratio_floor]. }
  destruct Hq as (q & Hres & Hfloor). exists q.
  split; [exact Hres|].
  subst self'.
  destruct (bot_start_preset self mode_raw) as [[Hm E] | [Hm E]];
    rewrite E in *; cbn [FixedRR_MultiMode.custom_info FixedRR_MultiMode._mode
                          FixedRR_MultiMode.stoploss] in *;
    (split; [reflexivity|]); split; intros H; try contradiction;
    (split; [reflexivity | lra]).
Qed.

(** ** Entry and exit signals, row by row *)

Lemma map_lookup {A B : Type} (f : A -> B) (l : list A) (i : nat) :
  map f l !! i = match l !! i with Some x => Some (f x) | None => None end.
Proof.
  change (map f l) with (f <$> l). rewrite list_lookup_fmap.
  now destruct (l !! i).
Qed.

Lemma zip_lookup {A B C : Type} (f : A -> B -> C) (a : list A) (b : list B) (i : nat) :
  zip_with f a b !! i
  = match a !! i, b !! i with
    | Some x, Some y => Some (f x y)
    | _, _ => None
    end.
Proof. rewrite lookup_zip_with. now destruct (a !! i), (b !! i). Qed.

Lemma shift1_lookup_O (a : list float) (x : float) :
  Series.shift1 a !! 0%nat = Some x -> x = NaN.
Proof. destruct a; cbn; [discriminate | now intros [= <-]]. Qed.

Lemma shift1_lookup_S (a : list float) (i : nat) (x : float) :
  Series.shift1 a !! S i = Some x -> a !! i = Some x.
Proof.
  destruct a as [|a0 a]; [discriminate|].
  unfold Series.shift1. change ((NaN :: removelast (a0 :: a)) !! S i)
    with (removelast (a0 :: a) !! i).
  rewrite removelast_firstn_len. change firstn with (@take float).
  intros H. apply lookup_take_Some in H. tauto.
Qed.

(** Unfold the column operations at one row. *)
Ltac at_row :=
  unfold Signal.assign, Signal.blank, Bar.has_volume, Series.and, SeriesOps.or,
    Series.cmp, Series.cmp_const, SeriesOps.scale, SeriesOps.fillna, Series.loc_set
    in *;
  cbn [Signal.long Signal.tag] in *;
  repeat rewrite ?zip_lookup, ?map_lookup in *.

Section Crosses.

Import EdgeBreakRetestV1Signals.

Lemma crossed_above_row (a b : list float) (i : nat) :
  _crossed_above a b !! i = Some true ->
  exists x y,
    a !! i = Some (Num x) /\ b !! i = Some (Num y) /\ y < x
    /\ exists j x' y',
         i = S j /\ a !! j = Some (Num x') /\ b !! j = Some (Num y') /\ x' <= y'.
Proof.
  unfold _crossed_above. at_row.
  destruct (Series.shift1 a !! i) as [x'|] eqn:Ea'; [|discriminate].
  destruct (Series.shift1 b !! i) as [y'|] eqn:Eb'; [|discriminate].
  destruct (a !! i) as [x|] eqn:Ea; [|discriminate].
  destruct (b !! i) as [y|] eqn:Eb; [|discriminate].
  intros [= H]. apply andb_true_iff in H. destruct H as [Hprev Hnow].
  destruct x as [x|], y as [y|]; try discriminate Hnow.
  destruct x' as [x'|], y' as [y'|]; try discriminate Hprev.
  exists x, y. repeat split.
  - unfold Py.gt, Py.lt in Hnow. now apply Qltb_true in Hnow.
  - destruct i as [|j]; [apply shift1_lookup_O in Ea'; discriminate|].
    apply shift1_lookup_S in Ea', Eb'.
    exists j, x', y'. repeat split; try assumption.
    unfold Py.le in Hprev. now apply Qle_bool_iff in Hprev.
Qed.

Lemma crossed_below_row (a b : list float) (i : nat) :
  _crossed_below a b !! i = Some true ->
  exists x y,
    a !! i = Some (Num x) /\ b !! i = Some (Num y) /\ x < y
    /\ exists j x' y',
         i = S j /\ a !! j = Some (Num x') /\ b !! j = Some (Num y') /\ y' <= x'.
Proof.
  unfold _crossed_below. at_row.
  destruct (Series.shift1 a !! i) as [x'|] eqn:Ea'; [|discriminate].
  destruct (Series.shift1 b !! i) as [y'|] eqn:Eb'; [|discriminate].
  destruct (a !! i) as [x|] eqn:Ea; [|discriminate].
  destruct (b !! i) as [y|] eqn:Eb; [|discriminate].
  intros [= H]. apply andb_true_iff in H. destruct H as [Hprev Hnow].
  destruct x as [x|], y as [y|]; try discriminate Hnow.
  destruct x' as [x'|], y' as [y'|]; try discriminate Hprev.
  exists x, y. repeat split.
  - unfold Py.lt in Hnow. now apply Qltb_true in Hnow.
  - destruct i as [|j]; [apply shift1_lookup_O in Ea'; discriminate|].
    apply shift1_lookup_S in Ea', Eb'.
    exists j, x', y'. repeat split; try assumption.
    unfold Py.ge, Py.le in Hprev. now apply Qle_bool_iff in Hprev.
Qed.

(** X18: the crossing helpers.  A cross is flagged only where the four
    values involved are numbers, with [a <= b] on the previous row and
    [a > b] on this one (the other way round for a cross below); hence the
    first row is never a cross, and no row is a cross above and a cross
    below at once. *)
Theorem crosses_are_exclusive (a b : list float) (i : nat) :
  (_crossed_above a b !! i = Some true ->
   exists j x y x' y',
     i = S j /\ a !! j = Some (Num x') /\ b !! j = Some (Num y') /\ x' <= y'
     /\ a !! i = Some (Num x) /\ b !! i = Some (Num y) /\ y < x)
  /\ (_crossed_below a b !! i = Some true ->
      exists j x y x' y',
        i = S j /\ a !! j = Some (Num x') /\ b !! j = Some (Num y') /\ y' <= x'
        /\ a !! i = Some (Num x) /\ b !! i = Some (Num y) /\ x < y)
  /\ ~ (_crossed_above a b !! i = Some true /\ _crossed_below a b !! i = Some true).
Proof.
  split; [|split].
  - intros H. apply crossed_above_row in H.
    destruct H as (x & y & Ha & Hb & Hlt & j & x' & y' & -> & Ha' & Hb' & Hle).
    exists j, x, y, x', y'. repeat split; assumption.
  - intros H. apply crossed_below_row in H.
    destruct H as (x & y & Ha & Hb & Hlt & j & x' & y' & -> & Ha' & Hb' & Hle).
    exists j, x, y, x', y'. repeat split; assumption.
  - intros [Hup Hdown].
    apply crossed_above_row in Hup. apply crossed_below_row in Hdown.
    destruct Hup as (x & y & Ha & Hb & Hlt & _).
    destruct Hdown as (x2 & y2 & Ha2 & Hb2 & Hlt2 & _).
    rewrite Ha in Ha2. rewrite Hb in Hb2.
    injection Ha2 as <-. injection Hb2 as <-. lra.
Qed.

End Crosses.

Section EdgeEntries.

Import EdgeBreakRetestV1Signals.

Lemma edge_trend_row (adx_th window : Z) (df : list Bar.t) (i : nat) (c : Bar.t) :
  df !! i = Some c ->
  trend_entry adx_th window df !! i
  = Some (Py.ge (Bar.adx14 c) (inject_Z adx_th)
          && (Py.gt (Bar.ema20 c) (Bar.ema50 c) && Py.gt (Bar.ema50 c) (Bar.ema100 c))
          && Py.le (Bar.low c)
               (Py.mul (Bar.ema20 c) (Num (1 + 0.001 * inject_Z window)))
          && Py.gt (Bar.close c) (Bar.ema20 c))%bool.
Proof. intros Hc. unfold trend_entry. at_row. now rewrite Hc. Qed.

Lemma edge_mr_row (adx_th mr_rsi_max : Z) (df : list Bar.t) (i : nat) (c : Bar.t) :
  df !! i = Some c ->
  mr_entry adx_th mr_rsi_max df !! i
  = Some (Py.lt (Bar.adx14 c) (inject_Z adx_th)
          && Py.le (Bar.close c) (Bar.bb_lower c)
          && Py.le (Bar.rsi c) (inject_Z mr_rsi_max))%bool.
Proof. intros Hc. unfold mr_entry. at_row. now rewrite Hc. Qed.

Lemma volume_row (df : list Bar.t) (i : nat) (c : Bar.t) :
  df !! i = Some c ->
  Bar.has_volume df !! i = Some (Py.gt (Bar.volume c) 0).
Proof. intros Hc. at_row. now rewrite Hc. Qed.

Lemma regimes_exclusive (x : float) (th : Q) :
  (Py.ge x th && Py.lt x th = false)%bool.
Proof.
  destruct x as [x|]; [|reflexivity].
  unfold Py.ge, Py.le, Py.lt, Py.Qltb. now destruct (Qle_bool th x).
Qed.

(** X19: the two entry rules of [EdgeBreakRetestV1] never fire on the same
    candle (one needs ADX at or above the threshold, the other below it),
    so no tag is overwritten: a candle carries "trend_pullback" exactly
    where the trend rule holds with volume, "mr_dip" exactly where the
    mean-reversion rule does, and [enter_long] is 1 exactly on tagged
    candles.  A candle whose ADX is not yet defined never enters. *)
Theorem edge_entry_rules_exclusive (adx_th window mr_rsi_max : Z)
  (df : list Bar.t) (i : nat) (c : Bar.t) :
  df !! i = Some c ->
  let cols := populate_entry_trend adx_th window mr_rsi_max df in
  let trend := Series.and (trend_entry adx_th window df) (Bar.has_volume df) in
  let mr := Series.and (mr_entry adx_th mr_rsi_max df) (Bar.has_volume df) in
  ~ (trend !! i = Some true /\ mr !! i = Some true)
  /\ (Signal.tag cols !! i = Some "trend_pullback"%string <-> trend !! i = Some true)
  /\ (Signal.tag cols !! i = Some "mr_dip"%string <-> mr !! i = Some true)
  /\ (Signal.long cols !! i = Some 1%Z
      <-> trend !! i = Some true \/ mr !! i = Some true)
  /\ (Signal.long cols !! i = Some 0%Z <-> Signal.tag cols !! i = Some ""%string)
  /\ (Py.isnan (Bar.adx14 c) = true -> Signal.long cols !! i = Some 0%Z).
Proof.
  intros Hc cols trend mr.
  pose proof (edge_trend_row adx_th window df i c Hc) as Ht.
  pose proof (edge_mr_row adx_th mr_rsi_max df i c Hc) as Hm.
  pose proof (volume_row df i c Hc) as Hv.
  pose proof (regimes_exclusive (Bar.adx14 c) (inject_Z adx_th)) as Hx.
  assert (Hi : (i < length df)%nat) by (apply lookup_lt_Some in Hc; exact Hc).
  assert (Hnan : Py.isnan (Bar.adx14 c) = true ->
                 Py.ge (Bar.adx14 c) (inject_Z adx_th) = false
                 /\ Py.lt (Bar.adx14 c) (inject_Z adx_th) = false).
  { destruct (Bar.adx14 c); [discriminate | split; reflexivity]. }
  set (bv := Py.gt (Bar.volume c) 0) in *.
  set (ge := Py.ge (Bar.adx14 c) (inject_Z adx_th)) in *.
  set (lt := Py.lt (Bar.adx14 c) (inject_Z adx_th)) in *.
  match type of Ht with _ = Some (ge && ?r1 && ?r2 && ?r3)%bool =>
    set (t1 := r1) in *; set (t2 := r2) in *; set (t3 := r3) in * end.
  match type of Hm with _ = Some (lt && ?r1 && ?r2)%bool =>
    set (m1 := r1) in *; set (m2 := r2) in * end.
  assert (Htv : trend !! i = Some (ge && t1 && t2 && t3 && bv)%bool).
  { subst trend. unfold Series.and at 1. now rewrite zip_lookup, Ht, Hv. }
  assert (Hmv : mr !! i = Some (lt && m1 && m2 && bv)%bool).
  { subst mr. unfold Series.and at 1. now rewrite zip_lookup, Hm, Hv. }
  subst cols. unfold populate_entry_trend.
  unfold Signal.assign, Signal.blank. cbn [Signal.long Signal.tag].
  fold trend mr. rewrite !loc_set_lookup, Htv, Hmv.
  rewrite !lookup_replicate_2 by assumption.
  clearbody bv t1 t2 t3 m1 m2. clear Ht Hm Hv Htv Hmv.
  destruct ge, lt; try discriminate Hx; cbn [andb];
    [ destruct t1, t2, t3, bv | destruct m1, m2, bv | ];
    cbn [andb];
    intuition (try discriminate; try reflexivity; try congruence).
Qed.

Lemma edge_entry_rules_exclusive_witness :
  let c :=
    {| Bar.low := Num 99; Bar.close := Num 101; Bar.volume := Num 10;
       Bar.ema20 := Num 100; Bar.ema50 := Num 98; Bar.ema100 := Num 97;
       Bar.ema200 := Num 95; Bar.sma20 := Num 100; Bar.rsi := Num 55;
       Bar.adx14 := Num 25; Bar.bb_lower := Num 96; Bar.bb_mid := Num 100;
       Bar.ha_open := Num 100; Bar.ha_close := Num 101 |} in
  Signal.tag (populate_entry_trend 20 1 36 [c]) !! 0%nat = Some "trend_pullback"%string
  <-> Series.and (trend_entry 20 1 [c]) (Bar.has_volume [c]) !! 0%nat = Some true.
Proof.
  intros c.
  exact (proj1 (proj2 (edge_entry_rules_exclusive 20 1 36 [c] 0%nat c eq_refl))).
Defined.

End EdgeEntries.

(** ** The volume guard *)

Lemma guarded_mask_row (m : list bool) (df : list Bar.t) (i : nat) (c : Bar.t) :
  df !! i = Some c ->
  Py.gt (Bar.volume c) 0 = false ->
  Series.and m (Bar.has_volume df) !! i <> Some true.
Proof.
  intros Hc Hv. unfold Series.and. rewrite zip_lookup.
  replace (Bar.has_volume df !! i) with (Some false).
  - destruct (m !! i) as [b|]; [|discriminate].
    rewrite andb_false_r. discriminate.
  - unfold Bar.has_volume, Series.cmp_const. now rewrite !map_lookup, Hc, Hv.
Qed.

Lemma unflagged_assign (mask : list bool) (name : string) (cols : Signal.t) (i : nat) :
  mask !! i <> Some true ->
  Signal.long cols !! i <> Some 1%Z ->
  Signal.long (Signal.assign mask name cols) !! i <> Some 1%Z.
Proof.
  intros Hm Hcol. unfold Signal.assign. cbn [Signal.long].
  rewrite loc_set_lookup.
  destruct (mask !! i) as [[|]|]; [congruence | | discriminate].
  destruct (Signal.long cols !! i); [congruence | discriminate].
Qed.

Lemma blank_unflagged (n i : nat) : Signal.long (Signal.blank n) !! i <> Some 1%Z.
Proof.
  unfold Signal.blank. cbn [Signal.long]. intros H.
  apply lookup_replicate in H. destruct H as [H _]. discriminate H.
Qed.

(** X20: a candle without volume (zero, or not a number) never carries an
    entry or an exit signal in the five strategies that guard their rules
    with [volume > 0], whatever the indicators and the knobs. *)
Theorem zero_volume_never_signals (crossed_below : CrossIndicator)
  (df : list Bar.t) (i : nat) (c : Bar.t) :
  df !! i = Some c ->
  Py.gt (Bar.volume c) 0 = false ->
  let flagged (cols : Signal.t) := Signal.long cols !! i = Some 1%Z in
  (forall adx_th window mr_rsi_max,
     ~ flagged (EdgeBreakRetestV1Signals.populate_entry_trend adx_th window mr_rsi_max df))
  /\ ~ flagged (EdgeBreakRetestV1Signals.populate_exit_trend df)
  /\ ~ flagged (FixedRiskRewardLossImprovedSignals.populate_entry_trend df)
  /\ (forall rsi_overbought,
        ~ flagged (FixedRiskRewardLossImprovedSignals.populate_exit_trend
                     crossed_below rsi_overbought df))
  /\ (forall self, ~ flagged (FixedRR_MultiModeSignals.populate_entry_trend self df))
  /\ (forall rsi_overbought self,
        ~ flagged (FixedRR_MultiModeSignals.populate_exit_trend
                     crossed_below rsi_overbought self df))
  /\ (forall pullback_tol_bp rsi_buy_min,
        ~ flagged (SwingEMA_RSI_ATRSignals.populate_entry_trend
                     pullback_tol_bp rsi_buy_min df))
  /\ (forall rsi_sell_max,
        ~ flagged (SwingEMA_RSI_ATRSignals.populate_exit_trend rsi_sell_max df))
  /\ (forall rsi_buy,
        ~ flagged (Sma20RsiBbAtrStrategySignals.populate_entry_trend rsi_buy df))
  /\ (forall rsi_sell,
        ~ flagged (Sma20RsiBbAtrStrategySignals.populate_exit_trend rsi_sell df)).
Proof.
  intros Hc Hv flagged. subst flagged. cbv beta.
  pose proof (fun m => guarded_mask_row m df i c Hc Hv) as Hmask.
  pose proof (blank_unflagged (length df) i) as Hblank.
  repeat split; intros.
  - unfold EdgeBreakRetestV1Signals.populate_entry_trend.
    repeat apply unflagged_assign; auto.
  - unfold EdgeBreakRetestV1Signals.populate_exit_trend.
    apply unflagged_assign; auto.
  - unfold FixedRiskRewardLossImprovedSignals.populate_entry_trend,
      FixedRiskRewardLossImprovedSignals.entry_mask.
    apply unflagged_assign; auto.
  - unfold FixedRiskRewardLossImprovedSignals.populate_exit_trend,
      FixedRiskRewardLossImprovedSignals.exit_mask.
    apply unflagged_assign; auto.
  - unfold FixedRR_MultiModeSignals.populate_entry_trend,
      FixedRR_MultiModeSignals.entry_mask.
    destruct (String.eqb (FixedRR_MultiMode._mode self) "mr");
      apply unflagged_assign; auto.
  - unfold FixedRR_MultiModeSignals.populate_exit_trend,
      FixedRR_MultiModeSignals.exit_mask.
    destruct (String.eqb (FixedRR_MultiMode._mode self) "mr");
      apply unflagged_assign; auto.
  - unfold SwingEMA_RSI_ATRSignals.populate_entry_trend,
      SwingEMA_RSI_ATRSignals.entry_mask.
    apply unflagged_assign; auto.
  - unfold SwingEMA_RSI_ATRSignals.populate_exit_trend,
      SwingEMA_RSI_ATRSignals.exit_mask.
    apply unflagged_assign; auto.
  - unfold Sma20RsiBbAtrStrategySignals.populate_entry_trend,
      Sma20RsiBbAtrStrategySignals.entry_mask.
    apply unflagged_assign; auto.
  - unfold Sma20RsiBbAtrStrategySignals.populate_exit_trend,
      Sma20RsiBbAtrStrategySignals.exit_mask.
    apply unflagged_assign; auto.
Qed.

Lemma zero_volume_never_signals_witness :
  let c :=
    {| Bar.low := Num 99; Bar.close := Num 101; Bar.volume := Num 0;
       Bar.ema20 := Num 100; Bar.ema50 := Num 98; Bar.ema100 := Num 97;
       Bar.ema200 := Num 95; Bar.sma20 := Num 100; Bar.rsi := Num 80;
       Bar.adx14 := Num 25; Bar.bb_lower := Num 96; Bar.bb_mid := Num 100;
       Bar.ha_open := Num 100; Bar.ha_close := Num 101 |} in
  Signal.long (EdgeBreakRetestV1Signals.populate_exit_trend [c]) !! 0%nat <> Some 1%Z.
Proof.
  intros c.
  exact (proj1 (proj2 (zero_volume_never_signals (fun a b => map (fun _ => false) a)
                         [c] 0%nat c eq_refl eq_refl))).
Defined.

(** ** [FixedRR_MultiMode]: the mode and the entries *)

Section MultiModeEntries.

Import FixedRR_MultiModeSignals.

(** X21: unless the configured mode reads "trend", the entries after
    [bot_start] are those of the mean-reversion rule: a candle is tagged
    "mr_dip_buy" or not at all, it is flagged exactly where it is tagged,
    a flagged candle has ADX below 20, a close at or above 98% of EMA200
    and either a close at or below the lower band or RSI at most 40; a
    candle whose ADX is not a number never enters. *)
Theorem mean_reversion_entries (self : FixedRR_MultiMode.Self)
  (mode_raw : option string) (df : list Bar.t) (i : nat) (c : Bar.t) :
  mode_raw <> Some "trend"%string ->
  df !! i = Some c ->
  let cols := populate_entry_trend (FixedRR_MultiMode.bot_start self mode_raw) df in
  (Signal.tag cols !! i = Some "mr_dip_buy"%string
   \/ Signal.tag cols !! i = Some ""%string)
  /\ (Signal.long cols !! i = Some 1%Z <-> Signal.tag cols !! i = Some "mr_dip_buy"%string)
  /\ (Signal.long cols !! i = Some 0%Z <-> Signal.tag cols !! i = Some ""%string)
  /\ (Signal.long cols !! i = Some 1%Z ->
      Py.lt (Bar.adx14 c) 20 = true
      /\ Py.ge (Bar.close c) (Py.mul (Bar.ema200 c) 0.98) = true
      /\ (Py.le (Bar.close c) (Bar.bb_lower c) = true \/ Py.le (Bar.rsi c) 40 = true)
      /\ Py.gt (Bar.volume c) 0 = true)
  /\ (Py.isnan (Bar.adx14 c) = true -> Signal.long cols !! i = Some 0%Z).
Proof.
  intros Hmode Hc cols. subst cols.
  assert (Hi : (i < length df)%nat) by (apply lookup_lt_Some in Hc; exact Hc).
  destruct (bot_start_preset self mode_raw) as [[Hm _] | [_ E]]; [contradiction|].
  rewrite E. unfold populate_entry_trend, entry_mask.
  cbn [FixedRR_MultiMode._mode String.eqb Ascii.eqb Bool.eqb].
  at_row. rewrite Hc, !lookup_replicate_2 by assumption.
  destruct (Bar.adx14 c) as [adx|] eqn:Eadx; cbn [Py.isnan].
  - destruct (Py.lt (Num adx) 20), (Py.ge (Bar.close c) (Py.mul (Bar.ema200 c) 0.98)),
      (Py.le (Bar.close c) (Bar.bb_lower c)), (Py.le (Bar.rsi c) 40),
      (Py.gt (Bar.volume c) 0); cbn [andb orb];
      intuition (try discriminate; try reflexivity; try congruence).
  - change (Py.lt 50 20) with false. cbn [andb].
    intuition (try discriminate; try reflexivity; try congruence).
Qed.

Lemma mean_reversion_entries_witness :
  let c :=
    {| Bar.low := Num 94; Bar.close := Num 95; Bar.volume := Num 10;
       Bar.ema20 := Num 97; Bar.ema50 := Num 98; Bar.ema100 := Num 97;
       Bar.ema200 := Num 96; Bar.sma20 := Num 97; Bar.rsi := Num 35;
       Bar.adx14 := Num 15; Bar.bb_lower := Num 96; Bar.bb_mid := Num 98;
       Bar.ha_open := Num 96; Bar.ha_close := Num 95 |} in
  let cols :=
    populate_entry_trend
      (FixedRR_MultiMode.bot_start (FixedRR_MultiMode.new ∅) (Some "scalp"%string)) [c] in
  Signal.long cols !! 0%nat = Some 1%Z <-> Signal.tag cols !! 0%nat = Some "mr_dip_buy"%string.
Proof.
  intros c.
  refine (proj1 (proj2 (mean_reversion_entries (FixedRR_MultiMode.new ∅)
                          (Some "scalp"%string) [c] 0%nat c _ eq_refl))).
  intros H. discriminate H.
Defined.

End MultiModeEntries.

(** X22: in trend mode [FixedRR_MultiMode] is [FixedRiskRewardLossImproved]
    under another name: after [bot_start] with mode "trend" the indicator
    pass stores the same stop reference, the stop-loss callback gives the
    same answer, and the entry and exit rules flag the same candles (the
    tags differ). *)
Theorem trend_mode_is_fixed_rr_improved (ta_ATR : AtrIndicator)
  (crossed_below : CrossIndicator) (rsi_overbought : Z)
  (self : FixedRR_MultiMode.Self) (batch : list Ohlcv.t) (p pair : string)
  (trade : Trade) (now : Z) (rate : Q) (profit : option Q) (df : list Bar.t) :
  let trend := FixedRR_MultiMode.bot_start self (Some "trend"%string) in
  let improved := FixedRiskRewardLossImproved.new (FixedRR_MultiMode.custom_info self) in
  FixedRR_MultiMode.custom_stoploss
    (FixedRR_MultiModePass.populate_indicators ta_ATR trend batch p)
    pair trade now rate profit
  = FixedRiskRewardLossImproved.custom_stoploss
      (FixedRiskRewardLossImprovedPass.populate_indicators ta_ATR 2.2 improved batch p)
      pair trade now rate profit
  /\ Signal.long (FixedRR_MultiModeSignals.populate_entry_trend trend df)
     = Signal.long (FixedRiskRewardLossImprovedSignals.populate_entry_trend df)
  /\ Signal.long (FixedRR_MultiModeSignals.populate_exit_trend
                    crossed_below rsi_overbought trend df)
     = Signal.long (FixedRiskRewardLossImprovedSignals.populate_exit_trend
                      crossed_below rsi_overbought df).
Proof. repeat split. Qed.

(** ** [Sma20RsiBbAtrStrategy]: the knob [rsi_buy] *)



(** ** [SwingHighToSkyV2]: the optional entry filters *)

Section HighToSkyEntries.

Import SwingHighToSkyV2Signals.

Lemma all_lookup_prefix (n : nat) (cs ds : list (list bool)) (i : nat) :
  SeriesOps.all n (cs ++ ds) !! i = Some true ->
  SeriesOps.all n cs !! i = Some true.
Proof.
  unfold SeriesOps.all. rewrite fold_left_app.
  generalize (fold_left Series.and cs (replicate n true)). clear cs.
  induction ds as [|d ds IH]; intros m H; [exact H|].
  cbn [fold_left] in H. apply IH in H.
  unfold Series.and in H. rewrite zip_lookup in H.
  destruct (m !! i) as [[|]|]; [reflexivity | | discriminate].
  destruct (d !! i); discriminate.
Qed.

Lemma base_conds_row (self : Knobs) (df : list Candle) (i : nat) (c : Candle) :
  df !! i = Some c ->
  SeriesOps.all (length df)
    [ Series.cmp_const Py.lt (map cci df) (inject_Z (buy_cci self));
      Series.cmp_const Py.lt (map rsi df) (inject_Z (buy_rsi self)) ] !! i
  = Some (Py.lt (cci c) (inject_Z (buy_cci self))
          && Py.lt (rsi c) (inject_Z (buy_rsi self)))%bool.
Proof.
  intros Hc.
  assert (Hi : (i < length df)%nat) by (apply lookup_lt_Some in Hc; exact Hc).
  unfold SeriesOps.all. cbn [fold_left]. at_row.
  now rewrite Hc, lookup_replicate_2 by assumption.
Qed.

(** X24: the optional filters only remove entries: a candle flagged with
    the trend or the volatility filter switched on is flagged with both
    switched off, and a flagged candle always has CCI and RSI below their
    thresholds. *)
Theorem filters_only_remove_entries (self : Knobs) (df : list Candle)
  (i : nat) (c : Candle) :
  df !! i = Some c ->
  populate_entry_trend self df !! i = Some 1%Z ->
  populate_entry_trend (filters_off self) df !! i = Some 1%Z
  /\ Py.lt (cci c) (inject_Z (buy_cci self)) = true
  /\ Py.lt (rsi c) (inject_Z (buy_rsi self)) = true.
Proof.
  intros Hc H.
  assert (Hi : (i < length df)%nat) by (apply lookup_lt_Some in Hc; exact Hc).
  set (base := [ Series.cmp_const Py.lt (map cci df) (inject_Z (buy_cci self));
                 Series.cmp_const Py.lt (map rsi df) (inject_Z (buy_rsi self)) ]).
  assert (Hbase : SeriesOps.all (length df) base !! i = Some true).
  { unfold populate_entry_trend, conds in H. fold base in H.
    assert (Hsome : exists extra,
               (if enable_volatility_filter self
                then (if enable_trend_filter self
                      then base ++ [Series.cmp Py.gt (map ema_fast df) (map ema_slow df);
                                    Series.cmp Py.gt (map close df) (map ema_fast df)]
                      else base)
                     ++ [Series.cmp_const Py.gt (map bbw_pct df) (min_bb_width_pct self)]
                else if enable_trend_filter self
                     then base ++ [Series.cmp Py.gt (map ema_fast df) (map ema_slow df);
                                   Series.cmp Py.gt (map close df) (map ema_fast df)]
                     else base) = base ++ extra).
    { destruct (enable_volatility_filter self), (enable_trend_filter self);
        rewrite <- ?app_assoc; eauto using app_nil_r. }
    destruct Hsome as [extra Hextra]. rewrite Hextra in H.
    apply (all_lookup_prefix (length df) base extra).
    destruct (base ++ extra) as [|c0 cs] eqn:E.
    - apply app_eq_nil in E. destruct E as [E _]. discriminate E.
    - rewrite loc_set_lookup, lookup_replicate_2 in H by assumption.
      destruct (SeriesOps.all (length df) (c0 :: cs) !! i) as [[|]|];
        [reflexivity | discriminate H | discriminate H]. }
  subst base. rewrite (base_conds_row self df i c Hc) in Hbase.
  injection Hbase as Hbase. apply andb_true_iff in Hbase.
  split; [|exact Hbase].
  unfold populate_entry_trend, conds, filters_off.
  cbn [enable_trend_filter enable_volatility_filter buy_cci buy_rsi].
  rewrite loc_set_lookup, (base_conds_row self df i c Hc),
    lookup_replicate_2 by assumption.
  destruct Hbase as [-> ->]. reflexivity.
Qed.

Lemma filters_only_remove_entries_witness :
  let self :=
    {| buy_cci := -175; buy_rsi := 90; enable_trend_filter := true;
       enable_volatility_filter := true; min_bb_width_pct := 0.01 |} in
  let c :=
    {| cci := Num (-180); rsi := Num 40; close := Num 101; ema_fast := Num 100;
       ema_slow := Num 99; bbw_pct := Num 0.02 |} in
  populate_entry_trend (filters_off self) [c] !! 0%nat = Some 1%Z
  /\ Py.lt (cci c) (inject_Z (buy_cci self)) = true
  /\ Py.lt (rsi c) (inject_Z (buy_rsi self)) = true.
Proof.
  intros self c.
  apply (filters_only_remove_entries self [c] 0%nat c); reflexivity.
Defined.

End HighToSkyEntries.

(** ** [CustomStoplossWithPSAR]: the exit tags *)

Section PsarExits.

Import CustomStoplossWithPSARSignals.

(** X25: a candle is flagged for exit exactly when RSI is above 70 or the
    close is at or above the upper band; the tag is "bb_upper_tp" whenever
    the band rule holds, also where the RSI rule holds too, and
    "rsi_overbought_70" otherwise.  A PSAR bear flip alone flags nothing. *)
Theorem exit_tag_of_last_rule (df : list Candle) (bb_upper : list float)
  (i : nat) (c : Candle) (u : float) :
  df !! i = Some c ->
  bb_upper !! i = Some u ->
  let cols := populate_exit_trend df bb_upper in
  exit_long cols !! i
  = Some (if (Py.gt (rsi c) 70 || Py.ge (c_close c) u)%bool then Some 1%Z else None)
  /\ exit_tag cols !! i
     = Some (if Py.ge (c_close c) u then Some "bb_upper_tp"%string
             else if Py.gt (rsi c) 70 then Some "rsi_overbought_70"%string
             else None).
Proof.
  intros Hc Hu cols. subst cols.
  assert (Hi : (i < length df)%nat) by (apply lookup_lt_Some in Hc; exact Hc).
  unfold populate_exit_trend, assign_rule. cbn [exit_long exit_tag].
  rewrite !loc_set_lookup.
  unfold Series.cmp, Series.cmp_const.
  rewrite !zip_lookup, !map_lookup, Hc, Hu, !lookup_replicate_2 by assumption.
  destruct (Py.gt (rsi c) 70), (Py.ge (c_close c) u); split; reflexivity.
Qed.

Lemma exit_tag_of_last_rule_witness :
  let c :=
    {| ema20 := Num 103; ema50 := Num 102; ema200 := Num 101; c_close := Num 110;
       rsi := Num 75; macdhist := Num 1; atrp := Num 0.01; vol_ma20 := Num 10;
       sar := Num 100 |} in
  let cols := populate_exit_trend [c] [Num 109] in
  exit_long cols !! 0%nat = Some (Some 1%Z)
  /\ exit_tag cols !! 0%nat = Some (Some "bb_upper_tp"%string).
Proof.
  intros c.
  exact (exit_tag_of_last_rule [c] [Num 109] 0%nat c (Num 109) eq_refl eq_refl).
Defined.

End PsarExits.

(** ** Entry and exit on the same candle *)

Lemma shift1_length (a : list float) : length (Series.shift1 a) = length a.
Proof.
  destruct a as [|x a]; [reflexivity|].
  unfold Series.shift1. cbn [length]. rewrite removelast_firstn_len.
  rewrite length_firstn. cbn [length]. lia.
Qed.

Lemma crossed_below_defined (a b : list float) (i : nat) :
  length a = length b -> (i < length a)%nat ->
  exists v, EdgeBreakRetestV1Signals._crossed_below a b !! i = Some v.
Proof.
  intros Hlen Hi.
  apply lookup_lt_is_Some_2.
  unfold EdgeBreakRetestV1Signals._crossed_below, Series.and, Series.cmp.
  rewrite !length_zip_with, !shift1_length. lia.
Qed.

Lemma flagged_has_volume (mask : list bool) (name : string) (cols : Signal.t)
  (df : list Bar.t) (i : nat) (c : Bar.t) :
  df !! i = Some c ->
  Signal.long cols !! i <> Some 1%Z ->
  Signal.long (Signal.assign (Series.and mask (Bar.has_volume df)) name cols) !! i
  = Some 1%Z ->
  Py.gt (Bar.volume c) 0 = true.
Proof.
  intros Hc Hcols H.
  destruct (Py.gt (Bar.volume c) 0) eqn:Hv; [reflexivity|].
  exfalso. revert H. apply unflagged_assign; [|assumption].
  now apply (guarded_mask_row mask df i c).
Qed.

(** X26: buying the dip and selling it at once.  A candle that closes below
    EMA20 and is flagged for entry by [EdgeBreakRetestV1], or by
    [FixedRR_MultiMode] in mean-reversion mode, is flagged for exit by the
    same strategy on the same candle. *)
Theorem entry_below_ema20_also_exits (crossed_below : CrossIndicator)
  (df : list Bar.t) (i : nat) (c : Bar.t) :
  df !! i = Some c ->
  Py.lt (Bar.close c) (Bar.ema20 c) = true ->
  (forall adx_th window mr_rsi_max,
     Signal.long (EdgeBreakRetestV1Signals.populate_entry_trend
                    adx_th window mr_rsi_max df) !! i = Some 1%Z ->
     Signal.long (EdgeBreakRetestV1Signals.populate_exit_trend df) !! i = Some 1%Z)
  /\ (forall rsi_overbought self,
        FixedRR_MultiMode._mode self = "mr"%string ->
        Signal.long (FixedRR_MultiModeSignals.populate_entry_trend self df) !! i
        = Some 1%Z ->
        Signal.long (FixedRR_MultiModeSignals.populate_exit_trend
                       crossed_below rsi_overbought self df) !! i = Some 1%Z).
Proof.
  intros Hc Hlow.
  assert (Hi : (i < length df)%nat) by (apply lookup_lt_Some in Hc; exact Hc).
  split.
  - intros adx_th window mr_rsi_max Hentry.
    assert (Hv : Py.gt (Bar.volume c) 0 = true).
    { unfold EdgeBreakRetestV1Signals.populate_entry_trend in Hentry.
      destruct (Py.gt (Bar.volume c) 0) eqn:Hv; [reflexivity|].
      exfalso. revert Hentry.
      pose proof (fun m => guarded_mask_row m df i c Hc Hv) as Hmask.
      pose proof (blank_unflagged (length df) i) as Hblank.
      repeat apply unflagged_assign; auto. }
    destruct (crossed_below_defined (map Bar.ema20 df) (map Bar.ema50 df) i)
      as [v Hcross]; [now rewrite !length_map | now rewrite length_map |].
    unfold EdgeBreakRetestV1Signals.populate_exit_trend.
    unfold Signal.assign, Signal.blank. cbn [Signal.long].
    rewrite loc_set_lookup.
    unfold Series.and at 1. rewrite zip_lookup.
    unfold SeriesOps.or at 1. rewrite zip_lookup.
    unfold SeriesOps.or at 1. rewrite zip_lookup.
    unfold SeriesOps.or at 1. rewrite zip_lookup.
    rewrite Hcross.
    unfold Bar.has_volume, Series.cmp, Series.cmp_const.
    rewrite !zip_lookup, !map_lookup, Hc, Hv, lookup_replicate_2 by assumption.
    unfold Py.lt in Hlow |- *. rewrite Hlow.
    now rewrite orb_true_r.
  - intros rsi_overbought self Hmode Hentry.
    unfold FixedRR_MultiModeSignals.populate_entry_trend,
      FixedRR_MultiModeSignals.entry_mask in Hentry.
    unfold FixedRR_MultiModeSignals.populate_exit_trend,
      FixedRR_MultiModeSignals.exit_mask.
    rewrite Hmode in *. cbn [String.eqb Ascii.eqb Bool.eqb] in *.
    assert (Hv : Py.gt (Bar.volume c) 0 = true).
    { apply (flagged_has_volume _ _ _ df i c Hc (blank_unflagged _ _) Hentry). }
    at_row. rewrite Hc, Hv, lookup_replicate_2 by assumption.
    rewrite Hlow. now rewrite orb_true_r.
Qed.

Lemma entry_below_ema20_also_exits_witness :
  let c :=
    {| Bar.low := Num 94; Bar.close := Num 95; Bar.volume := Num 10;
       Bar.ema20 := Num 97; Bar.ema50 := Num 98; Bar.ema100 := Num 97;
       Bar.ema200 := Num 96; Bar.sma20 := Num 97; Bar.rsi := Num 35;
       Bar.adx14 := Num 15; Bar.bb_lower := Num 96; Bar.bb_mid := Num 98;
       Bar.ha_open := Num 96; Bar.ha_close := Num 95 |} in
  Signal.long (EdgeBreakRetestV1Signals.populate_exit_trend [c]) !! 0%nat = Some 1%Z.
Proof.
  intros c.
  apply (proj1 (entry_below_ema20_also_exits (fun a b => map (fun _ => false) a)
                  [c] 0%nat c eq_refl eq_refl) 20%Z 1%Z 36%Z).
  reflexivity.
Defined.
